(** * Input-Share (MouseShare): a shallow embedding of the control plane

    The development follows the layout of the repository:
    - [common.hpp]          protocol constants, enums, packed structs, serialisation;
    - [input_capture.hpp]   the low-level hook procedures of [InputCapture];
    - [input_simulator.hpp] the [SendInput] calls of [InputSimulator];
    - [network.hpp]         [Socket::recv_exact];
    - [client.cpp]          the command-line client ([Cli], [ClientRun]);
    - [server.cpp]          the command-line server ([Server]): the same
                            interceptor with one fixed edge and no topology;
    - [gui_app.cpp]         discovery, the server callbacks and threads and the
                            client loop of the GUI application ([Gui]).

    Conventions.  A C++ [int] is a [Z]; signed overflow is undefined in the
    source, so signed arithmetic is not wrapped, and a property that
    depends on a sum or a product of [int]s is stated for values that keep
    it within the range of [int] ([is_i32]).  Unsigned quantities
    ([DWORD], [uint32_t], [uint16_t], [uint8_t]) wrap and the wrap-around is
    written out with [mod].  [/] on [int] truncates towards zero: [Z.quot].
    A byte is a [Z] in [0, 256).  Values obtained from the operating system
    (tick counts, the result of [send], modifier key states) are explicit
    arguments.  Calls that only report to the user interface
    ([PostMessage], [std::cerr]) are left out. *)

From Stdlib Require Import ZArith List String Bool Lia.
Import ListNotations.
Open Scope Z_scope.

(* ===================================================================== *)
(** * common.hpp                                                          *)
(* ===================================================================== *)

Definition PROTOCOL_VERSION : Z := 1.
Definition DEFAULT_PORT : Z := 24800.
Definition MAX_PAYLOAD_SIZE : Z := 65535.

(** Conversions to the unsigned types of the source. *)
Definition to_u8 (v : Z) : Z := v mod 2 ^ 8.
Definition to_u16 (v : Z) : Z := v mod 2 ^ 16.
Definition to_u32 (v : Z) : Z := v mod 2 ^ 32.
Definition to_i16 (v : Z) : Z :=
  let u := to_u16 v in if u <? 2 ^ 15 then u else u - 2 ^ 16.
Definition to_i32 (v : Z) : Z :=
  let u := to_u32 v in if u <? 2 ^ 31 then u else u - 2 ^ 32.

Definition is_u8 (v : Z) : Prop := 0 <= v < 2 ^ 8.
Definition is_u16 (v : Z) : Prop := 0 <= v < 2 ^ 16.
Definition is_u32 (v : Z) : Prop := 0 <= v < 2 ^ 32.
Definition is_i32 (v : Z) : Prop := - 2 ^ 31 <= v < 2 ^ 31.

(** [enum class EventType : uint8_t].  An enum with a fixed underlying type
    holds every value of that type; [other] carries the values that have no
    enumerator. *)
Module EventType.
Inductive t :=
| MOUSE_MOVE | MOUSE_BUTTON | MOUSE_SCROLL | KEY_PRESS | KEY_RELEASE
| CLIPBOARD | KEEPALIVE | SCREEN_INFO | SWITCH_SCREEN
| other (v : Z).

Definition to_byte (e : t) : Z :=
  match e with
  | MOUSE_MOVE => 1 | MOUSE_BUTTON => 2 | MOUSE_SCROLL => 3
  | KEY_PRESS => 4 | KEY_RELEASE => 5 | CLIPBOARD => 6
  | KEEPALIVE => 7 | SCREEN_INFO => 8 | SWITCH_SCREEN => 9
  | other v => to_u8 v
  end.

Definition of_byte (b : Z) : t :=
  match b with
  | 1 => MOUSE_MOVE | 2 => MOUSE_BUTTON | 3 => MOUSE_SCROLL
  | 4 => KEY_PRESS | 5 => KEY_RELEASE | 6 => CLIPBOARD
  | 7 => KEEPALIVE | 8 => SCREEN_INFO | 9 => SWITCH_SCREEN
  | v => other v
  end.
End EventType.

(** [enum class MouseButton : uint8_t]. *)
Module MouseButton.
Inductive t := LEFT | MIDDLE | RIGHT | BUTTON4 | BUTTON5 | other (v : Z).

Definition to_byte (b : t) : Z :=
  match b with
  | LEFT => 1 | MIDDLE => 2 | RIGHT => 3 | BUTTON4 => 4 | BUTTON5 => 5
  | other v => to_u8 v
  end.

Definition of_byte (b : Z) : t :=
  match b with
  | 1 => LEFT | 2 => MIDDLE | 3 => RIGHT | 4 => BUTTON4 | 5 => BUTTON5
  | v => other v
  end.

Definition named (b : t) : Prop :=
  match b with other _ => False | _ => True end.
End MouseButton.

(** [enum class ScreenEdge : uint8_t]. *)
Module ScreenEdge.
Inductive t := NONE | LEFT | RIGHT | TOP | BOTTOM | other (v : Z).

Definition to_byte (e : t) : Z :=
  match e with
  | NONE => 0 | LEFT => 1 | RIGHT => 2 | TOP => 3 | BOTTOM => 4
  | other v => to_u8 v
  end.

Definition of_byte (b : Z) : t :=
  match b with
  | 0 => NONE | 1 => LEFT | 2 => RIGHT | 3 => TOP | 4 => BOTTOM
  | v => other v
  end.

Definition named (e : t) : Prop :=
  match e with other _ => False | _ => True end.

Definition eqb (a b : t) : bool :=
  match a, b with
  | NONE, NONE | LEFT, LEFT | RIGHT, RIGHT | TOP, TOP | BOTTOM, BOTTOM => true
  | other v, other w => v =? w
  | _, _ => false
  end.
End ScreenEdge.

(** The packed structs ([#pragma pack(push, 1)]). *)
Module PacketHeader.
Record t := mk
  { version : Z;            (* uint16_t *)
    type : EventType.t;
    timestamp : Z;          (* uint32_t *)
    payload_size : Z }.     (* uint16_t *)
End PacketHeader.

Module MouseMoveEvent.
Record t := mk { x : Z; y : Z; dx : Z; dy : Z }.          (* int32_t each *)
End MouseMoveEvent.

Module MouseButtonEvent.
Record t := mk { button : MouseButton.t; pressed : bool }.
End MouseButtonEvent.

Module MouseScrollEvent.
Record t := mk { dx : Z; dy : Z }.                        (* int32_t each *)
End MouseScrollEvent.

Module KeyEvent.
Record t := mk { vkCode : Z; scanCode : Z; flags : Z }.   (* uint32_t each *)
End KeyEvent.

Module ScreenInfo.
Record t := mk { width : Z; height : Z; x : Z; y : Z }.   (* int32_t each *)
End ScreenInfo.

Module SwitchScreenEvent.
Record t := mk { edge : ScreenEdge.t; position : Z }.     (* int32_t *)
End SwitchScreenEvent.

(** ** Object representation: little-endian, no padding *)

Definition byte_at (v : Z) (i : Z) : Z := (v / 2 ^ (8 * i)) mod 256.

Definition le16 (v : Z) : list Z := [byte_at v 0; byte_at v 1].
Definition le32 (v : Z) : list Z :=
  [byte_at v 0; byte_at v 1; byte_at v 2; byte_at v 3].

(** Reading at offset [o] of a buffer; the callers check the length first. *)
Definition get_u8 (b : list Z) (o : nat) : Z := nth o b 0.
Definition get_u16 (b : list Z) (o : nat) : Z :=
  nth o b 0 + 2 ^ 8 * nth (o + 1) b 0.
Definition get_u32 (b : list Z) (o : nat) : Z :=
  nth o b 0 + 2 ^ 8 * nth (o + 1) b 0
  + 2 ^ 16 * nth (o + 2) b 0 + 2 ^ 24 * nth (o + 3) b 0.
Definition get_i32 (b : list Z) (o : nat) : Z :=
  let u := get_u32 b o in if u <? 2 ^ 31 then u else u - 2 ^ 32.

Definition byte_of_bool (b : bool) : Z := if b then 1 else 0.
Definition bool_of_byte (b : Z) : bool := negb (b =? 0).

(** What [memcpy] from and the pointer cast to a packed struct do. *)
Class Packed (T : Type) :=
  { sizeof : Z;
    store : T -> list Z;
    load : list Z -> T }.

#[export] Instance Packed_PacketHeader : Packed PacketHeader.t :=
  { sizeof := 9;
    store h := le16 (PacketHeader.version h)
               ++ [EventType.to_byte (PacketHeader.type h)]
               ++ le32 (PacketHeader.timestamp h)
               ++ le16 (PacketHeader.payload_size h);
    load b := PacketHeader.mk (get_u16 b 0) (EventType.of_byte (get_u8 b 2))
                              (get_u32 b 3) (get_u16 b 7) }.

#[export] Instance Packed_MouseMoveEvent : Packed MouseMoveEvent.t :=
  { sizeof := 16;
    store e := le32 (MouseMoveEvent.x e) ++ le32 (MouseMoveEvent.y e)
               ++ le32 (MouseMoveEvent.dx e) ++ le32 (MouseMoveEvent.dy e);
    load b := MouseMoveEvent.mk (get_i32 b 0) (get_i32 b 4)
                                (get_i32 b 8) (get_i32 b 12) }.

#[export] Instance Packed_MouseButtonEvent : Packed MouseButtonEvent.t :=
  { sizeof := 2;
    store e := [MouseButton.to_byte (MouseButtonEvent.button e);
                byte_of_bool (MouseButtonEvent.pressed e)];
    load b := MouseButtonEvent.mk (MouseButton.of_byte (get_u8 b 0))
                                  (bool_of_byte (get_u8 b 1)) }.

#[export] Instance Packed_MouseScrollEvent : Packed MouseScrollEvent.t :=
  { sizeof := 8;
    store e := le32 (MouseScrollEvent.dx e) ++ le32 (MouseScrollEvent.dy e);
    load b := MouseScrollEvent.mk (get_i32 b 0) (get_i32 b 4) }.

#[export] Instance Packed_KeyEvent : Packed KeyEvent.t :=
  { sizeof := 12;
    store e := le32 (KeyEvent.vkCode e) ++ le32 (KeyEvent.scanCode e)
               ++ le32 (KeyEvent.flags e);
    load b := KeyEvent.mk (get_u32 b 0) (get_u32 b 4) (get_u32 b 8) }.

#[export] Instance Packed_ScreenInfo : Packed ScreenInfo.t :=
  { sizeof := 16;
    store e := le32 (ScreenInfo.width e) ++ le32 (ScreenInfo.height e)
               ++ le32 (ScreenInfo.x e) ++ le32 (ScreenInfo.y e);
    load b := ScreenInfo.mk (get_i32 b 0) (get_i32 b 4)
                            (get_i32 b 8) (get_i32 b 12) }.

#[export] Instance Packed_SwitchScreenEvent : Packed SwitchScreenEvent.t :=
  { sizeof := 5;
    store e := [ScreenEdge.to_byte (SwitchScreenEvent.edge e)]
               ++ le32 (SwitchScreenEvent.position e);
    load b := SwitchScreenEvent.mk (ScreenEdge.of_byte (get_u8 b 0))
                                   (get_i32 b 1) }.

(** [get_timestamp]: the steady clock in milliseconds, cast to [uint32_t]. *)
Definition get_timestamp (clock_ms : Z) : Z := to_u32 clock_ms.

Definition is_valid_packet_header (header : PacketHeader.t) : bool :=
  if negb (PacketHeader.version header =? PROTOCOL_VERSION) then false
  else if PacketHeader.payload_size header >? MAX_PAYLOAD_SIZE then false
  else true.

Definition serialize_packet {T} `{Packed T}
    (type : EventType.t) (payload : T) (clock_ms : Z) : list Z :=
  let header :=
    PacketHeader.mk PROTOCOL_VERSION type (get_timestamp clock_ms) (sizeof (T:=T)) in
  store header ++ store payload.

Definition serialize_keepalive (clock_ms : Z) : list Z :=
  let header :=
    PacketHeader.mk PROTOCOL_VERSION EventType.KEEPALIVE (get_timestamp clock_ms) 0 in
  store header.

(** The event of the protocol: a packet type together with its payload.  The
    key state travels in the packet type ([KEY_PRESS] / [KEY_RELEASE]). *)
Inductive Event :=
| EvMouseMove (e : MouseMoveEvent.t)
| EvMouseButton (e : MouseButtonEvent.t)
| EvMouseScroll (e : MouseScrollEvent.t)
| EvKey (e : KeyEvent.t) (pressed : bool)
| EvScreenInfo (e : ScreenInfo.t)
| EvSwitchScreen (e : SwitchScreenEvent.t)
| EvKeepalive.

(** The bytes each sender puts on the wire for an event. *)
Definition encode (e : Event) (clock_ms : Z) : list Z :=
  match e with
  | EvMouseMove p => serialize_packet EventType.MOUSE_MOVE p clock_ms
  | EvMouseButton p => serialize_packet EventType.MOUSE_BUTTON p clock_ms
  | EvMouseScroll p => serialize_packet EventType.MOUSE_SCROLL p clock_ms
  | EvKey p pressed =>
      serialize_packet
        (if pressed then EventType.KEY_PRESS else EventType.KEY_RELEASE) p clock_ms
  | EvScreenInfo p => serialize_packet EventType.SCREEN_INFO p clock_ms
  | EvSwitchScreen p => serialize_packet EventType.SWITCH_SCREEN p clock_ms
  | EvKeepalive => serialize_keepalive clock_ms
  end.


(* ===================================================================== *)
(** * Win32 values used by the sources                                    *)
(* ===================================================================== *)

(** The numeric values below are those of the Windows SDK headers
    ([winuser.h]); the repository only names them. *)
Definition VK_TAB : Z := 0x09.
Definition VK_SHIFT : Z := 0x10.
Definition VK_CONTROL : Z := 0x11.
Definition VK_MENU : Z := 0x12.
Definition VK_ESCAPE : Z := 0x1B.
Definition VK_DELETE : Z := 0x2E.
Definition VK_LWIN : Z := 0x5B.
Definition VK_RWIN : Z := 0x5C.
Definition VK_F4 : Z := 0x73.
Definition VK_F8 : Z := 0x77.
Definition VK_SCROLL : Z := 0x91.
Definition VK_LCONTROL : Z := 0xA2.
Definition VK_RCONTROL : Z := 0xA3.
Definition VK_LMENU : Z := 0xA4.
Definition VK_RMENU : Z := 0xA5.

Definition WM_KEYDOWN : Z := 0x0100.
Definition WM_KEYUP : Z := 0x0101.
Definition WM_SYSKEYDOWN : Z := 0x0104.
Definition WM_SYSKEYUP : Z := 0x0105.
Definition WM_MOUSEMOVE : Z := 0x0200.
Definition WM_LBUTTONDOWN : Z := 0x0201.
Definition WM_LBUTTONUP : Z := 0x0202.
Definition WM_RBUTTONDOWN : Z := 0x0204.
Definition WM_RBUTTONUP : Z := 0x0205.
Definition WM_MBUTTONDOWN : Z := 0x0207.
Definition WM_MBUTTONUP : Z := 0x0208.
Definition WM_MOUSEWHEEL : Z := 0x020A.
Definition WM_XBUTTONDOWN : Z := 0x020B.
Definition WM_XBUTTONUP : Z := 0x020C.
Definition WM_MOUSEHWHEEL : Z := 0x020E.

Definition WHEEL_DELTA : Z := 120.
Definition XBUTTON1 : Z := 1.
Definition XBUTTON2 : Z := 2.

Definition LLKHF_EXTENDED : Z := 0x01.
Definition KEYEVENTF_EXTENDEDKEY : Z := 0x0001.
Definition KEYEVENTF_KEYUP : Z := 0x0002.

Definition MOUSEEVENTF_MOVE : Z := 0x0001.
Definition MOUSEEVENTF_LEFTDOWN : Z := 0x0002.
Definition MOUSEEVENTF_LEFTUP : Z := 0x0004.
Definition MOUSEEVENTF_RIGHTDOWN : Z := 0x0008.
Definition MOUSEEVENTF_RIGHTUP : Z := 0x0010.
Definition MOUSEEVENTF_MIDDLEDOWN : Z := 0x0020.
Definition MOUSEEVENTF_MIDDLEUP : Z := 0x0040.
Definition MOUSEEVENTF_XDOWN : Z := 0x0080.
Definition MOUSEEVENTF_XUP : Z := 0x0100.
Definition MOUSEEVENTF_WHEEL : Z := 0x0800.
Definition MOUSEEVENTF_HWHEEL : Z := 0x1000.
Definition MOUSEEVENTF_ABSOLUTE : Z := 0x8000.

(** [HIWORD] of a [DWORD] and the signed wheel amount stored there. *)
Definition HIWORD (d : Z) : Z := Z.land (Z.shiftr (to_u32 d) 16) 0xFFFF.
Definition GET_WHEEL_DELTA_WPARAM (d : Z) : Z := to_i16 (HIWORD d).

(** What a hook procedure returns: [1] swallows the event, the result of
    [CallNextHookEx] lets it reach the local applications. *)
Inductive LRESULT := Blocked | CallNextHookEx.

Record MSLLHOOKSTRUCT := { pt_x : Z; pt_y : Z; mouseData : Z }.
Record KBDLLHOOKSTRUCT := { kb_vkCode : Z; kb_scanCode : Z; kb_flags : Z }.

(** [min] and [max] of two [int]s, and the clamp both clients use. *)
Definition clamp (lo hi v : Z) : Z := Z.max lo (Z.min v hi).

(* ===================================================================== *)
(** * input_capture.hpp                                                   *)
(* ===================================================================== *)

Module InputCapture.

(** The data members of [class InputCapture] that the hooks read and write.
    The four [std::function] members are kept apart, in [Callbacks]. *)
Record t := mk
  { screen_width_ : Z;
    screen_height_ : Z;
    last_x_ : Z;
    last_y_ : Z;
    running_ : bool;
    captured_ : bool;
    last_activity_ : Z }.     (* DWORD *)

Definition set_captured (b : bool) (c : t) : t :=
  mk (screen_width_ c) (screen_height_ c) (last_x_ c) (last_y_ c)
     (running_ c) b (last_activity_ c).

Definition set_last_activity (now : Z) (c : t) : t :=
  mk (screen_width_ c) (screen_height_ c) (last_x_ c) (last_y_ c)
     (running_ c) (captured_ c) now.

Definition set_last (x y : Z) (c : t) : t :=
  mk (screen_width_ c) (screen_height_ c) x y
     (running_ c) (captured_ c) (last_activity_ c).

Definition set_running (b : bool) (c : t) : t :=
  mk (screen_width_ c) (screen_height_ c) (last_x_ c) (last_y_ c)
     b (captured_ c) (last_activity_ c).

(** The constructor: [running_(false), captured_(false)], the other members
    by their default initialisers. *)
Definition construct : t := mk 0 0 0 0 false false 0.

(** [init]: screen metrics and cursor position come from the system. *)
Definition init (cx cy cur_x cur_y : Z) (c : t) : t :=
  mk cx cy cur_x cur_y (running_ c) (captured_ c) (last_activity_ c).

Definition start (c : t) : t := set_running true c.

Definition stop (c : t) : t := set_captured false (set_running false c).

(** [capture_input]; [tick] is the value of [GetTickCount]. *)
Definition capture_input (capture : bool) (tick : Z) (c : t) : t :=
  let c := set_captured capture c in
  if capture then set_last_activity (to_u32 tick) c else c.

Definition is_captured (c : t) : bool := captured_ c.

(** [warp_cursor]; the call of [SetCursorPos] is recorded by the caller. *)
Definition warp_cursor (x y : Z) (c : t) : t := set_last x y c.

Definition is_emergency_key (vkCode : Z) (ctrl_down alt_down : bool) : bool :=
  if (vkCode =? VK_DELETE) && ctrl_down && alt_down then true
  else if (vkCode =? VK_CONTROL) || (vkCode =? VK_LCONTROL)
          || (vkCode =? VK_RCONTROL) then true
  else if (vkCode =? VK_MENU) || (vkCode =? VK_LMENU)
          || (vkCode =? VK_RMENU) then true
  else if vkCode =? VK_DELETE then true
  else if vkCode =? VK_SCROLL then true
  else if (vkCode =? VK_ESCAPE) && ctrl_down && alt_down then true
  else if (vkCode =? VK_LWIN) || (vkCode =? VK_RWIN) then true
  else if (vkCode =? VK_ESCAPE) && ctrl_down then true
  else if (vkCode =? VK_TAB) && alt_down then true
  else if (vkCode =? VK_F4) && alt_down then true
  else false.

(** The safety check made after each message the hook thread's loop has
    dispatched; [now] is [GetTickCount], the difference is a [DWORD]. *)
Definition safety_timeout (now : Z) (c : t) : t :=
  if captured_ c then
    if to_u32 (to_u32 now - last_activity_ c) >? 30000
    then set_captured false c
    else c
  else c.

(** The loop [while (running_ && GetMessage(...))] of [hook_thread_func]:
    one tick value per message that [GetMessage] returned. *)
Fixpoint message_loop (ticks : list Z) (c : t) : t :=
  match ticks with
  | [] => c
  | now :: rest =>
      if running_ c then message_loop rest (safety_timeout now c) else c
  end.

Section Hooks.

(** The hook procedures are static and reach the object through
    [instance_]; the object is a member of the application state [App].
    [instance_] is set by the constructor and cleared by the destructor of
    that member, so it is not null while the application state exists. *)
Context {App : Type}.
Variable capture : App -> t.
Variable with_capture : t -> App -> App.

Record Callbacks := mkCallbacks
  { move_callback_ : option (Z -> Z -> Z -> Z -> App -> App);
    button_callback_ : option (MouseButton.t -> bool -> App -> App);
    scroll_callback_ : option (Z -> Z -> App -> App);
    key_callback_ : option (Z -> Z -> Z -> bool -> App -> App) }.

Variable cb : Callbacks.

Definition call_button (button : MouseButton.t) (pressed : bool) (a : App) : App :=
  match button_callback_ cb with
  | Some f => f button pressed a
  | None => a
  end.

Definition call_scroll (dx dy : Z) (a : App) : App :=
  match scroll_callback_ cb with
  | Some f => f dx dy a
  | None => a
  end.

Definition xbutton (ms : MSLLHOOKSTRUCT) : MouseButton.t :=
  if HIWORD (mouseData ms) =? XBUTTON1
  then MouseButton.BUTTON4 else MouseButton.BUTTON5.

(** The [switch (wParam)] of [mouse_hook_proc]. *)
Definition mouse_switch (wParam : Z) (ms : MSLLHOOKSTRUCT) (a : App) : App :=
  if wParam =? WM_MOUSEMOVE then
    let dx := pt_x ms - last_x_ (capture a) in
    let dy := pt_y ms - last_y_ (capture a) in
    let a :=
      match move_callback_ cb with
      | Some f =>
          if negb (dx =? 0) || negb (dy =? 0)
          then f (pt_x ms) (pt_y ms) dx dy a else a
      | None => a
      end in
    if negb (captured_ (capture a))
    then with_capture (set_last (pt_x ms) (pt_y ms) (capture a)) a
    else a
  else if wParam =? WM_LBUTTONDOWN then call_button MouseButton.LEFT true a
  else if wParam =? WM_LBUTTONUP then call_button MouseButton.LEFT false a
  else if wParam =? WM_RBUTTONDOWN then call_button MouseButton.RIGHT true a
  else if wParam =? WM_RBUTTONUP then call_button MouseButton.RIGHT false a
  else if wParam =? WM_MBUTTONDOWN then call_button MouseButton.MIDDLE true a
  else if wParam =? WM_MBUTTONUP then call_button MouseButton.MIDDLE false a
  else if wParam =? WM_XBUTTONDOWN then call_button (xbutton ms) true a
  else if wParam =? WM_XBUTTONUP then call_button (xbutton ms) false a
  else if wParam =? WM_MOUSEWHEEL then
    call_scroll 0 (Z.quot (GET_WHEEL_DELTA_WPARAM (mouseData ms)) WHEEL_DELTA) a
  else if wParam =? WM_MOUSEHWHEEL then
    call_scroll (Z.quot (GET_WHEEL_DELTA_WPARAM (mouseData ms)) WHEEL_DELTA) 0 a
  else a.

(** [mouse_hook_proc]; [tick] is [GetTickCount]. *)
Definition mouse_hook_proc (tick : Z) (nCode wParam : Z) (ms : MSLLHOOKSTRUCT)
    (a : App) : App * LRESULT :=
  if nCode >=? 0 then
    let a :=
      if captured_ (capture a)
      then with_capture (set_last_activity (to_u32 tick) (capture a)) a
      else a in
    let a := mouse_switch wParam ms a in
    if captured_ (capture a) then (a, Blocked) else (a, CallNextHookEx)
  else (a, CallNextHookEx).

(** [keyboard_hook_proc]; [ctrl_down] and [alt_down] are what
    [GetAsyncKeyState] reports ([shift_down] is read and not used). *)
Definition keyboard_hook_proc (tick : Z) (ctrl_down alt_down : bool)
    (nCode wParam : Z) (kb : KBDLLHOOKSTRUCT) (a : App) : App * LRESULT :=
  if nCode >=? 0 then
    let pressed := (wParam =? WM_KEYDOWN) || (wParam =? WM_SYSKEYDOWN) in
    if is_emergency_key (kb_vkCode kb) ctrl_down alt_down then
      let a :=
        if (kb_vkCode kb =? VK_SCROLL) && pressed then
          if captured_ (capture a)
          then with_capture (set_captured false (capture a)) a
          else a
        else a in
      let a :=
        if (kb_vkCode kb =? VK_ESCAPE) && ctrl_down && alt_down && pressed
        then with_capture (set_captured false (capture a)) a
        else a in
      (a, CallNextHookEx)
    else
      let a :=
        if captured_ (capture a)
        then with_capture (set_last_activity (to_u32 tick) (capture a)) a
        else a in
      let a :=
        match key_callback_ cb with
        | Some f => f (kb_vkCode kb) (kb_scanCode kb) (kb_flags kb) pressed a
        | None => a
        end in
      if captured_ (capture a) then (a, Blocked) else (a, CallNextHookEx)
  else (a, CallNextHookEx).

End Hooks.

End InputCapture.


(* ===================================================================== *)
(** * input_simulator.hpp                                                 *)
(* ===================================================================== *)

Module InputSimulator.

(** The part of the Win32 [INPUT] structure the simulator fills in. *)
Inductive INPUT :=
| INPUT_MOUSE (dx dy mouseData dwFlags : Z)
| INPUT_KEYBOARD (wVk wScan dwFlags : Z).

(** The data members, and the calls of [SendInput] made so far. *)
Record t := mk
  { screen_width_ : Z;
    screen_height_ : Z;
    current_x_ : Z;
    current_y_ : Z;
    injected : list INPUT }.

Definition construct : t := mk 0 0 0 0 [].

Definition SendInput (i : INPUT) (s : t) : t :=
  mk (screen_width_ s) (screen_height_ s) (current_x_ s) (current_y_ s)
     (injected s ++ [i]).

Definition set_current (x y : Z) (s : t) : t :=
  mk (screen_width_ s) (screen_height_ s) x y (injected s).

(** [init]: [update_screen_dimensions] and the cursor position. *)
Definition init (cx cy cur_x cur_y : Z) (s : t) : t :=
  mk cx cy cur_x cur_y (injected s).

Definition move_mouse (x y : Z) (s : t) : t :=
  let x := clamp 0 (screen_width_ s - 1) x in
  let y := clamp 0 (screen_height_ s - 1) y in
  let norm_x := Z.quot (x * 65535) (screen_width_ s - 1) in
  let norm_y := Z.quot (y * 65535) (screen_height_ s - 1) in
  let s := SendInput (INPUT_MOUSE norm_x norm_y 0
                        (Z.lor MOUSEEVENTF_ABSOLUTE MOUSEEVENTF_MOVE)) s in
  set_current x y s.

Definition move_mouse_relative (dx dy : Z) (s : t) : t :=
  let s := SendInput (INPUT_MOUSE dx dy 0 MOUSEEVENTF_MOVE) s in
  set_current (current_x_ s + dx) (current_y_ s + dy) s.

Definition mouse_button (button : MouseButton.t) (pressed : bool) (s : t) : t :=
  let input :=
    match button with
    | MouseButton.LEFT =>
        INPUT_MOUSE 0 0 0 (if pressed then MOUSEEVENTF_LEFTDOWN else MOUSEEVENTF_LEFTUP)
    | MouseButton.RIGHT =>
        INPUT_MOUSE 0 0 0 (if pressed then MOUSEEVENTF_RIGHTDOWN else MOUSEEVENTF_RIGHTUP)
    | MouseButton.MIDDLE =>
        INPUT_MOUSE 0 0 0 (if pressed then MOUSEEVENTF_MIDDLEDOWN else MOUSEEVENTF_MIDDLEUP)
    | MouseButton.BUTTON4 =>
        INPUT_MOUSE 0 0 XBUTTON1 (if pressed then MOUSEEVENTF_XDOWN else MOUSEEVENTF_XUP)
    | MouseButton.BUTTON5 =>
        INPUT_MOUSE 0 0 XBUTTON2 (if pressed then MOUSEEVENTF_XDOWN else MOUSEEVENTF_XUP)
    | MouseButton.other _ => INPUT_MOUSE 0 0 0 0
    end in
  SendInput input s.

(** [mouse_scroll]: [mouseData] is a [DWORD]. *)
Definition mouse_scroll (dx dy : Z) (s : t) : t :=
  let s :=
    if negb (dy =? 0)
    then SendInput (INPUT_MOUSE 0 0 (to_u32 (dy * WHEEL_DELTA)) MOUSEEVENTF_WHEEL) s
    else s in
  if negb (dx =? 0)
  then SendInput (INPUT_MOUSE 0 0 (to_u32 (dx * WHEEL_DELTA)) MOUSEEVENTF_HWHEEL) s
  else s.

Definition key_event (vkCode scanCode flags : Z) (pressed : bool) (s : t) : t :=
  let dwFlags := 0 in
  let dwFlags :=
    if negb (Z.land flags LLKHF_EXTENDED =? 0)
    then Z.lor dwFlags KEYEVENTF_EXTENDEDKEY else dwFlags in
  let dwFlags :=
    if negb pressed then Z.lor dwFlags KEYEVENTF_KEYUP else dwFlags in
  SendInput (INPUT_KEYBOARD (to_u16 vkCode) (to_u16 scanCode) dwFlags) s.

End InputSimulator.

(* ===================================================================== *)
(** * network.hpp                                                         *)
(* ===================================================================== *)

Module Socket.

(** [recv_exact]: [incoming] holds the bytes that reach the socket before
    the peer closes or the timeout runs out.  The call succeeds when [len]
    of them are there; they are taken off the front. *)
Definition recv_exact (len : Z) (incoming : list Z) : option (list Z * list Z) :=
  if Z.of_nat (List.length incoming) <? len then None
  else Some (firstn (Z.to_nat len) incoming, skipn (Z.to_nat len) incoming).

End Socket.

(** How a receiver deals with the bytes of one frame. *)
Inductive Decoded :=
| Delivered (e : Event)   (* the handler for [e] is entered *)
| Ignored                 (* frame consumed, no handler, connection kept *)
| Rejected                (* the connection is given up *)
| NoFrame.                (* no complete header could be read *)

(* ===================================================================== *)
(** * client.cpp                                                          *)
(* ===================================================================== *)

Module Cli.

Record Client := mk
  { simulator_ : InputSimulator.t;
    connected_ : bool;
    active_ : bool;
    cursor_x_ : Z;
    cursor_y_ : Z;
    server_width_ : Z;
    server_height_ : Z;
    entry_edge_ : ScreenEdge.t;
    last_data_received_ : Z }.

(** The member initialisers of [class Client]. *)
Definition construct : Client :=
  mk InputSimulator.construct false false 0 0 1920 1080 ScreenEdge.NONE 0.

Definition set_simulator (s : InputSimulator.t) (c : Client) : Client :=
  mk s (connected_ c) (active_ c) (cursor_x_ c) (cursor_y_ c)
     (server_width_ c) (server_height_ c) (entry_edge_ c) (last_data_received_ c).

Definition set_connected (b : bool) (c : Client) : Client :=
  mk (simulator_ c) b (active_ c) (cursor_x_ c) (cursor_y_ c)
     (server_width_ c) (server_height_ c) (entry_edge_ c) (last_data_received_ c).

Definition set_active (b : bool) (c : Client) : Client :=
  mk (simulator_ c) (connected_ c) b (cursor_x_ c) (cursor_y_ c)
     (server_width_ c) (server_height_ c) (entry_edge_ c) (last_data_received_ c).

Definition set_cursor (x y : Z) (c : Client) : Client :=
  mk (simulator_ c) (connected_ c) (active_ c) x y
     (server_width_ c) (server_height_ c) (entry_edge_ c) (last_data_received_ c).

Definition set_server_size (w h : Z) (c : Client) : Client :=
  mk (simulator_ c) (connected_ c) (active_ c) (cursor_x_ c) (cursor_y_ c)
     w h (entry_edge_ c) (last_data_received_ c).

Definition set_entry_edge (e : ScreenEdge.t) (c : Client) : Client :=
  mk (simulator_ c) (connected_ c) (active_ c) (cursor_x_ c) (cursor_y_ c)
     (server_width_ c) (server_height_ c) e (last_data_received_ c).

Definition set_last_data_received (now : Z) (c : Client) : Client :=
  mk (simulator_ c) (connected_ c) (active_ c) (cursor_x_ c) (cursor_y_ c)
     (server_width_ c) (server_height_ c) (entry_edge_ c) now.

Definition scale_position (pos from_size to_size : Z) : Z :=
  if (from_size <=? 0) || (to_size <=? 0) then 0
  else Z.quot (pos * to_size) from_size.

Definition check_edge_switch (c : Client) : Client :=
  let w := InputSimulator.screen_width_ (simulator_ c) in
  let h := InputSimulator.screen_height_ (simulator_ c) in
  let at_entry_edge :=
    match entry_edge_ c with
    | ScreenEdge.LEFT => cursor_x_ c <=? 0
    | ScreenEdge.RIGHT => cursor_x_ c >=? w - 1
    | ScreenEdge.TOP => cursor_y_ c <=? 0
    | ScreenEdge.BOTTOM => cursor_y_ c >=? h - 1
    | _ => false
    end in
  if at_entry_edge then set_active false c else c.

Definition handle_mouse_move (event : MouseMoveEvent.t) (c : Client) : Client :=
  if negb (active_ c) then c
  else
    let w := InputSimulator.screen_width_ (simulator_ c) in
    let h := InputSimulator.screen_height_ (simulator_ c) in
    let x := cursor_x_ c + MouseMoveEvent.dx event in
    let y := cursor_y_ c + MouseMoveEvent.dy event in
    let x := clamp 0 (w - 1) x in
    let y := clamp 0 (h - 1) y in
    let c := set_cursor x y c in
    let c := set_simulator (InputSimulator.move_mouse x y (simulator_ c)) c in
    check_edge_switch c.

Definition handle_mouse_button (event : MouseButtonEvent.t) (c : Client) : Client :=
  if negb (active_ c) then c
  else set_simulator
         (InputSimulator.mouse_button (MouseButtonEvent.button event)
            (MouseButtonEvent.pressed event) (simulator_ c)) c.

Definition handle_mouse_scroll (event : MouseScrollEvent.t) (c : Client) : Client :=
  if negb (active_ c) then c
  else set_simulator
         (InputSimulator.mouse_scroll (MouseScrollEvent.dx event)
            (MouseScrollEvent.dy event) (simulator_ c)) c.

Definition handle_key_event (event : KeyEvent.t) (pressed : bool) (c : Client) : Client :=
  if negb (active_ c) then c
  else set_simulator
         (InputSimulator.key_event (KeyEvent.vkCode event) (KeyEvent.scanCode event)
            (KeyEvent.flags event) pressed (simulator_ c)) c.

Definition handle_screen_info (info : ScreenInfo.t) (c : Client) : Client :=
  set_server_size (ScreenInfo.width info) (ScreenInfo.height info) c.

Definition handle_switch_screen (event : SwitchScreenEvent.t) (c : Client) : Client :=
  let c := set_active true c in
  let c := set_entry_edge (SwitchScreenEvent.edge event) c in
  let w := InputSimulator.screen_width_ (simulator_ c) in
  let h := InputSimulator.screen_height_ (simulator_ c) in
  let position := SwitchScreenEvent.position event in
  let c :=
    match SwitchScreenEvent.edge event with
    | ScreenEdge.LEFT =>
        set_cursor 0 (scale_position position (server_height_ c) h) c
    | ScreenEdge.RIGHT =>
        set_cursor (w - 1) (scale_position position (server_height_ c) h) c
    | ScreenEdge.TOP =>
        set_cursor (scale_position position (server_width_ c) w) 0 c
    | ScreenEdge.BOTTOM =>
        set_cursor (scale_position position (server_width_ c) w) (h - 1) c
    | _ => set_cursor (Z.quot w 2) (Z.quot h 2) c
    end in
  set_simulator (InputSimulator.move_mouse (cursor_x_ c) (cursor_y_ c) (simulator_ c)) c.

(** The [switch (header.type)] of [process_events]: which handler is entered. *)
Definition dispatch (header : PacketHeader.t) (payload : list Z) : Decoded :=
  let size := Z.of_nat (List.length payload) in
  match PacketHeader.type header with
  | EventType.MOUSE_MOVE =>
      if size >=? sizeof (T:=MouseMoveEvent.t)
      then Delivered (EvMouseMove (load payload)) else Ignored
  | EventType.MOUSE_BUTTON =>
      if size >=? sizeof (T:=MouseButtonEvent.t)
      then Delivered (EvMouseButton (load payload)) else Ignored
  | EventType.MOUSE_SCROLL =>
      if size >=? sizeof (T:=MouseScrollEvent.t)
      then Delivered (EvMouseScroll (load payload)) else Ignored
  | EventType.KEY_PRESS =>
      if size >=? sizeof (T:=KeyEvent.t)
      then Delivered (EvKey (load payload) true) else Ignored
  | EventType.KEY_RELEASE =>
      if size >=? sizeof (T:=KeyEvent.t)
      then Delivered (EvKey (load payload) false) else Ignored
  | EventType.SCREEN_INFO =>
      if size >=? sizeof (T:=ScreenInfo.t)
      then Delivered (EvScreenInfo (load payload)) else Ignored
  | EventType.SWITCH_SCREEN =>
      if size >=? sizeof (T:=SwitchScreenEvent.t)
      then Delivered (EvSwitchScreen (load payload)) else Ignored
  | EventType.KEEPALIVE => Delivered EvKeepalive
  | _ => Ignored
  end.

(** The receiving half of [process_events], up to the choice of a handler:
    header, validation, payload, dispatch.  The second component is what is
    left of the incoming bytes. *)
Definition decode (incoming : list Z) : Decoded * list Z :=
  match Socket.recv_exact (sizeof (T:=PacketHeader.t)) incoming with
  | None => (NoFrame, incoming)
  | Some (hbytes, rest) =>
      let header : PacketHeader.t := load hbytes in
      if negb (is_valid_packet_header header) then (Rejected, rest)
      else if PacketHeader.payload_size header >? 0 then
        match Socket.recv_exact (PacketHeader.payload_size header) rest with
        | None => (Rejected, rest)
        | Some (payload, rest) => (dispatch header payload, rest)
        end
      else (dispatch header [], rest)
  end.

Definition handle (e : Event) (c : Client) : Client :=
  match e with
  | EvMouseMove p => handle_mouse_move p c
  | EvMouseButton p => handle_mouse_button p c
  | EvMouseScroll p => handle_mouse_scroll p c
  | EvKey p pressed => handle_key_event p pressed c
  | EvScreenInfo p => handle_screen_info p c
  | EvSwitchScreen p => handle_switch_screen p c
  | EvKeepalive => c
  end.

(** [process_events]; [now] is the steady clock, [timed_out] tells whether a
    failed read of the header was a timeout ([WSAEWOULDBLOCK] or
    [WSAETIMEDOUT]) rather than a closed connection. *)
Definition process_events (now : Z) (timed_out : bool) (incoming : list Z)
    (c : Client) : Client * list Z :=
  match decode incoming with
  | (NoFrame, rest) => (if timed_out then c else set_connected false c, rest)
  | (Rejected, rest) =>
      (set_connected false (set_last_data_received now c), rest)
  | (Ignored, rest) => (set_last_data_received now c, rest)
  | (Delivered e, rest) => (handle e (set_last_data_received now c), rest)
  end.

End Cli.


(* ===================================================================== *)
(** * gui_app.cpp                                                         *)
(* ===================================================================== *)

Module Gui.

Definition DISCOVERY_PORT : Z := 24801.
Definition DISCOVERY_INTERVAL_MS : Z := 3000.

Record ComputerInfo := mkComputerInfo
  { name : string;
    ip : string;
    port : Z;                 (* uint16_t *)
    screen_width : Z;
    screen_height : Z;
    is_server : bool;
    is_connected : bool;
    last_seen : Z;            (* DWORD *)
    layout_x : Z;
    layout_y : Z }.

Definition set_is_connected (b : bool) (c : ComputerInfo) : ComputerInfo :=
  mkComputerInfo (name c) (ip c) (port c) (screen_width c) (screen_height c)
    (is_server c) b (last_seen c) (layout_x c) (layout_y c).

Definition set_layout_pos (x y : Z) (c : ComputerInfo) : ComputerInfo :=
  mkComputerInfo (name c) (ip c) (port c) (screen_width c) (screen_height c)
    (is_server c) (is_connected c) (last_seen c) x y.

(** What the callbacks do to the outside, in program order. *)
Inductive Effect :=
| SetActiveOnRemote (b : bool)          (* a write of [active_on_remote] *)
| CaptureInput (b : bool)               (* a call of [capture_input] *)
| Send (data : list Z) (sent : Z)       (* [active_client.send], its result *)
| SetCursorPos (x y : Z).               (* through [warp_cursor] *)

(** The members of [AppState] that the network and input threads use
    ([layout] stands for [layout.computers], [active_client] for the validity
    of that socket), and the journal of effects. *)
Record AppState := mkAppState
  { computer_name : string;
    server_running : bool;
    layout : list ComputerInfo;
    input_capture : InputCapture.t;
    active_client : bool;
    active_on_remote : bool;
    local_info : ComputerInfo;
    journal : list Effect }.

Definition with_layout (l : list ComputerInfo) (st : AppState) : AppState :=
  mkAppState (computer_name st) (server_running st) l (input_capture st)
    (active_client st) (active_on_remote st) (local_info st) (journal st).

Definition with_input_capture (c : InputCapture.t) (st : AppState) : AppState :=
  mkAppState (computer_name st) (server_running st) (layout st) c
    (active_client st) (active_on_remote st) (local_info st) (journal st).

Definition with_active_client (b : bool) (st : AppState) : AppState :=
  mkAppState (computer_name st) (server_running st) (layout st) (input_capture st)
    b (active_on_remote st) (local_info st) (journal st).

Definition with_server_running (b : bool) (st : AppState) : AppState :=
  mkAppState (computer_name st) b (layout st) (input_capture st)
    (active_client st) (active_on_remote st) (local_info st) (journal st).

Definition record (e : Effect) (st : AppState) : AppState :=
  mkAppState (computer_name st) (server_running st) (layout st) (input_capture st)
    (active_client st) (active_on_remote st) (local_info st) (journal st ++ [e]).

(** What one activation of a callback obtains from the system. *)
Record Env := mkEnv
  { tick : Z;                 (* GetTickCount *)
    clock_ms : Z;             (* the steady clock read by get_timestamp *)
    send_result : Z;          (* what ::send returns *)
    SM_CYSCREEN : Z }.        (* GetSystemMetrics(SM_CYSCREEN) *)

(** [g_app.active_on_remote = b]. *)
Definition set_active_on_remote (b : bool) (st : AppState) : AppState :=
  record (SetActiveOnRemote b)
    (mkAppState (computer_name st) (server_running st) (layout st) (input_capture st)
       (active_client st) b (local_info st) (journal st)).

(** [g_app.input_capture.capture_input(b)]. *)
Definition capture_input (env : Env) (b : bool) (st : AppState) : AppState :=
  record (CaptureInput b)
    (with_input_capture
       (InputCapture.capture_input b (tick env) (input_capture st)) st).

(** [g_app.input_capture.warp_cursor(x, y)]. *)
Definition warp_cursor (x y : Z) (st : AppState) : AppState :=
  record (SetCursorPos x y)
    (with_input_capture (InputCapture.warp_cursor x y (input_capture st)) st).

(** [g_app.active_client.send(data)]. *)
Definition send (env : Env) (data : list Z) (st : AppState) : Z * AppState :=
  (send_result env, record (Send data (send_result env)) st).

(** [AppState::init] followed by nothing else: the state the threads start
    from.  [cx], [cy] are the screen metrics. *)
Definition init (computer_name : string) (cx cy : Z) : AppState :=
  let local_info :=
    mkComputerInfo computer_name EmptyString DEFAULT_PORT cx cy false false 0 0 0 in
  mkAppState computer_name false [local_info] InputCapture.construct
    false false local_info [].

(** ** Discovery *)

Record DiscoveryPacket := mkDiscoveryPacket
  { magic : string;           (* char[4] *)
    dp_type : Z;
    dp_port : Z;
    dp_screen_width : Z;
    dp_screen_height : Z;
    dp_is_server : Z;
    dp_name : string }.       (* char[64], up to the first NUL *)

Definition sizeof_DiscoveryPacket : Z := 4 + 1 + 2 + 4 + 4 + 1 + 64.

(** The loop that refreshes the entry of a known computer; [None] when the
    name is not in the list ([found] stays false). *)
Fixpoint update_computer (packet : DiscoveryPacket) (ip_str : string) (now : Z)
    (computers : list ComputerInfo) : option (list ComputerInfo) :=
  match computers with
  | [] => None
  | comp :: rest =>
      if String.eqb (name comp) (dp_name packet) then
        Some (mkComputerInfo (name comp) ip_str (dp_port packet)
                (dp_screen_width packet) (dp_screen_height packet)
                (dp_is_server packet =? 1) (is_connected comp) (to_u32 now)
                (layout_x comp) (layout_y comp) :: rest)
      else
        match update_computer packet ip_str now rest with
        | Some rest' => Some (comp :: rest')
        | None => None
        end
  end.

(** [max_x] after the loop over the existing screens. *)
Definition max_right (computers : list ComputerInfo) : Z :=
  fold_left (fun max_x c => Z.max max_x (layout_x c + screen_width c)) computers 0.

Definition new_computer (packet : DiscoveryPacket) (ip_str : string) (now : Z)
    (computers : list ComputerInfo) : ComputerInfo :=
  mkComputerInfo (dp_name packet) ip_str (dp_port packet)
    (dp_screen_width packet) (dp_screen_height packet)
    (dp_is_server packet =? 1) false (to_u32 now)
    (max_right computers + 50) 0.

(** The body of the receive loop of [discovery_thread_func] for one datagram
    of [received] bytes; [now] is [GetTickCount]. *)
Definition receive_discovery (received : Z) (packet : DiscoveryPacket)
    (ip_str : string) (now : Z) (st : AppState) : AppState :=
  if received >=? sizeof_DiscoveryPacket then
    if String.eqb (magic packet) "MSHR" then
      if String.eqb (dp_name packet) (computer_name st) then st
      else
        match update_computer packet ip_str now (layout st) with
        | Some computers => with_layout computers st
        | None =>
            with_layout (layout st ++ [new_computer packet ip_str now (layout st)]) st
        end
    else st
  else st.

(** The predicate of the [remove_if] that drops stale computers. *)
Definition stale (computer_name : string) (now : Z) (c : ComputerInfo) : bool :=
  negb (String.eqb (name c) EmptyString)
  && negb (String.eqb (name c) computer_name)
  && (to_u32 (to_u32 now - last_seen c) >? 10000).

Definition remove_stale (now : Z) (st : AppState) : AppState :=
  with_layout
    (filter (fun c => negb (stale (computer_name st) now c)) (layout st)) st.

(** ** The server callbacks *)

(** "Check all edges": [(at_edge, edge, edge_position)]. *)
Definition check_all_edges (x y : Z) (st : AppState) : bool * ScreenEdge.t * Z :=
  if x <=? 0 then (true, ScreenEdge.LEFT, y)
  else if x >=? screen_width (local_info st) - 1 then (true, ScreenEdge.RIGHT, y)
  else if y <=? 0 then (true, ScreenEdge.TOP, x)
  else if y >=? screen_height (local_info st) - 1 then (true, ScreenEdge.BOTTOM, x)
  else (false, ScreenEdge.NONE, 0).

(** The chain of conditions "computer is positioned at this edge". *)
Definition positioned_at_edge (edge : ScreenEdge.t) (edge_position : Z)
    (local comp : ComputerInfo) : bool :=
  let local_x := layout_x local in
  let local_y := layout_y local in
  let local_w := screen_width local in
  let local_h := screen_height local in
  match edge with
  | ScreenEdge.RIGHT =>
      (layout_x comp =? local_x + local_w)
      && (layout_y comp <=? local_y + edge_position)
      && (layout_y comp + screen_height comp >? local_y + edge_position)
  | ScreenEdge.LEFT =>
      (layout_x comp + screen_width comp =? local_x)
      && (layout_y comp <=? local_y + edge_position)
      && (layout_y comp + screen_height comp >? local_y + edge_position)
  | ScreenEdge.BOTTOM =>
      (layout_y comp =? local_y + local_h)
      && (layout_x comp <=? local_x + edge_position)
      && (layout_x comp + screen_width comp >? local_x + edge_position)
  | ScreenEdge.TOP =>
      (layout_y comp + screen_height comp =? local_y)
      && (layout_x comp <=? local_x + edge_position)
      && (layout_x comp + screen_width comp >? local_x + edge_position)
  | _ => false
  end.

(** The loop over [g_app.layout.computers] that sets [found_neighbor]. *)
Fixpoint found_neighbor (computer_name : string) (edge : ScreenEdge.t)
    (edge_position : Z) (local : ComputerInfo) (computers : list ComputerInfo)
    : bool :=
  match computers with
  | [] => false
  | comp :: rest =>
      if String.eqb (name comp) computer_name then
        found_neighbor computer_name edge edge_position local rest
      else if negb (is_connected comp) then
        found_neighbor computer_name edge edge_position local rest
      else if positioned_at_edge edge edge_position local comp then true
      else found_neighbor computer_name edge edge_position local rest
  end.

(** The edge written into the [SwitchScreenEvent]; the field is left
    unwritten for any other value, which [at_edge] excludes. *)
Definition entry_edge_for (edge : ScreenEdge.t) : ScreenEdge.t :=
  match edge with
  | ScreenEdge.RIGHT => ScreenEdge.LEFT
  | ScreenEdge.LEFT => ScreenEdge.RIGHT
  | ScreenEdge.TOP => ScreenEdge.BOTTOM
  | ScreenEdge.BOTTOM => ScreenEdge.TOP
  | e => e
  end.

(** The mouse-move callback: the first lambda [server_thread_func] passes to
    [set_callbacks]. *)
Definition on_mouse_move (env : Env) (x y dx dy : Z) (st : AppState) : AppState :=
  let has_client := active_client st in
  if negb has_client then st
  else
    let '(at_edge, edge, edge_position) := check_all_edges x y st in
    let at_edge :=
      if at_edge then
        found_neighbor (computer_name st) edge edge_position (local_info st) (layout st)
      else at_edge in
    if at_edge && negb (active_on_remote st) then
      let st := set_active_on_remote true st in
      let st := capture_input env true st in
      let event := SwitchScreenEvent.mk (entry_edge_for edge) edge_position in
      let data := serialize_packet EventType.SWITCH_SCREEN event (clock_ms env) in
      let warp st :=
        warp_cursor (Z.quot (screen_width (local_info st)) 2)
                    (Z.quot (screen_height (local_info st)) 2) st in
      if active_client st then
        let '(sent, st) := send env data st in
        if sent <=? 0 then
          let st := set_active_on_remote false st in
          capture_input env false st
        else warp st
      else warp st
    else if active_on_remote st then
      let event := MouseMoveEvent.mk x y dx dy in
      let data := serialize_packet EventType.MOUSE_MOVE event (clock_ms env) in
      if active_client st then
        let '(sent, st) := send env data st in
        if sent <=? 0 then
          let st := set_active_on_remote false st in
          capture_input env false st
        else st
      else st
    else st.

(** The tail shared by the button, scroll and key callbacks: send, and on
    failure give the input back. *)
Definition send_or_release (env : Env) (data : list Z) (st : AppState) : AppState :=
  let '(sent, st) := send env data st in
  if sent <=? 0 then
    let st := set_active_on_remote false st in
    capture_input env false st
  else st.

(** The mouse-button callback (second lambda). *)
Definition on_mouse_button (env : Env) (button : MouseButton.t) (pressed : bool)
    (st : AppState) : AppState :=
  if negb (active_on_remote st) then st
  else if negb (active_client st) then st
  else
    let event := MouseButtonEvent.mk button pressed in
    send_or_release env (serialize_packet EventType.MOUSE_BUTTON event (clock_ms env)) st.

(** The mouse-scroll callback (third lambda). *)
Definition on_mouse_scroll (env : Env) (dx dy : Z) (st : AppState) : AppState :=
  if negb (active_on_remote st) then st
  else if negb (active_client st) then st
  else
    let event := MouseScrollEvent.mk dx dy in
    send_or_release env (serialize_packet EventType.MOUSE_SCROLL event (clock_ms env)) st.

(** The keyboard callback (fourth lambda): the F8 toggle, the Scroll Lock
    branch, then forwarding. *)
Definition on_key (env : Env) (vk scan flags : Z) (pressed : bool)
    (st : AppState) : AppState :=
  if (vk =? VK_F8) && pressed then
    let has_client := active_client st in
    if has_client then
      let st := set_active_on_remote (negb (active_on_remote st)) st in
      let new_state := active_on_remote st in
      let st := capture_input env new_state st in
      if new_state then
        let event := SwitchScreenEvent.mk ScreenEdge.LEFT (Z.quot (SM_CYSCREEN env) 2) in
        let data := serialize_packet EventType.SWITCH_SCREEN event (clock_ms env) in
        if active_client st then snd (send env data st) else st
      else st
    else st
  else if (vk =? VK_SCROLL) && pressed then
    if active_on_remote st then
      let st := set_active_on_remote false st in
      capture_input env false st
    else st
  else if negb (active_on_remote st) then st
  else
    let event := KeyEvent.mk vk scan flags in
    let data :=
      serialize_packet
        (if pressed then EventType.KEY_PRESS else EventType.KEY_RELEASE)
        event (clock_ms env) in
    if active_client st then send_or_release env data st else st.

(** The callbacks as [server_thread_func] installs them. *)
Definition callbacks (env : Env) : InputCapture.Callbacks (App:=AppState) :=
  InputCapture.mkCallbacks
    (Some (on_mouse_move env)) (Some (on_mouse_button env))
    (Some (on_mouse_scroll env)) (Some (on_key env)).

(** The two hook procedures with the callbacks of the server installed. *)
Definition mouse_hook (env : Env) (nCode wParam : Z) (ms : MSLLHOOKSTRUCT)
    (st : AppState) : AppState * LRESULT :=
  InputCapture.mouse_hook_proc input_capture with_input_capture (callbacks env)
    (tick env) nCode wParam ms st.

Definition keyboard_hook (env : Env) (ctrl_down alt_down : bool)
    (nCode wParam : Z) (kb : KBDLLHOOKSTRUCT) (st : AppState) : AppState * LRESULT :=
  InputCapture.keyboard_hook_proc input_capture with_input_capture (callbacks env)
    (tick env) ctrl_down alt_down nCode wParam kb st.

(** ** The server thread *)

(** "Mark the client computer as connected / disconnected": the first entry
    with that address. *)
Fixpoint mark_connected (client_ip : string) (b : bool)
    (computers : list ComputerInfo) : list ComputerInfo :=
  match computers with
  | [] => []
  | comp :: rest =>
      if String.eqb (ip comp) client_ip then set_is_connected b comp :: rest
      else comp :: mark_connected client_ip b rest
  end.

(** [server_thread_func], after [accept]: the client is marked in the layout, becomes
    [active_client] and is sent the screen size.  [x] and [y] of the
    [ScreenInfo] are not assigned by the source; [ux], [uy] stand for what
    the struct happens to hold. *)
Definition accept_client (env : Env) (client_ip : string) (ux uy : Z)
    (st : AppState) : AppState :=
  let st := with_layout (mark_connected client_ip true (layout st)) st in
  let st := with_active_client true st in
  let info :=
    ScreenInfo.mk (screen_width (local_info st)) (screen_height (local_info st)) ux uy in
  snd (send env (serialize_packet EventType.SCREEN_INFO info (clock_ms env)) st).

(** [server_thread_func], after the keep-alive loop: the end of a connection. *)
Definition client_gone (env : Env) (client_ip : string) (st : AppState) : AppState :=
  let st := with_layout (mark_connected client_ip false (layout st)) st in
  let st := with_active_client false st in
  let st := set_active_on_remote false st in
  capture_input env false st.

(** [g_app.input_capture.init()] and [start()], at the beginning of the
    server thread; the metrics and the cursor position come from the system. *)
Definition start_capture (cx cy cur_x cur_y : Z) (st : AppState) : AppState :=
  with_input_capture
    (InputCapture.start (InputCapture.init cx cy cur_x cur_y (input_capture st))) st.

(** [g_app.input_capture.stop()], at the end of the server thread. *)
Definition stop_capture (st : AppState) : AppState :=
  with_input_capture (InputCapture.stop (input_capture st)) st.

(** The "Start server" and "Stop server" buttons, as far as this state goes:
    the flag the server thread polls; on stop, after the thread has ended,
    [active_client.close()] and every computer marked disconnected. *)
Definition start_server (st : AppState) : AppState := with_server_running true st.

Definition stop_server (st : AppState) : AppState :=
  let st := with_server_running false st in
  let st := with_active_client false st in
  with_layout (map (set_is_connected false) (layout st)) st.

(** One pass of the hook thread's message loop. *)
Definition hook_thread_pass (now : Z) (st : AppState) : AppState :=
  with_input_capture (InputCapture.safety_timeout now (input_capture st)) st.

(** ** The client thread *)

(** The locals of [client_thread_func] and the members of [g_app] its loop
    uses; [left_loop] is set by a [break]. *)
Record ClientLoop := mkClientLoop
  { input_simulator : InputSimulator.t;
    local_width : Z;          (* g_app.local_info.screen_width *)
    local_height : Z;         (* g_app.local_info.screen_height *)
    left_loop : bool;
    cursor_x : Z;
    cursor_y : Z;
    active : bool;
    entry_edge : ScreenEdge.t }.

(** The locals as declared before the loop. *)
Definition client_start (sim : InputSimulator.t) (w h : Z) : ClientLoop :=
  mkClientLoop sim w h false 0 0 false ScreenEdge.LEFT.

Definition client_set_simulator (s : InputSimulator.t) (c : ClientLoop) : ClientLoop :=
  mkClientLoop s (local_width c) (local_height c) (left_loop c)
    (cursor_x c) (cursor_y c) (active c) (entry_edge c).

Definition client_set_cursor (x y : Z) (c : ClientLoop) : ClientLoop :=
  mkClientLoop (input_simulator c) (local_width c) (local_height c) (left_loop c)
    x y (active c) (entry_edge c).

Definition client_set_active (b : bool) (c : ClientLoop) : ClientLoop :=
  mkClientLoop (input_simulator c) (local_width c) (local_height c) (left_loop c)
    (cursor_x c) (cursor_y c) b (entry_edge c).

Definition client_set_entry_edge (e : ScreenEdge.t) (c : ClientLoop) : ClientLoop :=
  mkClientLoop (input_simulator c) (local_width c) (local_height c) (left_loop c)
    (cursor_x c) (cursor_y c) (active c) e.

Definition client_break (c : ClientLoop) : ClientLoop :=
  mkClientLoop (input_simulator c) (local_width c) (local_height c) true
    (cursor_x c) (cursor_y c) (active c) (entry_edge c).

Definition client_move_mouse (c : ClientLoop) : ClientLoop :=
  client_set_simulator
    (InputSimulator.move_mouse (cursor_x c) (cursor_y c) (input_simulator c)) c.

(** [case EventType::MOUSE_MOVE], after the two guards. *)
Definition client_mouse_move (e : MouseMoveEvent.t) (c : ClientLoop) : ClientLoop :=
  let x := cursor_x c + MouseMoveEvent.dx e in
  let y := cursor_y c + MouseMoveEvent.dy e in
  let x := clamp 0 (local_width c - 1) x in
  let y := clamp 0 (local_height c - 1) y in
  let c := client_move_mouse (client_set_cursor x y c) in
  let should_return :=
    match entry_edge c with
    | ScreenEdge.LEFT => cursor_x c <=? 0
    | ScreenEdge.RIGHT => cursor_x c >=? local_width c - 1
    | ScreenEdge.TOP => cursor_y c <=? 0
    | ScreenEdge.BOTTOM => cursor_y c >=? local_height c - 1
    | _ => false
    end in
  if should_return then
    let c := client_set_active false c in
    let c := client_set_cursor (Z.quot (local_width c) 2) (Z.quot (local_height c) 2) c in
    client_move_mouse c
  else c.

(** [case EventType::SWITCH_SCREEN], after the guard. *)
Definition client_switch_screen (e : SwitchScreenEvent.t) (c : ClientLoop) : ClientLoop :=
  let c := client_set_active true c in
  let c := client_set_entry_edge (SwitchScreenEvent.edge e) c in
  let position := SwitchScreenEvent.position e in
  let c :=
    match entry_edge c with
    | ScreenEdge.LEFT => client_set_cursor 0 position c
    | ScreenEdge.RIGHT => client_set_cursor (local_width c - 1) position c
    | ScreenEdge.TOP => client_set_cursor position 0 c
    | ScreenEdge.BOTTOM => client_set_cursor position (local_height c - 1) c
    | _ => client_set_cursor 0 position c
    end in
  let c :=
    client_set_cursor (clamp 0 (local_width c - 1) (cursor_x c))
                      (clamp 0 (local_height c - 1) (cursor_y c)) c in
  client_move_mouse c.

(** The size guards of the [switch (header.type)]: which case body is
    entered with which payload. *)
Definition client_dispatch (header : PacketHeader.t) (payload : list Z) : Decoded :=
  let size := Z.of_nat (List.length payload) in
  match PacketHeader.type header with
  | EventType.MOUSE_MOVE =>
      if size <? sizeof (T:=MouseMoveEvent.t)
      then Ignored else Delivered (EvMouseMove (load payload))
  | EventType.MOUSE_BUTTON =>
      if size <? sizeof (T:=MouseButtonEvent.t)
      then Ignored else Delivered (EvMouseButton (load payload))
  | EventType.MOUSE_SCROLL =>
      if size <? sizeof (T:=MouseScrollEvent.t)
      then Ignored else Delivered (EvMouseScroll (load payload))
  | EventType.KEY_PRESS =>
      if size <? sizeof (T:=KeyEvent.t)
      then Ignored else Delivered (EvKey (load payload) true)
  | EventType.KEY_RELEASE =>
      if size <? sizeof (T:=KeyEvent.t)
      then Ignored else Delivered (EvKey (load payload) false)
  | EventType.SWITCH_SCREEN =>
      if size <? sizeof (T:=SwitchScreenEvent.t)
      then Ignored else Delivered (EvSwitchScreen (load payload))
  | _ => Ignored
  end.

(** Header, size check and payload of one turn of the loop. *)
Definition client_decode (incoming : list Z) : Decoded * list Z :=
  match Socket.recv_exact (sizeof (T:=PacketHeader.t)) incoming with
  | None => (NoFrame, incoming)
  | Some (hbytes, rest) =>
      let header : PacketHeader.t := load hbytes in
      if PacketHeader.payload_size header >? 65535 then (Rejected, rest)
      else if PacketHeader.payload_size header >? 0 then
        match Socket.recv_exact (PacketHeader.payload_size header) rest with
        | None => (Rejected, rest)
        | Some (payload, rest) => (client_dispatch header payload, rest)
        end
      else (client_dispatch header [], rest)
  end.

(** The case bodies; the first guard of each is [if (!active) break]. *)
Definition client_handle (e : Event) (c : ClientLoop) : ClientLoop :=
  match e with
  | EvMouseMove p => if negb (active c) then c else client_mouse_move p c
  | EvMouseButton p =>
      if negb (active c) then c
      else client_set_simulator
             (InputSimulator.mouse_button (MouseButtonEvent.button p)
                (MouseButtonEvent.pressed p) (input_simulator c)) c
  | EvMouseScroll p =>
      if negb (active c) then c
      else client_set_simulator
             (InputSimulator.mouse_scroll (MouseScrollEvent.dx p)
                (MouseScrollEvent.dy p) (input_simulator c)) c
  | EvKey p pressed =>
      if negb (active c) then c
      else client_set_simulator
             (InputSimulator.key_event (KeyEvent.vkCode p) (KeyEvent.scanCode p)
                (KeyEvent.flags p) pressed (input_simulator c)) c
  | EvSwitchScreen p => client_switch_screen p c
  | EvScreenInfo _ => c       (* no case: [default] *)
  | EvKeepalive => c          (* no case: [default] *)
  end.

(** One turn of [while (g_app.client_connected)]. *)
Definition client_turn (incoming : list Z) (c : ClientLoop) : ClientLoop * list Z :=
  match client_decode incoming with
  | (NoFrame, rest) => (c, rest)
  | (Rejected, rest) => (client_break c, rest)
  | (Ignored, rest) => (c, rest)
  | (Delivered e, rest) => (client_handle e c, rest)
  end.

End Gui.


(* ===================================================================== *)
(** * Vocabulary of the properties                                        *)
(* ===================================================================== *)

(** ** Well-formed values: every field within its C++ type *)

Definition wf_header (h : PacketHeader.t) : Prop :=
  is_u16 (PacketHeader.version h)
  /\ is_u8 (EventType.to_byte (PacketHeader.type h))
  /\ EventType.of_byte (EventType.to_byte (PacketHeader.type h)) = PacketHeader.type h
  /\ is_u32 (PacketHeader.timestamp h)
  /\ is_u16 (PacketHeader.payload_size h).

Definition wf_event (e : Event) : Prop :=
  match e with
  | EvMouseMove p =>
      is_i32 (MouseMoveEvent.x p) /\ is_i32 (MouseMoveEvent.y p)
      /\ is_i32 (MouseMoveEvent.dx p) /\ is_i32 (MouseMoveEvent.dy p)
  | EvMouseButton p => MouseButton.named (MouseButtonEvent.button p)
  | EvMouseScroll p =>
      is_i32 (MouseScrollEvent.dx p) /\ is_i32 (MouseScrollEvent.dy p)
  | EvKey p _ =>
      is_u32 (KeyEvent.vkCode p) /\ is_u32 (KeyEvent.scanCode p)
      /\ is_u32 (KeyEvent.flags p)
  | EvScreenInfo p =>
      is_i32 (ScreenInfo.width p) /\ is_i32 (ScreenInfo.height p)
      /\ is_i32 (ScreenInfo.x p) /\ is_i32 (ScreenInfo.y p)
  | EvSwitchScreen p =>
      ScreenEdge.named (SwitchScreenEvent.edge p)
      /\ is_i32 (SwitchScreenEvent.position p)
  | EvKeepalive => True
  end.

Definition is_bytes (l : list Z) : Prop := Forall is_u8 l.

(** A screen on which [InputSimulator::move_mouse] is defined: more than one
    pixel each way (it divides by [screen_width_ - 1] and by
    [screen_height_ - 1]) and at most 32768 pixels each way (it multiplies a
    coordinate of the screen by 65535, in [int]). *)
Definition screen_in_range (w h : Z) : Prop :=
  1 < w <= 32768 /\ 1 < h <= 32768.

(** The cursor [(cx, cy)] of a client, the deltas of a move and the sums
    the client forms of them are within the range of [int]. *)
Definition motion_in_range (cx cy dx dy : Z) : Prop :=
  is_i32 cx /\ is_i32 cy /\ is_i32 dx /\ is_i32 dy
  /\ is_i32 (cx + dx) /\ is_i32 (cy + dy).


(** ** Neighbours in the virtual layout *)

(** [peer] is flush with [local] on [edge], and its extent along that edge
    contains the coordinate [perp] of the cursor (in local pixels). *)
Definition flush (edge : ScreenEdge.t) (perp : Z) (local peer : Gui.ComputerInfo) : Prop :=
  match edge with
  | ScreenEdge.RIGHT =>
      Gui.layout_x peer = Gui.layout_x local + Gui.screen_width local
      /\ Gui.layout_y peer <= Gui.layout_y local + perp
         < Gui.layout_y peer + Gui.screen_height peer
  | ScreenEdge.LEFT =>
      Gui.layout_x peer + Gui.screen_width peer = Gui.layout_x local
      /\ Gui.layout_y peer <= Gui.layout_y local + perp
         < Gui.layout_y peer + Gui.screen_height peer
  | ScreenEdge.BOTTOM =>
      Gui.layout_y peer = Gui.layout_y local + Gui.screen_height local
      /\ Gui.layout_x peer <= Gui.layout_x local + perp
         < Gui.layout_x peer + Gui.screen_width peer
  | ScreenEdge.TOP =>
      Gui.layout_y peer + Gui.screen_height peer = Gui.layout_y local
      /\ Gui.layout_x peer <= Gui.layout_x local + perp
         < Gui.layout_x peer + Gui.screen_width peer
  | _ => False
  end.

(** The topology holds a connected peer, other than the local machine,
    flush on [edge] at [perp]. *)
Definition flush_peer (st : Gui.AppState) (edge : ScreenEdge.t) (perp : Z) : Prop :=
  exists peer,
    In peer (Gui.layout st)
    /\ Gui.name peer <> Gui.computer_name st
    /\ Gui.is_connected peer = true
    /\ flush edge perp (Gui.local_info st) peer.

(** The rectangle of [c] lies within the range of [int], its far edges
    [layout_x + screen_width] and [layout_y + screen_height] included. *)
Definition rectangle_in_range (c : Gui.ComputerInfo) : Prop :=
  is_i32 (Gui.layout_x c) /\ is_i32 (Gui.layout_y c)
  /\ is_i32 (Gui.screen_width c) /\ is_i32 (Gui.screen_height c)
  /\ is_i32 (Gui.layout_x c + Gui.screen_width c)
  /\ is_i32 (Gui.layout_y c + Gui.screen_height c).

(** Every [int] the edge test of the move callback can compute for the
    pointer at [(x, y)], with [perp] its coordinate along the edge, is
    within the range of [int]: the pointer, [screen_width - 1] and
    [screen_height - 1] of the local screen, the local rectangle and the
    rectangle of every computer of the topology with their far edges, and
    the coordinate of the pointer in the layout, [layout_x + perp] or
    [layout_y + perp]. *)
Definition edge_test_in_range (st : Gui.AppState) (x y perp : Z) : Prop :=
  is_i32 x /\ is_i32 y /\ is_i32 perp
  /\ rectangle_in_range (Gui.local_info st)
  /\ is_i32 (Gui.screen_width (Gui.local_info st) - 1)
  /\ is_i32 (Gui.screen_height (Gui.local_info st) - 1)
  /\ is_i32 (Gui.layout_x (Gui.local_info st) + perp)
  /\ is_i32 (Gui.layout_y (Gui.local_info st) + perp)
  /\ Forall rectangle_in_range (Gui.layout st).

(** The callback took the path of the LOCAL -> REMOTE switch: the first
    things it did were to set [active_on_remote] and to capture the input. *)
Definition switch_started (st st' : Gui.AppState) : Prop :=
  exists tail,
    Gui.journal st' =
    Gui.journal st ++ Gui.SetActiveOnRemote true :: Gui.CaptureInput true :: tail.

Definition suppress (st : Gui.AppState) : bool :=
  InputCapture.captured_ (Gui.input_capture st).

(** ** The order of the writes of a callback *)

(** In the effects a callback appended, every [capture_input(true)] comes
    directly after a write of [true] to [active_on_remote]. *)
Fixpoint capture_follows_remote (prev : option Gui.Effect) (l : list Gui.Effect) : Prop :=
  match l with
  | [] => True
  | e :: rest =>
      match e with
      | Gui.CaptureInput true => prev = Some (Gui.SetActiveOnRemote true)
      | _ => True
      end /\ capture_follows_remote (Some e) rest
  end.

(** In the effects a callback appended, every write of [false] to
    [active_on_remote] is directly followed by [capture_input(false)]:
    focus and suppress are given back together. *)
Fixpoint release_follows_local (l : list Gui.Effect) : Prop :=
  match l with
  | [] => True
  | e :: rest =>
      match e with
      | Gui.SetActiveOnRemote false =>
          match rest with
          | Gui.CaptureInput false :: _ => True
          | _ => False
          end
      | _ => True
      end /\ release_follows_local rest
  end.

(** The four callbacks of the server, as one type of activation. *)
Inductive Activation :=
| OnMouseMove (x y dx dy : Z)
| OnMouseButton (button : MouseButton.t) (pressed : bool)
| OnMouseScroll (dx dy : Z)
| OnKey (vk scan flags : Z) (pressed : bool).

Definition run_callback (env : Gui.Env) (a : Activation) (st : Gui.AppState) : Gui.AppState :=
  match a with
  | OnMouseMove x y dx dy => Gui.on_mouse_move env x y dx dy st
  | OnMouseButton button pressed => Gui.on_mouse_button env button pressed st
  | OnMouseScroll dx dy => Gui.on_mouse_scroll env dx dy st
  | OnKey vk scan flags pressed => Gui.on_key env vk scan flags pressed st
  end.

(** ** Keys that always pass *)

(** The key events [is_emergency_key] lets through, spelled out. *)
Definition emergency (vkCode : Z) (ctrl_down alt_down : bool) : Prop :=
  vkCode = VK_CONTROL \/ vkCode = VK_LCONTROL \/ vkCode = VK_RCONTROL
  \/ vkCode = VK_MENU \/ vkCode = VK_LMENU \/ vkCode = VK_RMENU
  \/ vkCode = VK_DELETE
  \/ vkCode = VK_SCROLL
  \/ vkCode = VK_LWIN \/ vkCode = VK_RWIN
  \/ (vkCode = VK_ESCAPE /\ ctrl_down = true)
  \/ (vkCode = VK_TAB /\ alt_down = true)
  \/ (vkCode = VK_F4 /\ alt_down = true).

(** ** The wheel, end to end *)

(** A wheel event on the primary that is forwarded, and the frame it puts on
    the wire handed to the receiving loop of the secondary. *)
Definition wheel_frame (env : Gui.Env) (horizontal : bool) (ms : MSLLHOOKSTRUCT)
    (st : Gui.AppState) : list Z :=
  let st' :=
    fst (Gui.mouse_hook env 0 (if horizontal then WM_MOUSEHWHEEL else WM_MOUSEWHEEL) ms st) in
  match skipn (List.length (Gui.journal st)) (Gui.journal st') with
  | Gui.Send data sent :: _ => if 0 <? sent then data else []
  | _ => []
  end.

Definition injected_by (c c' : Gui.ClientLoop) : list InputSimulator.INPUT :=
  skipn (List.length (InputSimulator.injected (Gui.input_simulator c)))
        (InputSimulator.injected (Gui.input_simulator c')).

Definition injected_by_cli (c c' : Cli.Client) : list InputSimulator.INPUT :=
  skipn (List.length (InputSimulator.injected (Cli.simulator_ c)))
        (InputSimulator.injected (Cli.simulator_ c')).

(** ** Discovery *)

(** The entry of a known computer after a datagram from it. *)
Definition refreshed (packet : Gui.DiscoveryPacket) (ip_str : string) (now : Z)
    (comp : Gui.ComputerInfo) : Gui.ComputerInfo :=
  Gui.mkComputerInfo (Gui.name comp) ip_str (Gui.dp_port packet)
    (Gui.dp_screen_width packet) (Gui.dp_screen_height packet)
    (Gui.dp_is_server packet =? 1) (Gui.is_connected comp) (to_u32 now)
    (Gui.layout_x comp) (Gui.layout_y comp).

Definition known (nm : string) (computers : list Gui.ComputerInfo) : Prop :=
  exists c, In c computers /\ Gui.name c = nm.


(** ** Suppress and focus *)

(** Suppress is on only while the focus is REMOTE: what each callback of
    the primary, run from its first statement to its last without another
    thread writing in between, re-establishes. *)
Definition inv (st : Gui.AppState) : Prop :=
  suppress st = true -> Gui.active_on_remote st = true.

Arguments byte_at : simpl never.
Arguments to_u32 : simpl never.
Arguments to_u16 : simpl never.
Arguments to_u8 : simpl never.
Arguments serialize_packet : simpl never.

(* ===================================================================== *)
(** * network.hpp: the loop of [recv_exact]                               *)
(* ===================================================================== *)

Module Stream.

(** What a connected socket will still deliver: the segments in which the
    bytes arrive, in order.  [::recv(sock, buf, len, 0)] hands over at most
    [len] bytes of the first segment and returns their number; when nothing
    is left (peer gone or, under a timeout, [select] giving up) it returns
    0.  An empty segment stands for the orderly shutdown, where [recv]
    returns 0 as well. *)
Definition recv (len : Z) (segments : list (list Z))
    : Z * list Z * list (list Z) :=
  match segments with
  | [] => (0, [], [])
  | seg :: more =>
      let n := Z.min len (Z.of_nat (List.length seg)) in
      let data := firstn (Z.to_nat n) seg in
      match skipn (Z.to_nat n) seg with
      | [] => (n, data, more)
      | remaining => (n, data, remaining :: more)
      end
  end.

Inductive Result :=
| Received (buffer : list Z) (segments : list (list Z))   (* return true *)
| Failed                                                  (* return false *)
| OutOfFuel.

(** [while (received < len) { n = recv(buf + received, len - received);
    if (n <= 0) return false; received += n; } return true;] *)
Fixpoint recv_exact (fuel : nat) (len received : Z) (buffer : list Z)
    (segments : list (list Z)) : Result :=
  if received <? len then
    match fuel with
    | O => OutOfFuel
    | S fuel =>
        let '(n, data, segments) := recv (len - received) segments in
        if n <=? 0 then Failed
        else recv_exact fuel len (received + n) (buffer ++ data) segments
    end
  else Received buffer segments.

End Stream.

(* ===================================================================== *)
(** * client.cpp: the loop of [Client::run]                               *)
(* ===================================================================== *)

Module ClientRun.

(** The test made after each [process_events]: the steady clock is read in
    milliseconds here; [duration_cast<seconds>] truncates. *)
Definition check_timeout (now : Z) (c : Cli.Client) : Cli.Client :=
  let elapsed := Z.quot (now - Cli.last_data_received_ c) 1000 in
  if elapsed >? 30 then Cli.set_connected false c else c.

(** [while (g_running && connected_) { process_events(); ... }]: one pair of
    clock readings per turn, the first inside [process_events], the second
    for the timeout test.  A failed read of a header is a timeout here. *)
Fixpoint loop (clock : list (Z * Z)) (incoming : list Z) (c : Cli.Client)
    : Cli.Client * list Z :=
  match clock with
  | [] => (c, incoming)
  | (t_recv, t_check) :: later =>
      if Cli.connected_ c then
        let '(c, rest) := Cli.process_events t_recv true incoming c in
        loop later rest (check_timeout t_check c)
      else (c, incoming)
  end.

(** What the client has become after a frame carrying [e], stamped by the
    sender and read at [t_recv]: the timer reset, then the handler. *)
Definition after_frame (c : Cli.Client) (ft : (Event * Z) * (Z * Z)) : Cli.Client :=
  Cli.handle (fst (fst ft)) (Cli.set_last_data_received (fst (snd ft)) c).

(** The bytes of a sequence of frames, each event with its timestamp. *)
Definition frames_bytes (frames : list (Event * Z)) : list Z :=
  flat_map (fun f => encode (fst f) (snd f)) frames.

End ClientRun.

(* ===================================================================== *)
(** * server.cpp                                                          *)
(* ===================================================================== *)

Module Server.

(** What one activation obtains from the system. *)
Record Env := mkEnv
  { tick : Z;                 (* GetTickCount *)
    clock_ms : Z;             (* the steady clock read by get_timestamp *)
    send_result : Z }.        (* what ::send returns *)

Inductive Effect :=
| Send (data : list Z) (sent : Z)       (* [client_socket_.send], its result *)
| SetCursorPos (x y : Z).               (* through [warp_cursor] *)

(** The data members of [class Server] that its callbacks and its loop use,
    and the journal of effects. *)
Record t := mk
  { switch_edge_ : ScreenEdge.t;
    input_ : InputCapture.t;
    connected_ : bool;
    active_on_client_ : bool;
    last_keepalive_sent_ : Z;
    journal : list Effect }.

(** The constructor. *)
Definition construct (switch_edge : ScreenEdge.t) : t :=
  mk switch_edge InputCapture.construct false false 0 [].

Definition with_input (c : InputCapture.t) (s : t) : t :=
  mk (switch_edge_ s) c (connected_ s) (active_on_client_ s)
     (last_keepalive_sent_ s) (journal s).

Definition set_connected (b : bool) (s : t) : t :=
  mk (switch_edge_ s) (input_ s) b (active_on_client_ s)
     (last_keepalive_sent_ s) (journal s).

Definition set_active_on_client (b : bool) (s : t) : t :=
  mk (switch_edge_ s) (input_ s) (connected_ s) b
     (last_keepalive_sent_ s) (journal s).

Definition set_last_keepalive_sent (now : Z) (s : t) : t :=
  mk (switch_edge_ s) (input_ s) (connected_ s) (active_on_client_ s)
     now (journal s).

Definition record (e : Effect) (s : t) : t :=
  mk (switch_edge_ s) (input_ s) (connected_ s) (active_on_client_ s)
     (last_keepalive_sent_ s) (journal s ++ [e]).

Definition opposite_edge (edge : ScreenEdge.t) : ScreenEdge.t :=
  match edge with
  | ScreenEdge.LEFT => ScreenEdge.RIGHT
  | ScreenEdge.RIGHT => ScreenEdge.LEFT
  | ScreenEdge.TOP => ScreenEdge.BOTTOM
  | ScreenEdge.BOTTOM => ScreenEdge.TOP
  | _ => ScreenEdge.NONE
  end.

Definition switch_to_server (env : Env) (s : t) : t :=
  let s := set_active_on_client false s in
  with_input (InputCapture.capture_input false (tick env) (input_ s)) s.

Definition send_event {T} `{Packed T} (env : Env) (type : EventType.t)
    (payload : T) (s : t) : t :=
  if negb (connected_ s) then s
  else
    let data := serialize_packet type payload (clock_ms env) in
    let sent := send_result env in
    let s := record (Send data sent) s in
    if sent <=? 0 then
      let s := set_connected false s in
      if active_on_client_ s then switch_to_server env s else s
    else s.

Definition warp_to_center (s : t) : t :=
  let x := Z.quot (InputCapture.screen_width_ (input_ s)) 2 in
  let y := Z.quot (InputCapture.screen_height_ (input_ s)) 2 in
  record (SetCursorPos x y)
    (with_input (InputCapture.warp_cursor x y (input_ s)) s).

Definition switch_to_client (env : Env) (edge_position : Z) (s : t) : t :=
  let s := set_active_on_client true s in
  let s := with_input (InputCapture.capture_input true (tick env) (input_ s)) s in
  let event := SwitchScreenEvent.mk (opposite_edge (switch_edge_ s)) edge_position in
  let s := send_event env EventType.SWITCH_SCREEN event s in
  warp_to_center s.

Definition send_screen_info (env : Env) (s : t) : t :=
  let info :=
    ScreenInfo.mk (InputCapture.screen_width_ (input_ s))
                  (InputCapture.screen_height_ (input_ s)) 0 0 in
  send_event env EventType.SCREEN_INFO info s.

(** The [switch (switch_edge_)] of the move callback: [(at_edge, edge_pos)]. *)
Definition at_switch_edge (x y : Z) (s : t) : bool * Z :=
  match switch_edge_ s with
  | ScreenEdge.LEFT => (x <=? 0, y)
  | ScreenEdge.RIGHT => (x >=? InputCapture.screen_width_ (input_ s) - 1, y)
  | ScreenEdge.TOP => (y <=? 0, x)
  | ScreenEdge.BOTTOM => (y >=? InputCapture.screen_height_ (input_ s) - 1, x)
  | _ => (false, 0)
  end.

(** The move callback from its second statement on: what the hook thread
    runs once it has found [connected_] set. *)
Definition on_move_after_guard (env : Env) (x y dx dy : Z) (s : t) : t :=
  let '(at_edge, edge_pos) := at_switch_edge x y s in
  if at_edge && negb (active_on_client_ s) then switch_to_client env edge_pos s
  else if active_on_client_ s then
    send_event env EventType.MOUSE_MOVE (MouseMoveEvent.mk x y dx dy) s
  else s.

(** The four callbacks of [setup_callbacks]. *)
Definition on_move (env : Env) (x y dx dy : Z) (s : t) : t :=
  if negb (connected_ s) then s
  else on_move_after_guard env x y dx dy s.

Definition on_button (env : Env) (button : MouseButton.t) (pressed : bool)
    (s : t) : t :=
  if negb (connected_ s) || negb (active_on_client_ s) then s
  else send_event env EventType.MOUSE_BUTTON (MouseButtonEvent.mk button pressed) s.

Definition on_scroll (env : Env) (dx dy : Z) (s : t) : t :=
  if negb (connected_ s) || negb (active_on_client_ s) then s
  else send_event env EventType.MOUSE_SCROLL (MouseScrollEvent.mk dx dy) s.

Definition on_key (env : Env) (vkCode scanCode flags : Z) (pressed : bool)
    (s : t) : t :=
  if (vkCode =? VK_SCROLL) && pressed then
    if active_on_client_ s then switch_to_server env s
    else if connected_ s then
      switch_to_client env (Z.quot (InputCapture.screen_height_ (input_ s)) 2) s
    else s
  else if negb (connected_ s) || negb (active_on_client_ s) then s
  else
    send_event env
      (if pressed then EventType.KEY_PRESS else EventType.KEY_RELEASE)
      (KeyEvent.mk vkCode scanCode flags) s.

Definition callbacks (env : Env) : InputCapture.Callbacks (App:=t) :=
  InputCapture.mkCallbacks
    (Some (on_move env)) (Some (on_button env))
    (Some (on_scroll env)) (Some (on_key env)).

Definition mouse_hook (env : Env) (nCode wParam : Z) (ms : MSLLHOOKSTRUCT)
    (s : t) : t * LRESULT :=
  InputCapture.mouse_hook_proc input_ with_input (callbacks env)
    (tick env) nCode wParam ms s.

Definition keyboard_hook (env : Env) (ctrl_down alt_down : bool)
    (nCode wParam : Z) (kb : KBDLLHOOKSTRUCT) (s : t) : t * LRESULT :=
  InputCapture.keyboard_hook_proc input_ with_input (callbacks env)
    (tick env) ctrl_down alt_down nCode wParam kb s.

(** [Server::run]: capture initialised and started. *)
Definition start (cx cy cur_x cur_y : Z) (s : t) : t :=
  with_input (InputCapture.start (InputCapture.init cx cy cur_x cur_y (input_ s))) s.

(** [Server::run], after [accept]; [now] is the steady clock in ms. *)
Definition accepted (env : Env) (now : Z) (s : t) : t :=
  let s := set_connected true s in
  let s := set_last_keepalive_sent now s in
  send_screen_info env s.

(** "Clean disconnect handling", after the inner loop. *)
Definition disconnected (env : Env) (s : t) : t :=
  if active_on_client_ s then warp_to_center (switch_to_server env s) else s.

(** One turn of [while (g_running && connected_)], and what follows the
    loop when it is left: the keepalive is due once 5 whole seconds have
    passed ([duration_cast<seconds>] truncates). *)
Definition loop_turn (env : Env) (now : Z) (s : t) : t :=
  if connected_ s then
    let elapsed := Z.quot (now - last_keepalive_sent_ s) 1000 in
    if elapsed >=? 5 then
      let data := serialize_keepalive (clock_ms env) in
      let sent := send_result env in
      let s := record (Send data sent) s in
      if sent <=? 0 then disconnected env (set_connected false s)
      else set_last_keepalive_sent now s
    else s
  else disconnected env s.

(** The callbacks as one type of activation. *)
Definition run_callback (env : Env) (a : Activation) (s : t) : t :=
  match a with
  | OnMouseMove x y dx dy => on_move env x y dx dy s
  | OnMouseButton button pressed => on_button env button pressed s
  | OnMouseScroll dx dy => on_scroll env dx dy s
  | OnKey vk scan flags pressed => on_key env vk scan flags pressed s
  end.

(** The bytes that went out, in order: of each call of [send], as many of
    the leading bytes as the call reported sent (none when it failed). *)
Fixpoint wire (l : list Effect) : list Z :=
  match l with
  | [] => []
  | Send data sent :: rest => firstn (Z.to_nat sent) data ++ wire rest
  | _ :: rest => wire rest
  end.

End Server.

(* ===================================================================== *)
(** * gui_app.cpp: presence, the wire, the client loop                    *)
(* ===================================================================== *)

Module Presence.

(** The packet [broadcast_presence] sends; [port] is [g_app.port].
    [strncpy_s] with a count of 63 keeps at most the first 63 characters of
    the computer name. *)
Definition broadcast_presence (port : Z) (st : Gui.AppState) : Gui.DiscoveryPacket :=
  Gui.mkDiscoveryPacket "MSHR" 1 port
    (Gui.screen_width (Gui.local_info st)) (Gui.screen_height (Gui.local_info st))
    (if Gui.server_running st then 1 else 0)
    (String.substring 0 63 (Gui.computer_name st)).

End Presence.

(** The size of the frame of an event: the header and the packed payload. *)
Definition frame_size (e : Event) : Z :=
  sizeof (T:=PacketHeader.t)
  + match e with
    | EvMouseMove _ => sizeof (T:=MouseMoveEvent.t)
    | EvMouseButton _ => sizeof (T:=MouseButtonEvent.t)
    | EvMouseScroll _ => sizeof (T:=MouseScrollEvent.t)
    | EvKey _ _ => sizeof (T:=KeyEvent.t)
    | EvScreenInfo _ => sizeof (T:=ScreenInfo.t)
    | EvSwitchScreen _ => sizeof (T:=SwitchScreenEvent.t)
    | EvKeepalive => 0
    end.

(** The bytes the GUI server put on the wire: of each call of [send], as
    many of the leading bytes as the call reported sent. *)
Fixpoint gui_wire (l : list Gui.Effect) : list Z :=
  match l with
  | [] => []
  | Gui.Send data sent :: rest => firstn (Z.to_nat sent) data ++ gui_wire rest
  | _ :: rest => gui_wire rest
  end.

(** [while (g_app.client_connected)] of [client_thread_func], for a number
    of turns; a [break] leaves the loop. *)
Fixpoint client_loop (turns : nat) (incoming : list Z) (c : Gui.ClientLoop)
    : Gui.ClientLoop * list Z :=
  match turns with
  | O => (c, incoming)
  | S turns =>
      if Gui.left_loop c then (c, incoming)
      else
        let '(c, rest) := Gui.client_turn incoming c in
        client_loop turns rest c
  end.

(** The cursor kept by the GUI client lies on the screen. *)
Definition cursor_on_screen (c : Gui.ClientLoop) : Prop :=
  0 <= Gui.cursor_x c <= Gui.local_width c - 1
  /\ 0 <= Gui.cursor_y c <= Gui.local_height c - 1.

(* ===================================================================== *)
(** * Vocabulary of the further properties                                *)
(* ===================================================================== *)

(** Input is captured only while the focus is on the client, and the focus
    is on the client only while one is connected. *)
Definition server_inv (s : Server.t) : Prop :=
  (InputCapture.captured_ (Server.input_ s) = true -> Server.active_on_client_ s = true)
  /\ (Server.active_on_client_ s = true -> Server.connected_ s = true).

(** What the loop keeps: the screen size it reads, and the cursor on it. *)
Definition client_loop_inv (w h : Z) (c : Gui.ClientLoop) : Prop :=
  Gui.local_width c = w /\ Gui.local_height c = h /\ cursor_on_screen c.

(** The names in the topology, in order. *)
Definition peer_names (st : Gui.AppState) : list string :=
  map Gui.name (Gui.layout st).

(** The bytes the primary has put on the wire between two states. *)
Definition sent_by (st st' : Gui.AppState) : list Z :=
  gui_wire (skipn (List.length (Gui.journal st)) (Gui.journal st')).

(** The button and the state a mouse message stands for, as the [switch] of
    the hook reads it; [None] for the messages that are no button. *)
Definition button_of_message (wParam : Z) (ms : MSLLHOOKSTRUCT)
    : option (MouseButton.t * bool) :=
  if wParam =? WM_LBUTTONDOWN then Some (MouseButton.LEFT, true)
  else if wParam =? WM_LBUTTONUP then Some (MouseButton.LEFT, false)
  else if wParam =? WM_RBUTTONDOWN then Some (MouseButton.RIGHT, true)
  else if wParam =? WM_RBUTTONUP then Some (MouseButton.RIGHT, false)
  else if wParam =? WM_MBUTTONDOWN then Some (MouseButton.MIDDLE, true)
  else if wParam =? WM_MBUTTONUP then Some (MouseButton.MIDDLE, false)
  else if wParam =? WM_XBUTTONDOWN then Some (InputCapture.xbutton ms, true)
  else if wParam =? WM_XBUTTONUP then Some (InputCapture.xbutton ms, false)
  else None.

(* ===================================================================== *)
(** * Properties                                                          *)
(* ===================================================================== *)

Lemma byte_at_range v i : is_u8 (byte_at v i).
Proof. unfold is_u8, byte_at. change (2 ^ 8) with 256. apply Z.mod_pos_bound. lia. Qed.

Lemma u32_of_bytes v :
  byte_at v 0 + 2 ^ 8 * byte_at v 1 + 2 ^ 16 * byte_at v 2 + 2 ^ 24 * byte_at v 3
  = to_u32 v.
Proof.
  unfold byte_at, to_u32.
  change (2 ^ (8 * 0)) with 1. change (2 ^ (8 * 1)) with 256.
  change (2 ^ (8 * 2)) with 65536. change (2 ^ (8 * 3)) with 16777216.
  change (2 ^ 8) with 256. change (2 ^ 16) with 65536.
  change (2 ^ 24) with 16777216. change (2 ^ 32) with 4294967296.
  Z.div_mod_to_equations. lia.
Qed.

Lemma u16_of_bytes v :
  byte_at v 0 + 2 ^ 8 * byte_at v 1 = to_u16 v.
Proof.
  unfold byte_at, to_u16.
  change (2 ^ (8 * 0)) with 1. change (2 ^ (8 * 1)) with 256.
  change (2 ^ 8) with 256. change (2 ^ 16) with 65536.
  Z.div_mod_to_equations. lia.
Qed.


Lemma to_u32_id v : is_u32 v -> to_u32 v = v.
Proof. unfold is_u32, to_u32. intros. apply Z.mod_small. lia. Qed.

Lemma to_u16_id v : is_u16 v -> to_u16 v = v.
Proof. unfold is_u16, to_u16. intros. apply Z.mod_small. lia. Qed.

Lemma to_i32_id v : is_i32 v -> to_i32 v = v.
Proof.
  unfold is_i32, to_i32, to_u32. change (2 ^ 31) with 2147483648.
  change (2 ^ 32) with 4294967296. intros H.
  destruct (Z.ltb_spec (v mod 4294967296) 2147483648);
    Z.div_mod_to_equations; lia.
Qed.

Lemma get_u16_le16 v rest : get_u16 (le16 v ++ rest) 0 = to_u16 v.
Proof. unfold get_u16, le16. cbn [nth app Nat.add]. apply u16_of_bytes. Qed.

Lemma get_u32_le32 v rest : get_u32 (le32 v ++ rest) 0 = to_u32 v.
Proof. unfold get_u32, le32. cbn [nth app Nat.add]. apply u32_of_bytes. Qed.

Lemma get_i32_le32 v rest : get_i32 (le32 v ++ rest) 0 = to_i32 v.
Proof. unfold get_i32, to_i32. rewrite get_u32_le32. reflexivity. Qed.

Lemma get_u32_skip1 a l o : get_u32 (a :: l) (S o) = get_u32 l o.
Proof. reflexivity. Qed.

Lemma get_i32_skip1 a l o : get_i32 (a :: l) (S o) = get_i32 l o.
Proof. reflexivity. Qed.

Lemma get_u16_skip1 a l o : get_u16 (a :: l) (S o) = get_u16 l o.
Proof. reflexivity. Qed.

Lemma get_u32_skip4 v l o : get_u32 (le32 v ++ l) (4 + o) = get_u32 l o.
Proof. reflexivity. Qed.

Lemma get_i32_skip4 v l o : get_i32 (le32 v ++ l) (4 + o) = get_i32 l o.
Proof. reflexivity. Qed.

Lemma recv_exact_app (p rest : list Z) n :
  Z.of_nat (List.length p) = n ->
  Socket.recv_exact n (p ++ rest) = Some (p, rest).
Proof.
  intros <-. unfold Socket.recv_exact.
  rewrite length_app, Nat2Z.inj_add.
  destruct (Z.ltb_spec (Z.of_nat (List.length p) + Z.of_nat (List.length rest))
              (Z.of_nat (List.length p))); [lia|].
  rewrite Nat2Z.id, firstn_app, skipn_app, Nat.sub_diag, firstn_all, skipn_all.
  cbn. now rewrite app_nil_r.
Qed.


Lemma load_store_header h rest :
  wf_header h -> load (store h ++ rest) = h.
Proof.
  destruct h as [v ty ts sz]. unfold wf_header. cbn [PacketHeader.version
    PacketHeader.type PacketHeader.timestamp PacketHeader.payload_size].
  intros (Hv & Hb & Hty & Hts & Hsz).
  unfold load, store, Packed_PacketHeader.
  cbn [PacketHeader.version PacketHeader.type PacketHeader.timestamp
       PacketHeader.payload_size].
  rewrite <- !app_assoc.
  rewrite get_u16_le16.
  f_equal.
  - now apply to_u16_id.
  - exact Hty.
  - change (get_u32 (le16 v ++ [EventType.to_byte ty] ++ le32 ts ++ le16 sz ++ rest) 3)
      with (get_u32 (le32 ts ++ le16 sz ++ rest) 0).
    rewrite get_u32_le32. now apply to_u32_id.
  - change (get_u16 (le16 v ++ [EventType.to_byte ty] ++ le32 ts ++ le16 sz ++ rest) 7)
      with (get_u16 (le16 sz ++ rest) 0).
    rewrite get_u16_le16. now apply to_u16_id.
Qed.

Lemma load_store_MouseMoveEvent (p : MouseMoveEvent.t) rest :
  wf_event (EvMouseMove p) -> load (store p ++ rest) = p.
Proof.
  destruct p as [x y dx dy]. cbn [wf_event MouseMoveEvent.x MouseMoveEvent.y
    MouseMoveEvent.dx MouseMoveEvent.dy]. intros (Hx & Hy & Hdx & Hdy).
  unfold load, store, Packed_MouseMoveEvent.
  cbn [MouseMoveEvent.x MouseMoveEvent.y MouseMoveEvent.dx MouseMoveEvent.dy].
  rewrite <- !app_assoc.
  change 12%nat with (4 + (4 + (4 + 0)))%nat.
  change 8%nat with (4 + (4 + 0))%nat. change 4%nat with (4 + 0)%nat.
  rewrite !get_i32_skip4, !get_i32_le32, !to_i32_id by assumption.
  reflexivity.
Qed.

Lemma load_store_MouseScrollEvent (p : MouseScrollEvent.t) rest :
  wf_event (EvMouseScroll p) -> load (store p ++ rest) = p.
Proof.
  destruct p as [dx dy]. cbn [wf_event MouseScrollEvent.dx MouseScrollEvent.dy].
  intros (Hdx & Hdy).
  unfold load, store, Packed_MouseScrollEvent.
  cbn [MouseScrollEvent.dx MouseScrollEvent.dy].
  rewrite <- !app_assoc.
  change 4%nat with (4 + 0)%nat.
  rewrite !get_i32_skip4, !get_i32_le32, !to_i32_id by assumption.
  reflexivity.
Qed.

Lemma load_store_ScreenInfo (p : ScreenInfo.t) rest :
  wf_event (EvScreenInfo p) -> load (store p ++ rest) = p.
Proof.
  destruct p as [w h x y]. cbn [wf_event ScreenInfo.width ScreenInfo.height
    ScreenInfo.x ScreenInfo.y]. intros (Hw & Hh & Hx & Hy).
  unfold load, store, Packed_ScreenInfo.
  cbn [ScreenInfo.width ScreenInfo.height ScreenInfo.x ScreenInfo.y].
  rewrite <- !app_assoc.
  change 12%nat with (4 + (4 + (4 + 0)))%nat.
  change 8%nat with (4 + (4 + 0))%nat. change 4%nat with (4 + 0)%nat.
  rewrite !get_i32_skip4, !get_i32_le32, !to_i32_id by assumption.
  reflexivity.
Qed.

Lemma load_store_KeyEvent (p : KeyEvent.t) pressed rest :
  wf_event (EvKey p pressed) -> load (store p ++ rest) = p.
Proof.
  destruct p as [vk sc fl]. cbn [wf_event KeyEvent.vkCode KeyEvent.scanCode
    KeyEvent.flags]. intros (Hvk & Hsc & Hfl).
  unfold load, store, Packed_KeyEvent.
  cbn [KeyEvent.vkCode KeyEvent.scanCode KeyEvent.flags].
  rewrite <- !app_assoc.
  change 8%nat with (4 + (4 + 0))%nat. change 4%nat with (4 + 0)%nat.
  rewrite !get_u32_skip4, !get_u32_le32, !to_u32_id by assumption.
  reflexivity.
Qed.

Lemma load_store_MouseButtonEvent (p : MouseButtonEvent.t) rest :
  wf_event (EvMouseButton p) -> load (store p ++ rest) = p.
Proof.
  destruct p as [b pr]. cbn [wf_event MouseButtonEvent.button]. intros Hb.
  destruct b; try contradiction; destruct pr; reflexivity.
Qed.

Lemma load_store_SwitchScreenEvent (p : SwitchScreenEvent.t) rest :
  wf_event (EvSwitchScreen p) -> load (store p ++ rest) = p.
Proof.
  destruct p as [e pos]. cbn [wf_event SwitchScreenEvent.edge
    SwitchScreenEvent.position]. intros (He & Hpos).
  unfold load, store, Packed_SwitchScreenEvent.
  cbn [SwitchScreenEvent.edge SwitchScreenEvent.position].
  rewrite <- !app_assoc. cbn [app].
  rewrite get_i32_skip1, get_i32_le32, to_i32_id by assumption.
  destruct e; try contradiction; reflexivity.
Qed.

Lemma to_u32_range v : is_u32 (to_u32 v).
Proof. unfold is_u32, to_u32. apply Z.mod_pos_bound. reflexivity. Qed.

(** The header a sender builds is well formed. *)
Lemma wf_sent_header ty clock_ms size :
  is_u8 (EventType.to_byte ty) ->
  EventType.of_byte (EventType.to_byte ty) = ty ->
  is_u16 size ->
  wf_header (PacketHeader.mk PROTOCOL_VERSION ty (get_timestamp clock_ms) size).
Proof.
  intros Hb Hty Hsz. unfold wf_header.
  cbn [PacketHeader.version PacketHeader.type PacketHeader.timestamp
       PacketHeader.payload_size].
  split; [unfold is_u16, PROTOCOL_VERSION; lia|].
  split; [assumption|]. split; [assumption|].
  split; [apply to_u32_range | assumption].
Qed.

(** Receiving a frame whose header is valid and whose payload is complete. *)
Lemma Cli_decode_frame (h : PacketHeader.t) (payload rest : list Z) :
  wf_header h ->
  PacketHeader.version h = PROTOCOL_VERSION ->
  Z.of_nat (List.length payload) = PacketHeader.payload_size h ->
  Cli.decode (store h ++ payload ++ rest) = (Cli.dispatch h payload, rest).
Proof.
  intros Hwf Hv Hlen. unfold Cli.decode.
  rewrite recv_exact_app by reflexivity.
  replace (load (store h)) with h
    by (rewrite <- (app_nil_r (store h)); symmetry; now apply load_store_header).
  unfold is_valid_packet_header. rewrite Hv. cbn [Z.eqb PROTOCOL_VERSION Pos.eqb negb].
  destruct Hwf as (_ & _ & _ & _ & Hsz). unfold is_u16 in Hsz.
  change (2 ^ 16) with 65536 in Hsz. unfold MAX_PAYLOAD_SIZE.
  destruct (Z.gtb_spec (PacketHeader.payload_size h) 65535); [lia|].
  cbn [negb].
  destruct (Z.gtb_spec (PacketHeader.payload_size h) 0).
  - rewrite recv_exact_app by assumption. reflexivity.
  - assert (payload = []) as -> by (destruct payload; [reflexivity | cbn in Hlen; lia]).
    reflexivity.
Qed.

Lemma Gui_decode_frame (h : PacketHeader.t) (payload rest : list Z) :
  wf_header h ->
  Z.of_nat (List.length payload) = PacketHeader.payload_size h ->
  Gui.client_decode (store h ++ payload ++ rest) = (Gui.client_dispatch h payload, rest).
Proof.
  intros Hwf Hlen. unfold Gui.client_decode.
  rewrite recv_exact_app by reflexivity.
  replace (load (store h)) with h
    by (rewrite <- (app_nil_r (store h)); symmetry; now apply load_store_header).
  destruct Hwf as (_ & _ & _ & _ & Hsz). unfold is_u16 in Hsz.
  change (2 ^ 16) with 65536 in Hsz.
  destruct (Z.gtb_spec (PacketHeader.payload_size h) 65535); [lia|].
  destruct (Z.gtb_spec (PacketHeader.payload_size h) 0).
  - rewrite recv_exact_app by assumption. reflexivity.
  - assert (payload = []) as -> by (destruct payload; [reflexivity | cbn in Hlen; lia]).
    reflexivity.
Qed.

Ltac sent_header :=
  apply wf_sent_header;
  [ unfold is_u8; cbn; lia | reflexivity | unfold is_u16; cbn; lia ].

(** The receiver of [client.cpp] recovers a serialised scroll event. *)
Lemma Cli_decode_scroll (p : MouseScrollEvent.t) (clock_ms : Z) (rest : list Z) :
  wf_event (EvMouseScroll p) ->
  Cli.decode (encode (EvMouseScroll p) clock_ms ++ rest)
  = (Delivered (EvMouseScroll p), rest).
Proof.
  intros Hwf. unfold encode, serialize_packet. rewrite <- app_assoc.
  rewrite Cli_decode_frame; [|sent_header|reflexivity|reflexivity].
  unfold Cli.dispatch. cbn [PacketHeader.type].
  rewrite <- (app_nil_r (store p)), load_store_MouseScrollEvent by assumption.
  reflexivity.
Qed.

(** The receiver of [client.cpp] recovers what a sender serialised, for
    each of the seven kinds. *)
Lemma Cli_decode_encode (e : Event) (clock_ms : Z) (rest : list Z) :
  wf_event e ->
  Cli.decode (encode e clock_ms ++ rest) = (Delivered e, rest).
Proof.
  intros Hwf.
  destruct e as [p|p|p|p pressed|p|p|]; unfold encode, serialize_packet,
    serialize_keepalive; rewrite <- ?app_assoc.
  - rewrite Cli_decode_frame; [|sent_header|reflexivity|reflexivity].
    unfold Cli.dispatch. cbn [PacketHeader.type].
    rewrite <- (app_nil_r (store p)), load_store_MouseMoveEvent by assumption.
    reflexivity.
  - rewrite Cli_decode_frame; [|sent_header|reflexivity|reflexivity].
    unfold Cli.dispatch. cbn [PacketHeader.type].
    rewrite <- (app_nil_r (store p)), load_store_MouseButtonEvent by assumption.
    reflexivity.
  - now apply Cli_decode_scroll.
  - rewrite Cli_decode_frame;
      [|destruct pressed; sent_header|reflexivity|reflexivity].
    unfold Cli.dispatch. cbn [PacketHeader.type].
    rewrite <- (app_nil_r (store p)).
    destruct pressed; rewrite (load_store_KeyEvent p _ []) by eassumption;
      reflexivity.
  - rewrite Cli_decode_frame; [|sent_header|reflexivity|reflexivity].
    unfold Cli.dispatch. cbn [PacketHeader.type].
    rewrite <- (app_nil_r (store p)), load_store_ScreenInfo by assumption.
    reflexivity.
  - rewrite Cli_decode_frame; [|sent_header|reflexivity|reflexivity].
    unfold Cli.dispatch. cbn [PacketHeader.type].
    rewrite <- (app_nil_r (store p)), load_store_SwitchScreenEvent by assumption.
    reflexivity.
  - rewrite <- (app_nil_l rest) at 1.
    rewrite Cli_decode_frame; [|sent_header|reflexivity|reflexivity].
    reflexivity.
Qed.

(** The receive loop of the GUI client recovers the five input kinds and
    SwitchScreen; its [switch] has no case for ScreenInfo and Keepalive. *)
Lemma Gui_client_decode_encode (e : Event) (clock_ms : Z) (rest : list Z) :
  wf_event e ->
  Gui.client_decode (encode e clock_ms ++ rest)
  = (match e with
     | EvScreenInfo _ | EvKeepalive => Ignored
     | _ => Delivered e
     end, rest).
Proof.
  intros Hwf.
  destruct e as [p|p|p|p pressed|p|p|]; unfold encode, serialize_packet,
    serialize_keepalive; rewrite <- ?app_assoc.
  - rewrite Gui_decode_frame; [|sent_header|reflexivity].
    unfold Gui.client_dispatch. cbn [PacketHeader.type].
    rewrite <- (app_nil_r (store p)), load_store_MouseMoveEvent by assumption.
    reflexivity.
  - rewrite Gui_decode_frame; [|sent_header|reflexivity].
    unfold Gui.client_dispatch. cbn [PacketHeader.type].
    rewrite <- (app_nil_r (store p)), load_store_MouseButtonEvent by assumption.
    reflexivity.
  - rewrite Gui_decode_frame; [|sent_header|reflexivity].
    unfold Gui.client_dispatch. cbn [PacketHeader.type].
    rewrite <- (app_nil_r (store p)), load_store_MouseScrollEvent by assumption.
    reflexivity.
  - rewrite Gui_decode_frame; [|destruct pressed; sent_header|reflexivity].
    unfold Gui.client_dispatch. cbn [PacketHeader.type].
    rewrite <- (app_nil_r (store p)).
    destruct pressed; rewrite (load_store_KeyEvent p _ []) by eassumption;
      reflexivity.
  - rewrite Gui_decode_frame; [|sent_header|reflexivity]. reflexivity.
  - rewrite Gui_decode_frame; [|sent_header|reflexivity].
    unfold Gui.client_dispatch. cbn [PacketHeader.type].
    rewrite <- (app_nil_r (store p)), load_store_SwitchScreenEvent by assumption.
    reflexivity.
  - rewrite <- (app_nil_l rest) at 1.
    rewrite Gui_decode_frame; [|sent_header|reflexivity]. reflexivity.
Qed.

(** C6, where the code departs from it.  The receive loop of the GUI client
    ([client_thread_func]), given the bytes a sender serialises for a
    well-formed event [e] (at any timestamp, followed by any further
    bytes), takes the whole frame off the stream and enters the case of
    that kind with exactly [e] when [e] is a MouseMove, MouseButton,
    MouseScroll, Key or SwitchScreen event; for a ScreenInfo or a Keepalive
    event it reaches [default] and no event comes out: there
    decode (encode e) is not e.  The receiver of [client.cpp] returns [e]
    for every one of the seven kinds. *)
Theorem C6_gui_decoder_lacks_two_kinds (e : Event) (clock_ms : Z) (rest : list Z) :
  wf_event e ->
  Gui.client_decode (encode e clock_ms ++ rest)
  = (match e with
     | EvScreenInfo _ | EvKeepalive => Ignored
     | _ => Delivered e
     end, rest)
  /\ Cli.decode (encode e clock_ms ++ rest) = (Delivered e, rest).
Proof.
  intros Hwf. split.
  - now apply Gui_client_decode_encode.
  - now apply Cli_decode_encode.
Qed.

Lemma C6_gui_decoder_lacks_two_kinds_witness :
  let e := EvScreenInfo (ScreenInfo.mk 1920 1080 0 0) in
  wf_event e
  /\ Gui.client_decode (encode e 123456 ++ [1; 0]) = (Ignored, [1; 0])
  /\ Cli.decode (encode e 123456 ++ [1; 0]) = (Delivered e, [1; 0]).
Proof.
  intro e.
  assert (H : wf_event e) by (cbn; unfold is_i32; lia).
  split; [exact H | exact (C6_gui_decoder_lacks_two_kinds e 123456 [1; 0] H)].
Defined.









(** ** The safety timeout *)

Lemma safety_timeout_elapsed (c : InputCapture.t) (now : Z) :
  is_u32 (InputCapture.last_activity_ c) ->
  InputCapture.last_activity_ c <= now < 2 ^ 32 ->
  to_u32 (to_u32 now - InputCapture.last_activity_ c)
  = now - InputCapture.last_activity_ c.
Proof.
  unfold is_u32, to_u32. intros Hl Hn.
  rewrite (Z.mod_small now) by lia. apply Z.mod_small. lia.
Qed.

Lemma safety_timeout_keeps (c : InputCapture.t) (now : Z) :
  is_u32 (InputCapture.last_activity_ c) ->
  InputCapture.last_activity_ c <= now <= InputCapture.last_activity_ c + 30000 ->
  now < 2 ^ 32 ->
  InputCapture.safety_timeout now c = c.
Proof.
  intros Hl Hn Hb. unfold InputCapture.safety_timeout.
  destruct (InputCapture.captured_ c); [|reflexivity].
  rewrite safety_timeout_elapsed by (assumption || lia).
  destruct (Z.gtb_spec (now - InputCapture.last_activity_ c) 30000); [lia|reflexivity].
Qed.

Lemma safety_timeout_releases (c : InputCapture.t) (now : Z) :
  is_u32 (InputCapture.last_activity_ c) ->
  InputCapture.last_activity_ c + 30000 < now < 2 ^ 32 ->
  InputCapture.captured_ (InputCapture.safety_timeout now c) = false.
Proof.
  intros Hl Hn. unfold InputCapture.safety_timeout.
  destruct (InputCapture.captured_ c) eqn:Hc; [|exact Hc].
  rewrite safety_timeout_elapsed by (assumption || lia).
  destruct (Z.gtb_spec (now - InputCapture.last_activity_ c) 30000); [reflexivity|lia].
Qed.

Lemma message_loop_keeps (ticks : list Z) (c : InputCapture.t) :
  is_u32 (InputCapture.last_activity_ c) ->
  Forall (fun now =>
            InputCapture.last_activity_ c <= now
              <= InputCapture.last_activity_ c + 30000 /\ now < 2 ^ 32) ticks ->
  InputCapture.message_loop ticks c = c.
Proof.
  intros Hl H. induction H as [|now ticks [Hn Hb] _ IH]; [reflexivity|].
  cbn [InputCapture.message_loop].
  destruct (InputCapture.running_ c); [|reflexivity].
  rewrite safety_timeout_keeps by assumption. exact IH.
Qed.


Lemma safety_timeout_fields (now : Z) (c : InputCapture.t) :
  InputCapture.running_ (InputCapture.safety_timeout now c) = InputCapture.running_ c
  /\ InputCapture.last_activity_ (InputCapture.safety_timeout now c)
     = InputCapture.last_activity_ c
  /\ InputCapture.captured_ (InputCapture.safety_timeout now c)
     = InputCapture.captured_ c
       && negb (to_u32 (to_u32 now - InputCapture.last_activity_ c) >? 30000).
Proof.
  unfold InputCapture.safety_timeout.
  destruct (InputCapture.captured_ c) eqn:Hc;
    [destruct (to_u32 (to_u32 now - InputCapture.last_activity_ c) >? 30000)|];
    cbn; auto.
Qed.

(** What the loop of the hook thread leaves of [captured_]: it is still set
    exactly when it was set before and none of the messages the loop got
    was followed by a check made more than 30 000 ms after the last
    activity. *)
Lemma message_loop_captured (ticks : list Z) (c : InputCapture.t) :
  InputCapture.running_ c = true ->
  InputCapture.captured_ (InputCapture.message_loop ticks c)
  = InputCapture.captured_ c
    && forallb (fun now =>
                  negb (to_u32 (to_u32 now - InputCapture.last_activity_ c) >? 30000))
               ticks.
Proof.
  revert c. induction ticks as [|now ticks IH]; intros c Hr.
  - cbn. now rewrite andb_true_r.
  - cbn [InputCapture.message_loop forallb]. rewrite Hr.
    destruct (safety_timeout_fields now c) as (Hrun & Hlast & Hcap).
    rewrite IH by now rewrite Hrun.
    rewrite Hlast, Hcap. now rewrite andb_assoc.
Qed.

(** C8, where the code departs from it.  The safety check of
    [hook_thread_func] is made only after [GetMessage] has returned a
    message to the loop.  From a running state with suppress on and no
    hooked event arriving: suppress is off after the loop has got the
    messages [ticks] (one tick count per message) if and only if one of
    them came more than 30 000 ms, as a [DWORD] difference, after the last
    recorded activity; with no message returned to the loop suppress stays
    on, however much time passes. *)
Theorem C8_no_release_without_message (c : InputCapture.t) (ticks : list Z) :
  InputCapture.running_ c = true ->
  InputCapture.captured_ c = true ->
  (InputCapture.captured_ (InputCapture.message_loop ticks c) = false
   <-> Exists (fun now =>
                 to_u32 (to_u32 now - InputCapture.last_activity_ c) > 30000) ticks)
  /\ (ticks = [] ->
      InputCapture.captured_ (InputCapture.message_loop ticks c) = true).
Proof.
  intros Hr Hc. split.
  - rewrite message_loop_captured, Hc by assumption. cbn [andb].
    rewrite Exists_exists. split.
    + intros Hf.
      destruct (forallb _ ticks) eqn:E in Hf; [discriminate|].
      clear Hf. induction ticks as [|now ticks IH]; [discriminate|].
      cbn [forallb] in E. apply andb_false_iff in E. destruct E as [E|E].
      * exists now. split; [now left|].
        apply negb_false_iff in E. now apply Z.gtb_lt in E; apply Z.lt_gt.
      * destruct (IH E) as (t & Hin & Ht). exists t. split; [now right|assumption].
    + intros (t & Hin & Ht).
      destruct (forallb _ ticks) eqn:E; [|reflexivity].
      rewrite forallb_forall in E. specialize (E t Hin).
      apply negb_true_iff in E.
      destruct (Z.gtb_spec (to_u32 (to_u32 t - InputCapture.last_activity_ c)) 30000);
        [discriminate|lia].
  - intros ->. exact Hc.
Qed.

Lemma C8_no_release_without_message_witness :
  let c := InputCapture.capture_input true 1000
             (InputCapture.start InputCapture.construct) in
  InputCapture.captured_ (InputCapture.message_loop [] c) = true.
Proof.
  intro c.
  exact (proj2 (C8_no_release_without_message c [] eq_refl eq_refl) eq_refl).
Defined.

(** ** Discovery *)


Lemma update_computer_unknown packet ip_str now computers :
  ~ known (Gui.dp_name packet) computers ->
  Gui.update_computer packet ip_str now computers = None.
Proof.
  induction computers as [|comp rest IH]; intros Hk; [reflexivity|].
  cbn [Gui.update_computer].
  destruct (String.eqb_spec (Gui.name comp) (Gui.dp_name packet)) as [E|E].
  - exfalso. apply Hk. exists comp. split; [now left | exact E].
  - rewrite IH; [reflexivity|].
    intros (c & Hin & Hc). apply Hk. exists c. split; [now right | exact Hc].
Qed.

Lemma update_computer_known packet ip_str now computers :
  known (Gui.dp_name packet) computers ->
  exists pre comp post,
    computers = pre ++ comp :: post
    /\ Gui.name comp = Gui.dp_name packet
    /\ (forall d, In d pre -> Gui.name d <> Gui.dp_name packet)
    /\ Gui.update_computer packet ip_str now computers
       = Some (pre ++ refreshed packet ip_str now comp :: post).
Proof.
  induction computers as [|comp rest IH]; intros (c & Hin & Hc); [destruct Hin|].
  cbn [Gui.update_computer].
  destruct (String.eqb_spec (Gui.name comp) (Gui.dp_name packet)) as [E|E].
  - exists [], comp, rest. repeat split; try assumption. intros d [].
  - destruct Hin as [->|Hin]; [contradiction|].
    destruct IH as (pre & comp' & post & -> & Hn & Hpre & Hup);
      [exists c; now split|].
    exists (comp :: pre), comp', post. rewrite Hup.
    repeat split; try assumption.
    intros d [<-|Hd]; [exact E | now apply Hpre].
Qed.







(** ** The neighbour test *)

Lemma positioned_at_edge_spec edge pos local comp :
  Gui.positioned_at_edge edge pos local comp = true <-> flush edge pos local comp.
Proof.
  unfold Gui.positioned_at_edge, flush.
  destruct edge; try (split; [discriminate | contradiction]);
    rewrite !andb_true_iff, Z.eqb_eq, Z.leb_le, Z.gtb_ltb, Z.ltb_lt; lia.
Qed.

Lemma found_neighbor_spec nm edge pos local computers :
  Gui.found_neighbor nm edge pos local computers = true
  <-> exists peer,
        In peer computers /\ Gui.name peer <> nm
        /\ Gui.is_connected peer = true /\ flush edge pos local peer.
Proof.
  induction computers as [|comp rest IH]; cbn [Gui.found_neighbor].
  - split; [discriminate | intros (p & [] & _)].
  - destruct (String.eqb_spec (Gui.name comp) nm) as [E|E].
    + rewrite IH. split; intros (p & Hin & Hn & Hc & Hf).
      * exists p. repeat split; try assumption. now right.
      * destruct Hin as [<-|Hin]; [contradiction|]. now exists p.
    + destruct (Gui.is_connected comp) eqn:Hconn; cbn [negb].
      * destruct (Gui.positioned_at_edge edge pos local comp) eqn:Hpos.
        -- split; [intros _ | reflexivity].
           exists comp. repeat split; try assumption; [now left|].
           now apply positioned_at_edge_spec.
        -- rewrite IH. split; intros (p & Hin & Hn & Hc & Hf).
           ++ exists p. repeat split; try assumption. now right.
           ++ destruct Hin as [<-|Hin]; [|now exists p].
              apply positioned_at_edge_spec in Hf. congruence.
      * rewrite IH. split; intros (p & Hin & Hn & Hc & Hf).
        -- exists p. repeat split; try assumption. now right.
        -- destruct Hin as [<-|Hin]; [congruence | now exists p].
Qed.

Lemma found_neighbor_flush_peer st edge pos :
  Gui.found_neighbor (Gui.computer_name st) edge pos (Gui.local_info st) (Gui.layout st)
  = true <-> flush_peer st edge pos.
Proof. apply found_neighbor_spec. Qed.

(** The cursor is classified as on an edge exactly when it is on one; the
    tests are made in the order LEFT, RIGHT, TOP, BOTTOM. *)
Lemma check_all_edges_spec x y st :
  let w := Gui.screen_width (Gui.local_info st) in
  let h := Gui.screen_height (Gui.local_info st) in
  Gui.check_all_edges x y st =
  if x <=? 0 then (true, ScreenEdge.LEFT, y)
  else if x >=? w - 1 then (true, ScreenEdge.RIGHT, y)
  else if y <=? 0 then (true, ScreenEdge.TOP, x)
  else if y >=? h - 1 then (true, ScreenEdge.BOTTOM, x)
  else (false, ScreenEdge.NONE, 0).
Proof. reflexivity. Qed.

Lemma check_all_edges_on_edge x y st :
  fst (fst (Gui.check_all_edges x y st)) = true
  <-> x <= 0 \/ Gui.screen_width (Gui.local_info st) - 1 <= x
      \/ y <= 0 \/ Gui.screen_height (Gui.local_info st) - 1 <= y.
Proof.
  unfold Gui.check_all_edges.
  destruct (Z.leb_spec x 0); [cbn; intuition lia|].
  destruct (Z.geb_spec x (Gui.screen_width (Gui.local_info st) - 1));
    [cbn; intuition lia|].
  destruct (Z.leb_spec y 0); [cbn; intuition lia|].
  destruct (Z.geb_spec y (Gui.screen_height (Gui.local_info st) - 1));
    cbn; intuition (try lia; try discriminate).
Qed.

Lemma app_eq_self_nil {A} (l d : list A) : l = l ++ d -> d = [].
Proof.
  intros H. apply (app_inv_head l). now rewrite app_nil_r.
Qed.

(** C1.  On the primary in state LOCAL with the session open (the client
    socket valid), for every topology whose rectangles, with the pointer,
    stay within the range of [int], a mouse move that the callback
    classifies as lying on [edge] (LEFT before RIGHT before TOP before
    BOTTOM) starts the LOCAL -> REMOTE switch if and only if the topology
    holds a connected peer, other than the local machine, flush with the
    local rectangle on that edge and containing the cursor's perpendicular
    coordinate.  When the SwitchScreen frame is then sent, the primary ends
    in REMOTE with suppress on, having sent the frame for the opposite edge
    at that coordinate and warped the cursor to the screen centre.  With no
    such peer the state stays as it was and nothing is sent. *)
Theorem C1_edge_switch_iff_flush_peer
    (env : Gui.Env) (x y dx dy : Z) (st : Gui.AppState)
    (edge : ScreenEdge.t) (pos : Z) :
  Gui.active_client st = true ->
  Gui.active_on_remote st = false ->
  Gui.check_all_edges x y st = (true, edge, pos) ->
  edge_test_in_range st x y pos ->
  let st' := Gui.on_mouse_move env x y dx dy st in
  (switch_started st st' <-> flush_peer st edge pos)
  /\ (flush_peer st edge pos -> 0 < Gui.send_result env ->
      Gui.active_on_remote st' = true
      /\ suppress st' = true
      /\ Gui.journal st' =
         Gui.journal st
         ++ [Gui.SetActiveOnRemote true; Gui.CaptureInput true;
             Gui.Send (serialize_packet EventType.SWITCH_SCREEN
                         (SwitchScreenEvent.mk (Gui.entry_edge_for edge) pos)
                         (Gui.clock_ms env))
                      (Gui.send_result env);
             Gui.SetCursorPos (Z.quot (Gui.screen_width (Gui.local_info st)) 2)
                              (Z.quot (Gui.screen_height (Gui.local_info st)) 2)])
  /\ (~ flush_peer st edge pos -> st' = st).
Proof.
  intros Hclient Hlocal Hedge _ st'. subst st'.
  unfold Gui.on_mouse_move. rewrite Hclient, Hedge, Hlocal. cbn [negb andb].
  destruct (Gui.found_neighbor (Gui.computer_name st) edge pos
              (Gui.local_info st) (Gui.layout st)) eqn:Hfound.
  - assert (Hpeer : flush_peer st edge pos)
      by now apply found_neighbor_flush_peer.
    cbn [Gui.capture_input Gui.set_active_on_remote Gui.record
         Gui.with_input_capture Gui.active_client Gui.send Gui.journal
         Gui.local_info Gui.input_capture Gui.active_on_remote].
    rewrite Hclient.
    destruct (Z.leb_spec (Gui.send_result env) 0) as [Hs|Hs].
    + split; [|split].
      * split; [intros _; exact Hpeer | intros _].
        eexists. cbn. rewrite <- !app_assoc. reflexivity.
      * intros _ Hpos. lia.
      * intros Hn. contradiction.
    + split; [|split].
      * split; [intros _; exact Hpeer | intros _].
        eexists. cbn. rewrite <- !app_assoc. reflexivity.
      * intros _ _. cbn. rewrite <- !app_assoc. repeat split.
      * intros Hn. contradiction.
  - assert (Hpeer : ~ flush_peer st edge pos).
    { intros H. apply found_neighbor_flush_peer in H. congruence. }
    split; [|split].
    + split; [|intros H; contradiction].
      intros (tail & Hj). apply app_eq_self_nil in Hj. discriminate.
    + intros H. contradiction.
    + reflexivity.
Qed.

Lemma C1_edge_switch_iff_flush_peer_witness :
  let local := Gui.mkComputerInfo "A" EmptyString 24800 1920 1080 false false 0 0 0 in
  let peer := Gui.mkComputerInfo "B" "10.0.0.2" 24800 1920 1080 false true 0 1920 0 in
  let st :=
    Gui.mkAppState "A" true [local; peer]
      (InputCapture.start (InputCapture.init 1920 1080 1918 500 InputCapture.construct))
      true false local [] in
  let env := Gui.mkEnv 7000 7000 14 1080 in
  edge_test_in_range st 1919 500 500
  /\ Gui.active_on_remote (Gui.on_mouse_move env 1919 500 1 0 st) = true
  /\ suppress (Gui.on_mouse_move env 1919 500 1 0 st) = true.
Proof.
  intros local peer st env.
  assert (Hrange : edge_test_in_range st 1919 500 500).
  { unfold edge_test_in_range, rectangle_in_range, is_i32. cbn.
    repeat split; try lia. repeat constructor; cbn; lia. }
  assert (Hpeer : flush_peer st ScreenEdge.RIGHT 500).
  { exists peer. cbn. repeat split; try lia; try discriminate. now right; left. }
  assert (Hsend : 0 < Gui.send_result env) by (cbn; lia).
  pose proof (C1_edge_switch_iff_flush_peer env 1919 500 1 0 st ScreenEdge.RIGHT 500
                eq_refl eq_refl eq_refl Hrange) as H.
  destruct H as (_ & H & _). destruct (H Hpeer Hsend) as (Ha & Hs & _).
  split; [exact Hrange | split; assumption].
Defined.

(** ** Keys *)

Lemma is_emergency_key_complete vkCode ctrl_down alt_down :
  emergency vkCode ctrl_down alt_down ->
  InputCapture.is_emergency_key vkCode ctrl_down alt_down = true.
Proof.
  unfold emergency.
  intros [->|[->|[->|[->|[->|[->|[->|[->|[->|[->|[[-> ->]|[[-> ->]|[-> ->]]]]]]]]]]]]];
    repeat match goal with b : bool |- _ => destruct b end; reflexivity.
Qed.

Lemma is_emergency_key_sound vkCode ctrl_down alt_down :
  InputCapture.is_emergency_key vkCode ctrl_down alt_down = true ->
  emergency vkCode ctrl_down alt_down.
Proof.
  unfold InputCapture.is_emergency_key.
  destruct ctrl_down, alt_down; cbn [andb orb];
    repeat match goal with
           | |- context [?a =? ?b] =>
               destruct (Z.eqb_spec a b) as [->|?];
               [ cbn; intros H; first [discriminate H | unfold emergency; intuition auto]
               | cbn [andb orb] ]
           end;
    discriminate.
Qed.

Lemma is_emergency_key_spec vkCode ctrl_down alt_down :
  InputCapture.is_emergency_key vkCode ctrl_down alt_down = true
  <-> emergency vkCode ctrl_down alt_down.
Proof.
  split; [apply is_emergency_key_sound | apply is_emergency_key_complete].
Qed.

(** C3, what the code does.  A Scroll Lock key-down reaches the keyboard
    hook (nCode = 0) in any state of the primary: the hook treats it as an
    emergency key, switches suppress off and passes the key on, and returns
    before the key callback is entered.  Nothing is written to
    [active_on_remote]: a primary that was in REMOTE stays in REMOTE. *)
Theorem C3_scroll_lock_leaves_focus
    (env : Gui.Env) (ctrl_down alt_down : bool) (scan flags : Z)
    (st : Gui.AppState) :
  let r := Gui.keyboard_hook env ctrl_down alt_down 0 WM_KEYDOWN
             (Build_KBDLLHOOKSTRUCT VK_SCROLL scan flags) st in
  Gui.active_on_remote (fst r) = Gui.active_on_remote st
  /\ Gui.journal (fst r) = Gui.journal st
  /\ suppress (fst r) = false
  /\ snd r = CallNextHookEx.
Proof.
  unfold Gui.keyboard_hook, InputCapture.keyboard_hook_proc, suppress.
  cbn [kb_vkCode Z.geb Z.compare].
  replace (InputCapture.is_emergency_key VK_SCROLL ctrl_down alt_down) with true
    by (symmetry; apply is_emergency_key_spec; unfold emergency; tauto).
  cbn [Z.eqb VK_SCROLL VK_ESCAPE WM_KEYDOWN Pos.eqb andb orb fst snd].
  destruct (InputCapture.captured_ (Gui.input_capture st)) eqn:Hc;
    cbn; auto.
Qed.

(** The key callback itself would give the focus back on Scroll Lock. *)
Lemma on_key_scroll_lock_forces_local (env : Gui.Env) (scan flags : Z)
    (st : Gui.AppState) :
  (suppress st = true -> Gui.active_on_remote st = true) ->
  let st' := Gui.on_key env VK_SCROLL scan flags true st in
  Gui.active_on_remote st' = false /\ suppress st' = false.
Proof.
  intros Hinv. unfold Gui.on_key, suppress in *.
  cbn [Z.eqb VK_SCROLL VK_F8 Pos.eqb andb].
  destruct (Gui.active_on_remote st) eqn:Ha; cbn; [auto|].
  split; [exact Ha|].
  destruct (InputCapture.captured_ (Gui.input_capture st)); [|reflexivity].
  now specialize (Hinv eq_refl).
Qed.

(** C4, as amended.  For every keyboard event in the set the interceptor
    treats as emergency keys -- CTRL, ALT, DELETE, SCROLL_LOCK, WIN, ESC
    with CTRL down (which covers CTRL+SHIFT+ESC and CTRL+ALT+ESC), TAB with
    ALT down, F4 with ALT down -- the hook passes the event on to the local
    system whatever the value of suppress, and a key-down of CTRL+ALT+ESC
    also switches suppress off.  The user toggle key F8 is not in the set. *)
Theorem C4_emergency_keys_pass
    (env : Gui.Env) (ctrl_down alt_down : bool) (nCode wParam : Z)
    (kb : KBDLLHOOKSTRUCT) (st : Gui.AppState) :
  emergency (kb_vkCode kb) ctrl_down alt_down ->
  let r := Gui.keyboard_hook env ctrl_down alt_down nCode wParam kb st in
  snd r = CallNextHookEx
  /\ (kb_vkCode kb = VK_ESCAPE -> ctrl_down = true -> alt_down = true ->
      0 <= nCode -> wParam = WM_KEYDOWN \/ wParam = WM_SYSKEYDOWN ->
      suppress (fst r) = false)
  /\ InputCapture.is_emergency_key VK_F8 ctrl_down alt_down = false.
Proof.
  intros He r. subst r.
  apply is_emergency_key_spec in He.
  unfold Gui.keyboard_hook, InputCapture.keyboard_hook_proc, suppress.
  rewrite He. split; [|split].
  - destruct (nCode >=? 0); reflexivity.
  - intros Hvk -> -> Hn Hw.
    destruct (Z.geb_spec nCode 0); [|lia].
    rewrite Hvk.
    assert ((wParam =? WM_KEYDOWN) || (wParam =? WM_SYSKEYDOWN) = true) as ->.
    { destruct Hw as [-> | ->]; reflexivity. }
    cbn. reflexivity.
  - destruct ctrl_down, alt_down; reflexivity.
Qed.

Lemma C4_emergency_keys_pass_witness :
  let st :=
    Gui.mkAppState "A" true []
      (InputCapture.capture_input true 100 (InputCapture.start InputCapture.construct))
      true true (Gui.mkComputerInfo "A" EmptyString 24800 1920 1080 false false 0 0 0) [] in
  let env := Gui.mkEnv 7000 7000 14 1080 in
  let r := Gui.keyboard_hook env true true 0 WM_KEYDOWN
             (Build_KBDLLHOOKSTRUCT VK_ESCAPE 1 0) st in
  suppress st = true /\ snd r = CallNextHookEx /\ suppress (fst r) = false.
Proof.
  intros st env r.
  assert (He : emergency (kb_vkCode (Build_KBDLLHOOKSTRUCT VK_ESCAPE 1 0)) true true)
    by (unfold emergency; cbn; tauto).
  pose proof (C4_emergency_keys_pass env true true 0 WM_KEYDOWN
                (Build_KBDLLHOOKSTRUCT VK_ESCAPE 1 0) st He) as (H1 & H2 & _).
  split; [reflexivity|]. split; [exact H1|].
  apply H2; solve [reflexivity | lia | now left].
Defined.

(** C4, the claim as stated fails for the user toggle key: with the primary
    in LOCAL, suppress off and a client connected, the F8 key-down is handed
    to the key callback, which switches to REMOTE and turns suppress on, and
    the hook then swallows the key; with the primary in REMOTE the F8 key-up
    is swallowed as well. *)
Lemma C4_counterexample :
  let local := Gui.mkComputerInfo "A" EmptyString 24800 1920 1080 false false 0 0 0 in
  let st :=
    Gui.mkAppState "A" true [local]
      (InputCapture.start InputCapture.construct) true false local [] in
  let env := Gui.mkEnv 7000 7000 14 1080 in
  let down := Gui.keyboard_hook env false false 0 WM_KEYDOWN
                (Build_KBDLLHOOKSTRUCT VK_F8 66 0) st in
  let up := Gui.keyboard_hook env false false 0 WM_KEYUP
              (Build_KBDLLHOOKSTRUCT VK_F8 66 0) (fst down) in
  suppress st = false
  /\ snd down = Blocked
  /\ suppress (fst down) = true
  /\ snd up = Blocked.
Proof. repeat split. Qed.

(** ** Suppress and focus on the primary *)

Ltac split_ifs :=
  repeat match goal with
         | |- context [match ?p with pair _ _ => _ end] => destruct p eqn:?
         | |- context [if ?b then _ else _] => destruct b eqn:?
         end.

Lemma suppress_capture_input env b st : suppress (Gui.capture_input env b st) = b.
Proof. destruct b; reflexivity. Qed.
Lemma remote_capture_input env b st :
  Gui.active_on_remote (Gui.capture_input env b st) = Gui.active_on_remote st.
Proof. reflexivity. Qed.
Lemma suppress_set_active b st :
  suppress (Gui.set_active_on_remote b st) = suppress st.
Proof. reflexivity. Qed.
Lemma remote_set_active b st :
  Gui.active_on_remote (Gui.set_active_on_remote b st) = b.
Proof. reflexivity. Qed.
Lemma suppress_record e st : suppress (Gui.record e st) = suppress st.
Proof. reflexivity. Qed.
Lemma remote_record e st :
  Gui.active_on_remote (Gui.record e st) = Gui.active_on_remote st.
Proof. reflexivity. Qed.
Lemma suppress_warp x y st : suppress (Gui.warp_cursor x y st) = suppress st.
Proof. reflexivity. Qed.
Lemma remote_warp x y st :
  Gui.active_on_remote (Gui.warp_cursor x y st) = Gui.active_on_remote st.
Proof. reflexivity. Qed.
Lemma client_capture_input env b st :
  Gui.active_client (Gui.capture_input env b st) = Gui.active_client st.
Proof. reflexivity. Qed.
Lemma client_set_active b st :
  Gui.active_client (Gui.set_active_on_remote b st) = Gui.active_client st.
Proof. reflexivity. Qed.
Lemma client_record e st :
  Gui.active_client (Gui.record e st) = Gui.active_client st.
Proof. reflexivity. Qed.

Create Rewrite HintDb app_proj.
#[local] Hint Rewrite suppress_capture_input remote_capture_input
  suppress_set_active remote_set_active suppress_record remote_record
  suppress_warp remote_warp client_capture_input client_set_active
  client_record : app_proj.

Ltac inv_leaf :=
  unfold inv in *; autorewrite with app_proj; auto; try discriminate.


Lemma inv_with_capture (c : InputCapture.t) (st : Gui.AppState) :
  inv st ->
  (InputCapture.captured_ c = true ->
   InputCapture.captured_ (Gui.input_capture st) = true) ->
  inv (Gui.with_input_capture c st).
Proof. unfold inv, suppress. cbn. auto. Qed.

Lemma inv_released (env : Gui.Env) (st : Gui.AppState) :
  inv (Gui.capture_input env false st).
Proof. unfold inv, suppress. cbn. discriminate. Qed.

Lemma inv_on_mouse_move env x y dx dy st :
  inv st -> inv (Gui.on_mouse_move env x y dx dy st).
Proof.
  intros H. unfold Gui.on_mouse_move, Gui.send. cbv beta iota.
  split_ifs; try assumption; inv_leaf.
Qed.

Lemma inv_send_or_release env data st :
  inv st -> inv (Gui.send_or_release env data st).
Proof.
  intros H. unfold Gui.send_or_release, Gui.send. cbv beta iota.
  split_ifs; inv_leaf.
Qed.

Lemma inv_on_mouse_button env button pressed st :
  inv st -> inv (Gui.on_mouse_button env button pressed st).
Proof.
  intros H. unfold Gui.on_mouse_button. split_ifs; try assumption.
  now apply inv_send_or_release.
Qed.

Lemma inv_on_mouse_scroll env dx dy st :
  inv st -> inv (Gui.on_mouse_scroll env dx dy st).
Proof.
  intros H. unfold Gui.on_mouse_scroll. split_ifs; try assumption.
  now apply inv_send_or_release.
Qed.

Lemma inv_on_key env vk scan flags pressed st :
  inv st -> inv (Gui.on_key env vk scan flags pressed st).
Proof.
  intros H. unfold Gui.on_key, Gui.send. cbv beta iota.
  split_ifs; try assumption; try (now apply inv_send_or_release);
    cbn [snd]; inv_leaf.
Qed.

Lemma inv_touch (now : Z) (st : Gui.AppState) :
  inv st ->
  inv (if InputCapture.captured_ (Gui.input_capture st)
       then Gui.with_input_capture
              (InputCapture.set_last_activity now (Gui.input_capture st)) st
       else st).
Proof.
  intros H. destruct (InputCapture.captured_ (Gui.input_capture st)) eqn:Hc;
    [|assumption]. apply inv_with_capture; auto.
Qed.

Lemma fst_if {A B} (b : bool) (a : A) (x y : B) :
  fst (if b then (a, x) else (a, y)) = a.
Proof. now destruct b. Qed.

Lemma inv_mouse_hook env nCode wParam ms st :
  inv st -> inv (fst (Gui.mouse_hook env nCode wParam ms st)).
Proof.
  intros H. unfold Gui.mouse_hook, InputCapture.mouse_hook_proc.
  destruct (nCode >=? 0); [|assumption].
  rewrite fst_if. apply (inv_touch (to_u32 (Gui.tick env))) in H.
  revert H.
  generalize (if InputCapture.captured_ (Gui.input_capture st)
              then Gui.with_input_capture
                     (InputCapture.set_last_activity (to_u32 (Gui.tick env))
                        (Gui.input_capture st)) st
              else st).
  intros a H. unfold InputCapture.mouse_switch, InputCapture.call_button,
    InputCapture.call_scroll.
  cbn [Gui.callbacks InputCapture.move_callback_ InputCapture.button_callback_
       InputCapture.scroll_callback_].
  repeat match goal with
         | |- context [wParam =? ?c] => destruct (wParam =? c)
         end;
    try match goal with
        | |- inv (Gui.on_mouse_button _ _ _ _) => now apply inv_on_mouse_button
        | |- inv (Gui.on_mouse_scroll _ _ _ _) => now apply inv_on_mouse_scroll
        | |- inv a => exact H
        end.
  assert (Hm : inv (if negb (pt_x ms - InputCapture.last_x_ (Gui.input_capture a) =? 0)
                       || negb (pt_y ms - InputCapture.last_y_ (Gui.input_capture a) =? 0)
                    then Gui.on_mouse_move env (pt_x ms) (pt_y ms)
                           (pt_x ms - InputCapture.last_x_ (Gui.input_capture a))
                           (pt_y ms - InputCapture.last_y_ (Gui.input_capture a)) a
                    else a)).
  { destruct (_ || _); [now apply inv_on_mouse_move | assumption]. }
  revert Hm. generalize (if negb (pt_x ms - InputCapture.last_x_ (Gui.input_capture a) =? 0)
                       || negb (pt_y ms - InputCapture.last_y_ (Gui.input_capture a) =? 0)
                    then Gui.on_mouse_move env (pt_x ms) (pt_y ms)
                           (pt_x ms - InputCapture.last_x_ (Gui.input_capture a))
                           (pt_y ms - InputCapture.last_y_ (Gui.input_capture a)) a
                    else a).
  intros b Hb. destruct (negb _); [|assumption].
  apply inv_with_capture; auto.
Qed.

Lemma inv_keyboard_hook env ctrl_down alt_down nCode wParam kb st :
  inv st -> inv (fst (Gui.keyboard_hook env ctrl_down alt_down nCode wParam kb st)).
Proof.
  intros H. unfold Gui.keyboard_hook, InputCapture.keyboard_hook_proc.
  destruct (nCode >=? 0); [|assumption].
  destruct (InputCapture.is_emergency_key _ _ _).
  - cbn [fst].
    assert (H1 : inv (if (kb_vkCode kb =? VK_SCROLL)
                         && ((wParam =? WM_KEYDOWN) || (wParam =? WM_SYSKEYDOWN))
                      then if InputCapture.captured_ (Gui.input_capture st)
                           then Gui.with_input_capture
                                  (InputCapture.set_captured false (Gui.input_capture st)) st
                           else st
                      else st)).
    { split_ifs; try assumption. apply inv_with_capture; [assumption|]. cbn. discriminate. }
    revert H1. generalize (if (kb_vkCode kb =? VK_SCROLL)
                         && ((wParam =? WM_KEYDOWN) || (wParam =? WM_SYSKEYDOWN))
                      then if InputCapture.captured_ (Gui.input_capture st)
                           then Gui.with_input_capture
                                  (InputCapture.set_captured false (Gui.input_capture st)) st
                           else st
                      else st).
    intros a Ha. split_ifs; [|assumption].
    apply inv_with_capture; [assumption|]. cbn. discriminate.
  - rewrite fst_if. cbn [Gui.callbacks InputCapture.key_callback_].
    apply inv_on_key. now apply inv_touch.
Qed.

Lemma journal_record e st : Gui.journal (Gui.record e st) = Gui.journal st ++ [e].
Proof. reflexivity. Qed.
Lemma journal_set_active b st :
  Gui.journal (Gui.set_active_on_remote b st)
  = Gui.journal st ++ [Gui.SetActiveOnRemote b].
Proof. reflexivity. Qed.
Lemma journal_capture_input env b st :
  Gui.journal (Gui.capture_input env b st) = Gui.journal st ++ [Gui.CaptureInput b].
Proof. reflexivity. Qed.
Lemma journal_warp x y st :
  Gui.journal (Gui.warp_cursor x y st) = Gui.journal st ++ [Gui.SetCursorPos x y].
Proof. reflexivity. Qed.

#[local] Hint Rewrite journal_record journal_set_active journal_capture_input
  journal_warp : app_proj.

Ltac journal_leaf :=
  eexists; split;
  [ autorewrite with app_proj; rewrite <- ?app_assoc;
    first [ reflexivity | symmetry; apply app_nil_r ]
  | cbn; auto 10 ].

Lemma callback_journal env a st :
  exists delta,
    Gui.journal (run_callback env a st) = Gui.journal st ++ delta
    /\ capture_follows_remote None delta /\ release_follows_local delta.
Proof.
  destruct a as [x y dx dy|button pressed|dx dy|vk scan flags pressed];
    cbn [run_callback].
  - unfold Gui.on_mouse_move, Gui.send. cbv beta iota.
    split_ifs; journal_leaf.
  - unfold Gui.on_mouse_button, Gui.send_or_release, Gui.send. cbv beta iota.
    split_ifs; journal_leaf.
  - unfold Gui.on_mouse_scroll, Gui.send_or_release, Gui.send. cbv beta iota.
    split_ifs; journal_leaf.
  - unfold Gui.on_key, Gui.send_or_release, Gui.send. cbv beta iota.
    destruct (Gui.active_on_remote st) eqn:Ha;
      split_ifs; cbn [snd]; autorewrite with app_proj in *;
      try discriminate; journal_leaf.
Qed.

Lemma failed_send_in_remote env a st :
  Gui.active_on_remote st = true ->
  Gui.active_client st = true ->
  Gui.send_result env <= 0 ->
  Gui.active_on_remote (run_callback env a st) = false
  /\ suppress (run_callback env a st) = false.
Proof.
  intros Ha Hc Hs.
  assert (Hs' : (Gui.send_result env <=? 0) = true) by now apply Z.leb_le.
  destruct a as [x y dx dy|button pressed|dx dy|vk scan flags pressed];
    cbn [run_callback].
  - unfold Gui.on_mouse_move, Gui.send. cbv beta iota.
    destruct (Gui.check_all_edges x y st) as [[at_edge edge] pos].
    rewrite Hc, Ha, Hs'. cbn [negb]. rewrite andb_false_r.
    autorewrite with app_proj. auto.
  - unfold Gui.on_mouse_button, Gui.send_or_release, Gui.send. cbv beta iota.
    rewrite Hc, Ha, Hs'. cbn [negb]. autorewrite with app_proj. auto.
  - unfold Gui.on_mouse_scroll, Gui.send_or_release, Gui.send. cbv beta iota.
    rewrite Hc, Ha, Hs'. cbn [negb]. autorewrite with app_proj. auto.
  - unfold Gui.on_key, Gui.send_or_release, Gui.send. cbv beta iota.
    rewrite Hc, Ha, Hs'. cbn [negb]. autorewrite with app_proj.
    split_ifs; autorewrite with app_proj in *; try discriminate; auto.
Qed.

Lemma failed_switch_in_local env x y dx dy st :
  inv st ->
  Gui.active_on_remote st = false ->
  Gui.send_result env <= 0 ->
  Gui.active_on_remote (Gui.on_mouse_move env x y dx dy st) = false
  /\ suppress (Gui.on_mouse_move env x y dx dy st) = false.
Proof.
  intros Hi Ha Hs.
  assert (Hs' : (Gui.send_result env <=? 0) = true) by now apply Z.leb_le.
  assert (Hsup : suppress st = false).
  { destruct (suppress st) eqn:E; [|reflexivity]. specialize (Hi E). congruence. }
  unfold Gui.on_mouse_move, Gui.send. cbv beta iota.
  destruct (Gui.check_all_edges x y st) as [[at_edge edge] pos].
  autorewrite with app_proj. rewrite Ha, Hs'.
  destruct (Gui.active_client st); cbn [negb]; [|auto].
  split_ifs; autorewrite with app_proj; auto.
Qed.

(** The manual toggle does not undo the switch, whatever its send returns. *)
Lemma F8_failed_send_stays_remote env scan flags st :
  Gui.active_client st = true ->
  Gui.active_on_remote st = false ->
  Gui.active_on_remote (Gui.on_key env VK_F8 scan flags true st) = true
  /\ suppress (Gui.on_key env VK_F8 scan flags true st) = true.
Proof.
  intros Hc Ha. unfold Gui.on_key, Gui.send. cbv beta iota.
  cbn [Z.eqb VK_F8 Pos.eqb andb]. rewrite Hc.
  autorewrite with app_proj. rewrite Ha. cbn [negb]. rewrite Hc.
  cbn [snd]. autorewrite with app_proj. auto.
Qed.

Lemma F8_journal env scan flags st :
  Gui.active_client st = true ->
  Gui.active_on_remote st = false ->
  Gui.journal (Gui.on_key env VK_F8 scan flags true st)
  = Gui.journal st
    ++ [Gui.SetActiveOnRemote true; Gui.CaptureInput true;
        Gui.Send (serialize_packet EventType.SWITCH_SCREEN
                    (SwitchScreenEvent.mk ScreenEdge.LEFT
                       (Z.quot (Gui.SM_CYSCREEN env) 2))
                    (Gui.clock_ms env))
                 (Gui.send_result env)].
Proof.
  intros Hc Ha. unfold Gui.on_key, Gui.send. cbv beta iota.
  cbn [Z.eqb VK_F8 Pos.eqb andb]. rewrite Hc.
  autorewrite with app_proj. rewrite Ha. cbn [negb]. rewrite Hc.
  cbn [snd]. autorewrite with app_proj. now rewrite <- !app_assoc.
Qed.

(** C5, where the code departs from it.  The F8 toggle pressed in LOCAL
    with the client socket valid writes [active_on_remote = true], then
    calls [capture_input(true)], then sends the SwitchScreen frame.  When
    that send fails the callback does nothing more: it returns with the
    focus REMOTE and suppress on, the failed send being the last entry of
    its journal; suppress is not dropped and the focus is not reverted. *)
Theorem C5_failed_F8_send_not_reverted
    (env : Gui.Env) (scan flags : Z) (st : Gui.AppState) :
  Gui.active_client st = true ->
  Gui.active_on_remote st = false ->
  Gui.send_result env <= 0 ->
  let st' := Gui.on_key env VK_F8 scan flags true st in
  Gui.active_on_remote st' = true
  /\ suppress st' = true
  /\ Gui.journal st'
     = Gui.journal st
       ++ [Gui.SetActiveOnRemote true; Gui.CaptureInput true;
           Gui.Send (serialize_packet EventType.SWITCH_SCREEN
                       (SwitchScreenEvent.mk ScreenEdge.LEFT
                          (Z.quot (Gui.SM_CYSCREEN env) 2))
                       (Gui.clock_ms env))
                    (Gui.send_result env)].
Proof.
  intros Hc Ha _ st'. subst st'.
  destruct (F8_failed_send_stays_remote env scan flags st Hc Ha) as [H1 H2].
  split; [exact H1 | split; [exact H2 | now apply F8_journal]].
Qed.

Lemma C5_failed_F8_send_not_reverted_witness :
  let st := Gui.with_active_client true (Gui.init "A" 1920 1080) in
  let env := Gui.mkEnv 7000 7000 (-1) 1080 in
  let st' := Gui.on_key env VK_F8 66 0 true st in
  Gui.send_result env <= 0
  /\ Gui.active_on_remote st' = true
  /\ suppress st' = true.
Proof.
  intros st env st'.
  assert (Hs : Gui.send_result env <= 0) by (cbn; lia).
  destruct (C5_failed_F8_send_not_reverted env 66 0 st eq_refl eq_refl Hs)
    as (H1 & H2 & _).
  split; [exact Hs | split; assumption].
Defined.

(** ** The wheel *)

Lemma to_i16_range v : - 2 ^ 15 <= to_i16 v < 2 ^ 15.
Proof.
  unfold to_i16, to_u16. change (2 ^ 15) with 32768. change (2 ^ 16) with 65536.
  pose proof (Z.mod_pos_bound v 65536 eq_refl).
  destruct (Z.ltb_spec (v mod 65536) 32768); lia.
Qed.

Lemma notches_range delta :
  - 2 ^ 15 <= delta < 2 ^ 15 -> - 274 < Z.quot delta WHEEL_DELTA < 274.
Proof.
  unfold WHEEL_DELTA. change (2 ^ 15) with 32768. intros H.
  Z.to_euclidean_division_equations. lia.
Qed.

Lemma notches_zero delta :
  Z.abs delta < WHEEL_DELTA -> Z.quot delta WHEEL_DELTA = 0.
Proof.
  unfold WHEEL_DELTA. intros H. Z.to_euclidean_division_equations. lia.
Qed.

Lemma to_i32_to_u32 v : is_i32 v -> to_i32 (to_u32 v) = v.
Proof.
  intros H. rewrite <- (to_i32_id v H) at 2. unfold to_i32, to_u32.
  now rewrite Z.mod_mod by discriminate.
Qed.

Lemma skipn_length_app {A} (l d : list A) : skipn (List.length l) (l ++ d) = d.
Proof. induction l; [reflexivity | assumption]. Qed.

Lemma wheel_frame_spec env horizontal ms st :
  Gui.active_on_remote st = true ->
  Gui.active_client st = true ->
  0 < Gui.send_result env ->
  wheel_frame env horizontal ms st
  = encode (EvMouseScroll
              (let notches := Z.quot (GET_WHEEL_DELTA_WPARAM (mouseData ms)) WHEEL_DELTA in
               if horizontal then MouseScrollEvent.mk notches 0
               else MouseScrollEvent.mk 0 notches))
           (Gui.clock_ms env).
Proof.
  intros Ha Hc Hs.
  assert (Hs1 : (Gui.send_result env <=? 0) = false) by (apply Z.leb_gt; lia).
  assert (Hs2 : (0 <? Gui.send_result env) = true) by (apply Z.ltb_lt; lia).
  unfold wheel_frame, Gui.mouse_hook, InputCapture.mouse_hook_proc.
  cbn [Z.geb Z.compare]. rewrite fst_if.
  set (a := if InputCapture.captured_ (Gui.input_capture st) then _ else st).
  assert (Haj : Gui.journal a = Gui.journal st
                /\ Gui.active_on_remote a = true /\ Gui.active_client a = true).
  { subst a. destruct (InputCapture.captured_ _); cbn; auto. }
  destruct Haj as (Hj & Ha' & Hc'). clearbody a.
  unfold InputCapture.mouse_switch, InputCapture.call_scroll.
  cbn [Gui.callbacks InputCapture.scroll_callback_].
  destruct horizontal;
    cbn [Z.eqb WM_MOUSEMOVE WM_LBUTTONDOWN WM_LBUTTONUP WM_RBUTTONDOWN
         WM_RBUTTONUP WM_MBUTTONDOWN WM_MBUTTONUP WM_XBUTTONDOWN WM_XBUTTONUP
         WM_MOUSEWHEEL WM_MOUSEHWHEEL Pos.eqb];
    unfold Gui.on_mouse_scroll, Gui.send_or_release, Gui.send;
    rewrite Ha', Hc'; cbn [negb]; cbv beta iota; rewrite Hs1;
    autorewrite with app_proj; rewrite <- Hj, <- ?app_assoc, skipn_length_app;
    rewrite Hs2; reflexivity.
Qed.

(** C10.  A wheel event hooked on the primary while it forwards (REMOTE,
    client socket valid, send succeeding) with raw amount [delta] is put on
    the wire as MouseScroll carrying delta / 120, truncated towards zero, on
    the axis of the wheel; an active secondary, the GUI client as well as
    the command-line client, injects one wheel event whose amount is
    (delta / 120) * 120, and injects nothing at all when that quotient is
    zero, which is the case whenever |delta| < 120. *)
Theorem C10_scroll_quantized
    (env : Gui.Env) (horizontal : bool) (ms : MSLLHOOKSTRUCT)
    (st : Gui.AppState) (c : Gui.ClientLoop)
    (cc : Cli.Client) (now : Z) (timed_out : bool) :
  Gui.active_on_remote st = true ->
  Gui.active_client st = true ->
  0 < Gui.send_result env ->
  Gui.active c = true ->
  Cli.active_ cc = true ->
  let delta := GET_WHEEL_DELTA_WPARAM (mouseData ms) in
  let notches := Z.quot delta WHEEL_DELTA in
  let frame := wheel_frame env horizontal ms st in
  let c' := fst (Gui.client_turn frame c) in
  let cc' := fst (Cli.process_events now timed_out frame cc) in
  frame = encode (EvMouseScroll
                    (if horizontal then MouseScrollEvent.mk notches 0
                     else MouseScrollEvent.mk 0 notches))
                 (Gui.clock_ms env)
  /\ injected_by c c' =
     (if notches =? 0 then []
      else [InputSimulator.INPUT_MOUSE 0 0 (to_u32 (notches * WHEEL_DELTA))
              (if horizontal then MOUSEEVENTF_HWHEEL else MOUSEEVENTF_WHEEL)])
  /\ injected_by_cli cc cc' = injected_by c c'
  /\ to_i32 (to_u32 (notches * WHEEL_DELTA)) = Z.quot delta 120 * 120
  /\ (Z.abs delta < 120 -> injected_by c c' = []).
Proof.
  intros Ha Hc Hs Hact Hcact delta notches frame c' cc'.
  assert (Hframe : frame = encode (EvMouseScroll
                    (if horizontal then MouseScrollEvent.mk notches 0
                     else MouseScrollEvent.mk 0 notches)) (Gui.clock_ms env)).
  { subst frame. rewrite wheel_frame_spec by assumption. now destruct horizontal. }
  pose proof (notches_range delta (to_i16_range _)) as Hn. fold notches in Hn.
  assert (Hdef : notches = Z.quot delta WHEEL_DELTA) by reflexivity.
  clearbody notches.
  assert (Hinj : injected_by c c' =
     (if notches =? 0 then []
      else [InputSimulator.INPUT_MOUSE 0 0 (to_u32 (notches * WHEEL_DELTA))
              (if horizontal then MOUSEEVENTF_HWHEEL else MOUSEEVENTF_WHEEL)])).
  { subst c'. rewrite Hframe. unfold Gui.client_turn.
    rewrite <- (app_nil_r (encode _ _)), Gui_client_decode_encode
      by (destruct horizontal; cbn; unfold is_i32; lia).
    cbn [fst Gui.client_handle]. rewrite Hact. cbn [negb].
    unfold injected_by, InputSimulator.mouse_scroll.
    destruct horizontal;
      cbn [MouseScrollEvent.dx MouseScrollEvent.dy Z.eqb negb];
      destruct (notches =? 0); cbn [negb];
      cbn [Gui.client_set_simulator Gui.input_simulator InputSimulator.SendInput
           InputSimulator.injected];
      rewrite ?skipn_length_app, ?skipn_all; reflexivity. }
  split; [exact Hframe|]. split; [exact Hinj|]. split; [|split].
  - rewrite Hinj. subst cc'. rewrite Hframe. unfold Cli.process_events.
    rewrite <- (app_nil_r (encode _ _)), Cli_decode_scroll
      by (destruct horizontal; cbn; unfold is_i32; lia).
    cbn [fst Cli.handle]. unfold Cli.handle_mouse_scroll.
    cbn [Cli.active_ Cli.set_last_data_received]. rewrite Hcact. cbn [negb].
    unfold injected_by_cli, InputSimulator.mouse_scroll.
    destruct horizontal;
      cbn [MouseScrollEvent.dx MouseScrollEvent.dy Z.eqb negb];
      destruct (notches =? 0); cbn [negb];
      cbn [Cli.set_simulator Cli.simulator_ Cli.set_last_data_received
           InputSimulator.SendInput InputSimulator.injected];
      rewrite ?skipn_length_app, ?skipn_all; reflexivity.
  - rewrite to_i32_to_u32 by (unfold is_i32, WHEEL_DELTA; lia).
    now rewrite Hdef.
  - intros Hsmall. rewrite Hinj, Hdef, notches_zero by exact Hsmall.
    reflexivity.
Qed.

Lemma C10_scroll_quantized_witness :
  let local := Gui.mkComputerInfo "A" EmptyString 24800 1920 1080 false false 0 0 0 in
  let st :=
    Gui.mkAppState "A" true [local]
      (InputCapture.capture_input true 100 (InputCapture.start InputCapture.construct))
      true true local [] in
  let env := Gui.mkEnv 7000 7000 14 1080 in
  let c := Gui.client_set_active true
             (Gui.client_start (InputSimulator.init 1280 720 0 0 InputSimulator.construct)
                1280 720) in
  let cc := Cli.set_active true
              (Cli.set_simulator
                 (InputSimulator.init 1280 720 0 0 InputSimulator.construct)
                 Cli.construct) in
  (* a precision touchpad reports -30; a wheel click reports -120 *)
  let touchpad := Build_MSLLHOOKSTRUCT 400 300 (to_u32 (-30 * 65536)) in
  let click := Build_MSLLHOOKSTRUCT 400 300 (to_u32 (-120 * 65536)) in
  GET_WHEEL_DELTA_WPARAM (mouseData touchpad) = -30
  /\ injected_by c (fst (Gui.client_turn (wheel_frame env false touchpad st) c)) = []
  /\ injected_by c (fst (Gui.client_turn (wheel_frame env false click st) c))
     = [InputSimulator.INPUT_MOUSE 0 0 (to_u32 (-120)) MOUSEEVENTF_WHEEL].
Proof.
  intros local st env c cc touchpad click.
  split; [reflexivity|]. split.
  - apply (C10_scroll_quantized env false touchpad st c cc 8000 false
             eq_refl eq_refl eq_refl eq_refl eq_refl).
    vm_compute. reflexivity.
  - exact (proj1 (proj2 (C10_scroll_quantized env false click st c cc 8000 false
                           eq_refl eq_refl eq_refl eq_refl eq_refl))).
Defined.

(** ** Entering the secondary *)

Lemma scale_position_positive pos from_size to_size :
  0 < from_size -> 0 < to_size ->
  Cli.scale_position pos from_size to_size = Z.quot (pos * to_size) from_size.
Proof.
  intros Hf Ht. unfold Cli.scale_position.
  destruct (Z.leb_spec from_size 0); [lia|].
  destruct (Z.leb_spec to_size 0); [lia|]. reflexivity.
Qed.

(** The command-line client does what the property asks for. *)
Lemma Cli_switch_screen_scales (event : SwitchScreenEvent.t) (c : Cli.Client) :
  let w := InputSimulator.screen_width_ (Cli.simulator_ c) in
  let h := InputSimulator.screen_height_ (Cli.simulator_ c) in
  let pos := SwitchScreenEvent.position event in
  0 < Cli.server_width_ c -> 0 < Cli.server_height_ c -> 0 < w -> 0 < h ->
  let c' := Cli.handle_switch_screen event c in
  Cli.active_ c' = true
  /\ Cli.entry_edge_ c' = SwitchScreenEvent.edge event
  /\ match SwitchScreenEvent.edge event with
     | ScreenEdge.LEFT =>
         Cli.cursor_x_ c' = 0
         /\ Cli.cursor_y_ c' = Z.quot (pos * h) (Cli.server_height_ c)
     | ScreenEdge.RIGHT =>
         Cli.cursor_x_ c' = w - 1
         /\ Cli.cursor_y_ c' = Z.quot (pos * h) (Cli.server_height_ c)
     | ScreenEdge.TOP =>
         Cli.cursor_x_ c' = Z.quot (pos * w) (Cli.server_width_ c)
         /\ Cli.cursor_y_ c' = 0
     | ScreenEdge.BOTTOM =>
         Cli.cursor_x_ c' = Z.quot (pos * w) (Cli.server_width_ c)
         /\ Cli.cursor_y_ c' = h - 1
     | _ => True
     end
  /\ Cli.simulator_ c'
     = InputSimulator.move_mouse (Cli.cursor_x_ c') (Cli.cursor_y_ c') (Cli.simulator_ c).
Proof.
  intros w h pos Hsw Hsh Hw Hh c'. subst c' w h pos.
  unfold Cli.handle_switch_screen.
  cbn [Cli.simulator_ Cli.set_entry_edge Cli.set_active Cli.server_height_
       Cli.server_width_].
  rewrite !scale_position_positive by assumption.
  destruct (SwitchScreenEvent.edge event); cbn; auto.
Qed.

Lemma Cli_screen_info_updates (info : ScreenInfo.t) (c : Cli.Client) :
  Cli.server_width_ (Cli.handle_screen_info info c) = ScreenInfo.width info
  /\ Cli.server_height_ (Cli.handle_screen_info info c) = ScreenInfo.height info.
Proof. split; reflexivity. Qed.

(** On a SwitchScreen frame the GUI client takes the position as it is. *)
Lemma Gui_switch_screen_unscaled (event : SwitchScreenEvent.t) (c : Gui.ClientLoop) :
  let c' := Gui.client_switch_screen event c in
  Gui.active c' = true
  /\ Gui.entry_edge c' = SwitchScreenEvent.edge event
  /\ (SwitchScreenEvent.edge event = ScreenEdge.LEFT ->
      Gui.cursor_y c'
      = clamp 0 (Gui.local_height c - 1) (SwitchScreenEvent.position event)).
Proof.
  cbn zeta. unfold Gui.client_switch_screen. repeat split.
  - destruct (SwitchScreenEvent.edge event); reflexivity.
  - destruct (SwitchScreenEvent.edge event); reflexivity.
  - intros ->. reflexivity.
Qed.

(** C2, what the code does.  A secondary with a 1280x720 screen receives
    ScreenInfo{1920x1080} and then SwitchScreen{LEFT, 540}.  The
    command-line client becomes active with entry edge LEFT and puts the
    cursor at (0, 540 * 720 / 1080) = (0, 360).  The GUI client becomes
    active with entry edge LEFT too, but it has no case for ScreenInfo and
    does not scale: its cursor goes to (0, 540). *)
Theorem C2_gui_client_does_not_scale :
  let stream :=
    encode (EvScreenInfo (ScreenInfo.mk 1920 1080 0 0)) 10
    ++ encode (EvSwitchScreen (SwitchScreenEvent.mk ScreenEdge.LEFT 540)) 20 in
  let sim := InputSimulator.init 1280 720 640 360 InputSimulator.construct in
  let cli0 := Cli.set_connected true (Cli.set_simulator sim Cli.construct) in
  let '(cli1, rest) := Cli.process_events 10 false stream cli0 in
  let cli := fst (Cli.process_events 20 false rest cli1) in
  let gui0 := Gui.client_start sim 1280 720 in
  let '(gui1, rest') := Gui.client_turn stream gui0 in
  let gui := fst (Gui.client_turn rest' gui1) in
  Cli.scale_position 540 1080 720 = 360
  /\ (Cli.active_ cli, Cli.entry_edge_ cli) = (true, ScreenEdge.LEFT)
  /\ (Cli.server_width_ cli, Cli.server_height_ cli) = (1920, 1080)
  /\ (Cli.cursor_x_ cli, Cli.cursor_y_ cli) = (0, 360)
  /\ (Gui.active gui, Gui.entry_edge gui) = (true, ScreenEdge.LEFT)
  /\ gui1 = gui0
  /\ (Gui.cursor_x gui, Gui.cursor_y gui) = (0, 540)
  /\ InputSimulator.injected (Gui.input_simulator gui)
     = [InputSimulator.INPUT_MOUSE 0 (Z.quot (540 * 65535) 719) 0
          (Z.lor MOUSEEVENTF_ABSOLUTE MOUSEEVENTF_MOVE)].
Proof. vm_compute. repeat split. Qed.

(* ===================================================================== *)
(** * Further properties of the code                                     *)
(* ===================================================================== *)

(** ** [recv_exact] and the segmentation of the stream *)

Lemma Socket_recv_exact_nonpositive (len : Z) (l : list Z) :
  len <= 0 -> Socket.recv_exact len l = Some ([], l).
Proof.
  intros H. unfold Socket.recv_exact.
  destruct (Z.ltb_spec (Z.of_nat (List.length l)) len); [lia|].
  replace (Z.to_nat len) with 0%nat by lia. reflexivity.
Qed.

Lemma firstn_plus {A} (n m : nat) (l : list A) :
  firstn (n + m) l = firstn n l ++ firstn m (skipn n l).
Proof.
  revert l. induction n as [|n IH]; intros [|a l]; cbn;
    rewrite ?firstn_nil; try reflexivity.
  now rewrite IH.
Qed.

Lemma Socket_recv_exact_split (len : Z) (n : nat) (l : list Z) :
  (n <= List.length l)%nat -> Z.of_nat n <= len ->
  Socket.recv_exact len l =
  match Socket.recv_exact (len - Z.of_nat n) (skipn n l) with
  | None => None
  | Some (a, rest) => Some (firstn n l ++ a, rest)
  end.
Proof.
  intros Hn Hlen. unfold Socket.recv_exact.
  rewrite length_skipn.
  destruct (Z.ltb_spec (Z.of_nat (List.length l)) len);
    destruct (Z.ltb_spec (Z.of_nat (List.length l - n)) (len - Z.of_nat n));
    try lia; [reflexivity|].
  replace (Z.to_nat len) with (n + Z.to_nat (len - Z.of_nat n))%nat by lia.
  rewrite firstn_plus, (Nat.add_comm n), <- skipn_skipn. reflexivity.
Qed.

Lemma recv_exact_refines (fuel : nat) (len received : Z) (buffer : list Z)
    (segments : list (list Z)) :
  Forall (fun seg => seg <> []) segments ->
  (Z.to_nat (len - received) <= fuel)%nat ->
  match Socket.recv_exact (len - received) (List.concat segments) with
  | None => Stream.recv_exact fuel len received buffer segments = Stream.Failed
  | Some (a, rest) =>
      exists segments',
        Stream.recv_exact fuel len received buffer segments
        = Stream.Received (buffer ++ a) segments'
        /\ List.concat segments' = rest
  end.
Proof.
  revert received buffer segments.
  induction fuel as [|fuel IH]; intros received buffer segments Hne Hfuel.
  - assert (len - received <= 0) by lia.
    rewrite Socket_recv_exact_nonpositive by assumption.
    exists segments. cbn [Stream.recv_exact].
    destruct (Z.ltb_spec received len); [lia|].
    now rewrite app_nil_r.
  - cbn [Stream.recv_exact].
    destruct (Z.ltb_spec received len) as [Hlt|Hge].
    2:{ rewrite Socket_recv_exact_nonpositive by lia.
        exists segments. now rewrite app_nil_r. }
    destruct segments as [|seg more].
    + cbn [Stream.recv List.concat Z.leb Z.compare].
      unfold Socket.recv_exact. cbn [List.length Z.of_nat].
      destruct (Z.ltb_spec 0 (len - received)); [reflexivity | lia].
    + inversion Hne as [|? ? Hseg Hmore]; subst.
      assert (Hlen : (0 < List.length seg)%nat)
        by (destruct seg; [contradiction | cbn; lia]).
      cbn [Stream.recv List.concat].
      set (n := Z.min (len - received) (Z.of_nat (List.length seg))).
      assert (Hn : 0 < n <= len - received /\ n <= Z.of_nat (List.length seg))
        by (subst n; lia).
      rewrite (Socket_recv_exact_split (len - received) (Z.to_nat n))
        by (rewrite ?length_app; lia).
      rewrite Z2Nat.id by lia.
      rewrite skipn_app, firstn_app.
      replace (Z.to_nat n - List.length seg)%nat with 0%nat by lia.
      cbn [skipn firstn]. rewrite app_nil_r.
      replace (len - received - n) with (len - (received + n)) by lia.
      destruct (skipn (Z.to_nat n) seg) as [|b remaining] eqn:Hrem.
      * destruct (Z.leb_spec n 0); [lia|]. cbn [app].
        specialize (IH (received + n) (buffer ++ firstn (Z.to_nat n) seg) more
                      Hmore ltac:(lia)).
        destruct (Socket.recv_exact (len - (received + n)) (List.concat more))
          as [[a rest]|]; [|exact IH].
        destruct IH as (segments' & Hr & Hc). exists segments'.
        now rewrite app_assoc.
      * destruct (Z.leb_spec n 0); [lia|].
        assert (Hne' : Forall (fun seg => seg <> []) ((b :: remaining) :: more))
          by (constructor; [discriminate | assumption]).
        specialize (IH (received + n) (buffer ++ firstn (Z.to_nat n) seg)
                      ((b :: remaining) :: more) Hne' ltac:(lia)).
        cbn [List.concat] in IH.
        destruct (Socket.recv_exact (len - (received + n))
                    ((b :: remaining) ++ List.concat more)) as [[a rest]|]; [|exact IH].
        destruct IH as (segments' & Hr & Hc). exists segments'.
        now rewrite app_assoc.
Qed.

(** X1.  [Socket::recv_exact] does not depend on how the stream is cut into
    segments: run with [len] units of fuel on the segments in which the
    bytes arrive (none of them empty), it returns the first [len] bytes of
    their concatenation and leaves the rest on the socket when [len] bytes
    arrive, and fails otherwise; it never runs out of fuel. *)
Theorem recv_exact_segmentation (len : Z) (segments : list (list Z)) :
  Forall (fun seg => seg <> []) segments ->
  match Socket.recv_exact len (List.concat segments) with
  | None =>
      Stream.recv_exact (Z.to_nat len) len 0 [] segments = Stream.Failed
  | Some (a, rest) =>
      exists segments',
        Stream.recv_exact (Z.to_nat len) len 0 [] segments
        = Stream.Received a segments'
        /\ List.concat segments' = rest
  end.
Proof.
  intros Hne.
  pose proof (recv_exact_refines (Z.to_nat len) len 0 [] segments Hne) as H.
  rewrite Z.sub_0_r in H. apply H. lia.
Qed.

Lemma recv_exact_segmentation_witness :
  exists segments',
    Stream.recv_exact 9 9 0 [] [[1; 0; 7]; [0; 0]; [0; 0; 0; 0; 5; 6]; [7]]
    = Stream.Received [1; 0; 7; 0; 0; 0; 0; 0; 0] segments'
    /\ List.concat segments' = [5; 6; 7].
Proof.
  assert (Hne : Forall (fun seg : list Z => seg <> [])
                  [[1; 0; 7]; [0; 0]; [0; 0; 0; 0; 5; 6]; [7]])
    by (repeat constructor; discriminate).
  exact (recv_exact_segmentation 9 [[1; 0; 7]; [0; 0]; [0; 0; 0; 0; 5; 6]; [7]] Hne).
Defined.

(** ** The loop of the command-line client *)

Lemma Cli_handle_keeps_session (e : Event) (c : Cli.Client) :
  Cli.connected_ (Cli.handle e c) = Cli.connected_ c
  /\ Cli.last_data_received_ (Cli.handle e c) = Cli.last_data_received_ c.
Proof.
  destruct e as [p|p|p|p pressed|p|p|]; cbn [Cli.handle].
  - unfold Cli.handle_mouse_move, Cli.check_edge_switch.
    destruct (Cli.active_ c); cbn [negb]; [|auto].
    match goal with |- context [if ?b then _ else _] => destruct b end;
      split; reflexivity.
  - unfold Cli.handle_mouse_button. destruct (Cli.active_ c); split; reflexivity.
  - unfold Cli.handle_mouse_scroll. destruct (Cli.active_ c); split; reflexivity.
  - unfold Cli.handle_key_event. destruct (Cli.active_ c); split; reflexivity.
  - split; reflexivity.
  - unfold Cli.handle_switch_screen.
    destruct (SwitchScreenEvent.edge p); split; reflexivity.
  - split; reflexivity.
Qed.

Lemma seconds_over_30 (d : Z) : (Z.quot d 1000 >? 30) = true <-> 31000 <= d.
Proof.
  destruct (Z.gtb_spec (Z.quot d 1000) 30) as [H|H]; split; intros H';
    try reflexivity; try discriminate;
    revert H; Z.to_euclidean_division_equations; lia.
Qed.

(** X2.  The command-line client gives the connection up for silence only
    when at least 31 000 ms have passed since the last frame: the elapsed
    time is cut to whole seconds before it is compared with 30.  The test
    changes nothing but [connected_]. *)
Theorem client_idle_timeout (now : Z) (c : Cli.Client) :
  (Cli.connected_ (ClientRun.check_timeout now c) = true
   <-> Cli.connected_ c = true /\ now - Cli.last_data_received_ c < 31000)
  /\ ClientRun.check_timeout now c
     = Cli.set_connected (Cli.connected_ (ClientRun.check_timeout now c)) c.
Proof.
  unfold ClientRun.check_timeout. cbv zeta.
  pose proof (seconds_over_30 (now - Cli.last_data_received_ c)) as H.
  destruct (Z.quot (now - Cli.last_data_received_ c) 1000 >? 30).
  - split; [|reflexivity]. cbn. split; [discriminate|].
    intros [_ Hlt]. assert (31000 <= now - Cli.last_data_received_ c) by now apply H.
    lia.
  - split; [|destruct c; reflexivity].
    split; [intros Hc; split; [exact Hc|] | tauto].
    destruct (Z.le_gt_cases 31000 (now - Cli.last_data_received_ c)) as [Hle|Hgt];
      [|lia]. apply H in Hle. discriminate.
Qed.

(** X3.  Every frame whose header arrives resets the idle timer of the
    command-line client, also when the frame is then refused, skipped or of
    an unknown type; a turn in which no complete header arrives leaves the
    timer as it was. *)
Theorem client_timer_reset (now : Z) (timed_out : bool) (incoming : list Z)
    (c : Cli.Client) :
  let c' := fst (Cli.process_events now timed_out incoming c) in
  (9 <= Z.of_nat (List.length incoming) -> Cli.last_data_received_ c' = now)
  /\ (Z.of_nat (List.length incoming) < 9 ->
      Cli.last_data_received_ c' = Cli.last_data_received_ c).
Proof.
  cbv zeta. unfold Cli.process_events, Cli.decode, Socket.recv_exact.
  change (sizeof (T:=PacketHeader.t)) with 9.
  destruct (Z.ltb_spec (Z.of_nat (List.length incoming)) 9) as [Hs|Hl].
  - split; [lia|]. intros _. cbn. now destruct timed_out.
  - split; [intros _ | lia].
    set (h := load (firstn (Z.to_nat 9) incoming) : PacketHeader.t).
    destruct (negb (is_valid_packet_header h)); [reflexivity|].
    assert (Hd : forall l,
      Cli.last_data_received_
        (fst (let (d, rest) := (Cli.dispatch h l, @nil Z) in
              match d with
              | Delivered e => (Cli.handle e (Cli.set_last_data_received now c), rest)
              | Ignored => (Cli.set_last_data_received now c, rest)
              | Rejected =>
                  (Cli.set_connected false (Cli.set_last_data_received now c), rest)
              | NoFrame => (if timed_out then c else Cli.set_connected false c, rest)
              end)) = now).
    { intros l. unfold Cli.dispatch.
      destruct (PacketHeader.type h); cbn [fst];
        repeat match goal with
               | |- context [if ?b then _ else _] => destruct b
               end; cbn [fst];
        try reflexivity;
        now rewrite (proj2 (Cli_handle_keeps_session _ _)). }
    destruct (PacketHeader.payload_size h >? 0).
    + destruct (if Z.of_nat (List.length (skipn (Z.to_nat 9) incoming))
                     <? PacketHeader.payload_size h then None else _)
        as [[payload rest]|]; [|reflexivity].
      specialize (Hd payload). cbn [fst] in *.
      destruct (Cli.dispatch h payload); cbn [fst] in *; assumption.
    + specialize (Hd []). cbn [fst] in *.
      destruct (Cli.dispatch h []); cbn [fst] in *; assumption.
Qed.

Lemma check_timeout_fresh (t_recv t_check : Z) (e : Event) (c : Cli.Client) :
  t_check - t_recv < 31000 ->
  ClientRun.check_timeout t_check
    (Cli.handle e (Cli.set_last_data_received t_recv c))
  = Cli.handle e (Cli.set_last_data_received t_recv c).
Proof.
  intros H. unfold ClientRun.check_timeout. cbv zeta.
  rewrite (proj2 (Cli_handle_keeps_session _ _)).
  cbn [Cli.last_data_received_ Cli.set_last_data_received].
  destruct (Z.quot (t_check - t_recv) 1000 >? 30) eqn:E; [|reflexivity].
  apply seconds_over_30 in E. lia.
Qed.

(** X4.  Frames are self-delimiting for the command-line client: its loop,
    given the concatenated bytes of any sequence of well-formed events
    (followed by anything), enters the handlers with exactly these events in
    order, one per turn, and leaves what follows on the stream, as long as
    each turn's timeout test comes less than 31 s after its read. *)
Theorem client_loop_delivers_in_order
    (frames : list (Event * Z)) (clock : list (Z * Z)) (rest : list Z)
    (c : Cli.Client) :
  Forall (fun f => wf_event (fst f)) frames ->
  List.length clock = List.length frames ->
  Forall (fun t => snd t - fst t < 31000) clock ->
  Cli.connected_ c = true ->
  ClientRun.loop clock (ClientRun.frames_bytes frames ++ rest) c
  = (fold_left ClientRun.after_frame (combine frames clock) c, rest).
Proof.
  intros Hwf. revert clock c.
  induction Hwf as [|[e ts] frames He _ IH]; intros clock c Hlen Hclock Hc.
  - destruct clock; [reflexivity | discriminate].
  - destruct clock as [|[t_recv t_check] clock]; [discriminate|].
    inversion Hclock as [|? ? Ht Hclock']; subst. cbn [fst snd] in *.
    cbn [ClientRun.loop ClientRun.frames_bytes flat_map combine fold_left fst snd].
    rewrite Hc, <- app_assoc. unfold Cli.process_events.
    rewrite Cli_decode_encode by assumption.
    rewrite check_timeout_fresh by assumption.
    fold (ClientRun.frames_bytes frames).
    rewrite IH.
    + reflexivity.
    + now injection Hlen.
    + assumption.
    + now rewrite (proj1 (Cli_handle_keeps_session _ _)).
Qed.

Lemma client_loop_delivers_in_order_witness :
  let frames :=
    [(EvScreenInfo (ScreenInfo.mk 1920 1080 0 0), 10);
     (EvSwitchScreen (SwitchScreenEvent.mk ScreenEdge.LEFT 540), 20);
     (EvMouseMove (MouseMoveEvent.mk 965 540 5 0), 30)] in
  let clock := [(100, 101); (200, 201); (300, 301)] in
  let c0 :=
    Cli.set_connected true
      (Cli.set_simulator (InputSimulator.init 1280 720 640 360 InputSimulator.construct)
         Cli.construct) in
  let c := fst (ClientRun.loop clock (ClientRun.frames_bytes frames ++ [1; 2]) c0) in
  (Cli.cursor_x_ c, Cli.cursor_y_ c) = (5, 360)
  /\ Cli.active_ c = true
  /\ snd (ClientRun.loop clock (ClientRun.frames_bytes frames ++ [1; 2]) c0) = [1; 2].
Proof.
  intros frames clock c0 c. subst c.
  rewrite (client_loop_delivers_in_order frames clock [1; 2] c0).
  - repeat split.
  - repeat constructor; cbn; unfold is_i32; lia.
  - reflexivity.
  - repeat constructor; cbn; lia.
  - reflexivity.
Defined.

(** ** What the hook procedures preserve, for any application *)

Section HookPreserves.

Context {App : Type}.
Variable capture : App -> InputCapture.t.
Variable with_capture : InputCapture.t -> App -> App.
Variable cb : InputCapture.Callbacks (App:=App).
Variable P : App -> Prop.

Hypothesis P_touch : forall t a,
  P a -> P (with_capture (InputCapture.set_last_activity t (capture a)) a).
Hypothesis P_last : forall x y a,
  P a -> P (with_capture (InputCapture.set_last x y (capture a)) a).
Hypothesis P_release : forall a,
  P a -> P (with_capture (InputCapture.set_captured false (capture a)) a).
Hypothesis P_move : forall f x y dx dy a,
  InputCapture.move_callback_ cb = Some f -> P a -> P (f x y dx dy a).
Hypothesis P_button : forall f b p a,
  InputCapture.button_callback_ cb = Some f -> P a -> P (f b p a).
Hypothesis P_scroll : forall f dx dy a,
  InputCapture.scroll_callback_ cb = Some f -> P a -> P (f dx dy a).
Hypothesis P_key : forall f vk scan flags p a,
  InputCapture.key_callback_ cb = Some f -> P a -> P (f vk scan flags p a).

Lemma mouse_switch_preserves wParam ms a :
  P a -> P (InputCapture.mouse_switch capture with_capture cb wParam ms a).
Proof.
  intros H. unfold InputCapture.mouse_switch, InputCapture.call_button,
    InputCapture.call_scroll.
  repeat match goal with
         | |- context [wParam =? ?c] => destruct (wParam =? c)
         end;
    try exact H;
    try (destruct (InputCapture.button_callback_ cb) eqn:E;
         [now apply P_button | exact H]);
    try (destruct (InputCapture.scroll_callback_ cb) eqn:E;
         [now apply P_scroll | exact H]).
  assert (Hm : P match InputCapture.move_callback_ cb with
                 | Some f =>
                     if negb (pt_x ms - InputCapture.last_x_ (capture a) =? 0)
                        || negb (pt_y ms - InputCapture.last_y_ (capture a) =? 0)
                     then f (pt_x ms) (pt_y ms)
                            (pt_x ms - InputCapture.last_x_ (capture a))
                            (pt_y ms - InputCapture.last_y_ (capture a)) a
                     else a
                 | None => a
                 end).
  { destruct (InputCapture.move_callback_ cb) eqn:E; [|exact H].
    destruct (_ || _); [now apply P_move | exact H]. }
  revert Hm.
  generalize (match InputCapture.move_callback_ cb with
              | Some f =>
                  if negb (pt_x ms - InputCapture.last_x_ (capture a) =? 0)
                     || negb (pt_y ms - InputCapture.last_y_ (capture a) =? 0)
                  then f (pt_x ms) (pt_y ms)
                         (pt_x ms - InputCapture.last_x_ (capture a))
                         (pt_y ms - InputCapture.last_y_ (capture a)) a
                  else a
              | None => a
              end).
  intros b Hb. destruct (negb _); [now apply P_last | exact Hb].
Qed.

Lemma mouse_hook_preserves tick nCode wParam ms a :
  P a ->
  P (fst (InputCapture.mouse_hook_proc capture with_capture cb tick nCode wParam ms a)).
Proof.
  intros H. unfold InputCapture.mouse_hook_proc.
  destruct (nCode >=? 0); [|exact H].
  rewrite fst_if. apply mouse_switch_preserves.
  destruct (InputCapture.captured_ (capture a)); [now apply P_touch | exact H].
Qed.

Lemma keyboard_hook_preserves tick ctrl_down alt_down nCode wParam kb a :
  P a ->
  P (fst (InputCapture.keyboard_hook_proc capture with_capture cb tick
            ctrl_down alt_down nCode wParam kb a)).
Proof.
  intros H. unfold InputCapture.keyboard_hook_proc.
  destruct (nCode >=? 0); [|exact H].
  destruct (InputCapture.is_emergency_key _ _ _).
  - cbn [fst].
    assert (H1 : P (if (kb_vkCode kb =? VK_SCROLL)
                       && ((wParam =? WM_KEYDOWN) || (wParam =? WM_SYSKEYDOWN))
                    then if InputCapture.captured_ (capture a)
                         then with_capture
                                (InputCapture.set_captured false (capture a)) a
                         else a
                    else a)).
    { destruct (_ && _); [|exact H].
      destruct (InputCapture.captured_ (capture a)); [now apply P_release | exact H]. }
    revert H1.
    generalize (if (kb_vkCode kb =? VK_SCROLL)
                   && ((wParam =? WM_KEYDOWN) || (wParam =? WM_SYSKEYDOWN))
                then if InputCapture.captured_ (capture a)
                     then with_capture
                            (InputCapture.set_captured false (capture a)) a
                     else a
                else a).
    intros b Hb. destruct (_ && _); [now apply P_release | exact Hb].
  - rewrite fst_if.
    assert (H1 : P (if InputCapture.captured_ (capture a)
                    then with_capture
                           (InputCapture.set_last_activity (to_u32 tick) (capture a)) a
                    else a)).
    { destruct (InputCapture.captured_ (capture a)); [now apply P_touch | exact H]. }
    destruct (InputCapture.key_callback_ cb) eqn:E; [now apply P_key | exact H1].
Qed.

End HookPreserves.

(** ** The command-line server *)

Lemma server_inv_send_event {T} `{Packed T} env type (payload : T) s :
  server_inv s -> server_inv (Server.send_event env type payload s).
Proof.
  intros Hi. unfold Server.send_event.
  destruct (Server.connected_ s) eqn:Ec; cbn [negb]; [|exact Hi].
  destruct Hi as [H1 H2].
  destruct (Server.send_result env <=? 0); [|split; cbn; assumption].
  cbn. destruct (Server.active_on_client_ s) eqn:Ea;
    unfold Server.switch_to_server, InputCapture.capture_input;
    split; cbn; intros; try congruence.
  rewrite Ea. now apply H1.
Qed.

Lemma server_inv_switch_to_server env s :
  server_inv (Server.switch_to_server env s).
Proof.
  unfold Server.switch_to_server, InputCapture.capture_input.
  split; cbn; congruence.
Qed.

Lemma server_inv_warp_to_center s :
  server_inv s -> server_inv (Server.warp_to_center s).
Proof. intros [H1 H2]. split; cbn; assumption. Qed.

Lemma server_inv_switch_to_client env edge_position s :
  Server.connected_ s = true ->
  server_inv (Server.switch_to_client env edge_position s).
Proof.
  intros Hc. unfold Server.switch_to_client.
  apply server_inv_warp_to_center, server_inv_send_event.
  split; cbn; auto.
Qed.

Lemma server_inv_callback env a s :
  server_inv s -> server_inv (Server.run_callback env a s).
Proof.
  intros H. destruct a as [x y dx dy|button pressed|dx dy|vk scan flags pressed]; cbn.
  - unfold Server.on_move, Server.on_move_after_guard. destruct (Server.connected_ s) eqn:Ec; cbn [negb]; [|exact H].
    destruct (Server.at_switch_edge x y s) as [at_edge edge_pos].
    destruct (at_edge && negb (Server.active_on_client_ s)).
    + now apply server_inv_switch_to_client.
    + destruct (Server.active_on_client_ s); [|exact H].
      now apply server_inv_send_event.
  - unfold Server.on_button. destruct (_ || _); [exact H|].
    now apply server_inv_send_event.
  - unfold Server.on_scroll. destruct (_ || _); [exact H|].
    now apply server_inv_send_event.
  - unfold Server.on_key. destruct (_ && _).
    + destruct (Server.active_on_client_ s); [apply server_inv_switch_to_server|].
      destruct (Server.connected_ s) eqn:Ec; [|exact H].
      now apply server_inv_switch_to_client.
    + destruct (_ || _); [exact H|]. now apply server_inv_send_event.
Qed.

Lemma server_inv_mouse_hook env nCode wParam ms s :
  server_inv s -> server_inv (fst (Server.mouse_hook env nCode wParam ms s)).
Proof.
  unfold Server.mouse_hook. apply mouse_hook_preserves.
  - intros t a [H1 H2]. split; cbn; assumption.
  - intros x y a [H1 H2]. split; cbn; assumption.
  - intros f x y dx dy a E. injection E as <-.
    apply (server_inv_callback env (OnMouseMove x y dx dy)).
  - intros f b p a E. injection E as <-.
    apply (server_inv_callback env (OnMouseButton b p)).
  - intros f dx dy a E. injection E as <-.
    apply (server_inv_callback env (OnMouseScroll dx dy)).
Qed.

Lemma server_inv_keyboard_hook env ctrl_down alt_down nCode wParam kb s :
  server_inv s ->
  server_inv (fst (Server.keyboard_hook env ctrl_down alt_down nCode wParam kb s)).
Proof.
  unfold Server.keyboard_hook. apply keyboard_hook_preserves.
  - intros t a [H1 H2]. split; cbn; assumption.
  - intros a [H1 H2]. split; cbn; [congruence|assumption].
  - intros f vk scan flags p a E. injection E as <-.
    apply (server_inv_callback env (OnKey vk scan flags p)).
Qed.

Lemma server_disconnected env s :
  Server.connected_ s = false ->
  (InputCapture.captured_ (Server.input_ s) = true ->
   Server.active_on_client_ s = true) ->
  server_inv (Server.disconnected env s)
  /\ Server.connected_ (Server.disconnected env s) = false
  /\ Server.active_on_client_ (Server.disconnected env s) = false
  /\ InputCapture.captured_ (Server.input_ (Server.disconnected env s)) = false.
Proof.
  intros Hc H1. unfold Server.disconnected.
  destruct (Server.active_on_client_ s) eqn:Ea.
  - repeat split; cbn; congruence.
  - destruct (InputCapture.captured_ (Server.input_ s)) eqn:Ek.
    + discriminate (H1 eq_refl).
    + repeat split; congruence.
Qed.

Lemma seconds_at_least_5 (d : Z) : (Z.quot d 1000 >=? 5) = true <-> 5000 <= d.
Proof.
  destruct (Z.geb_spec (Z.quot d 1000) 5) as [H|H]; split; intros H';
    try reflexivity; try discriminate;
    revert H; Z.to_euclidean_division_equations; lia.
Qed.

Lemma at_switch_edge_input (x y : Z) (s s' : Server.t) :
  Server.switch_edge_ s' = Server.switch_edge_ s ->
  Server.input_ s' = Server.input_ s ->
  Server.at_switch_edge x y s' = Server.at_switch_edge x y s.
Proof. intros He Hi. unfold Server.at_switch_edge. now rewrite He, Hi. Qed.

(** X5.  On the command-line server capture does not always follow the
    connection: the hook thread and the main thread share [connected_] and
    [active_on_client_] without a lock.  Let the move callback, with the
    focus on the server and the pointer on the switch edge, have found
    [connected_] set at its guard, and let the main thread then take a turn
    of its loop in which the keepalive is due and its send fails: the main
    thread clears [connected_] and, the focus being on the server, releases
    nothing.  The callback, going on from its guard, switches to the
    client: it sets [active_on_client_], captures the input, sends nothing
    (the send returns at its own guard) and warps the cursor to the
    centre.  Input is then captured with the focus on a client that is not
    connected.  Had the guard been evaluated after the turn of the main
    thread, the callback would have done nothing. *)
Theorem server_disconnect_race
    (env1 env2 : Server.Env) (now x y dx dy pos : Z) (s : Server.t) :
  Server.connected_ s = true ->
  Server.active_on_client_ s = false ->
  Server.at_switch_edge x y s = (true, pos) ->
  5000 <= now - Server.last_keepalive_sent_ s ->
  Server.send_result env1 <= 0 ->
  let s1 := Server.loop_turn env1 now s in
  let s2 := Server.on_move_after_guard env2 x y dx dy s1 in
  Server.connected_ s1 = false
  /\ Server.active_on_client_ s1 = false
  /\ Server.input_ s1 = Server.input_ s
  /\ Server.on_move env2 x y dx dy s1 = s1
  /\ Server.connected_ s2 = false
  /\ Server.active_on_client_ s2 = true
  /\ InputCapture.captured_ (Server.input_ s2) = true
  /\ Server.journal s2
     = Server.journal s1
       ++ [Server.SetCursorPos
             (Z.quot (InputCapture.screen_width_ (Server.input_ s)) 2)
             (Z.quot (InputCapture.screen_height_ (Server.input_ s)) 2)]
  /\ ~ server_inv s2.
Proof.
  intros Hc Ha Hedge Hdue Hfail s1 s2.
  assert (Hdue' : (Z.quot (now - Server.last_keepalive_sent_ s) 1000 >=? 5) = true)
    by now apply seconds_at_least_5.
  assert (Hfail' : (Server.send_result env1 <=? 0) = true) by now apply Z.leb_le.
  assert (Hs1 : s1 = Server.set_connected false
                       (Server.record
                          (Server.Send (serialize_keepalive (Server.clock_ms env1))
                                       (Server.send_result env1)) s)).
  { subst s1. unfold Server.loop_turn. rewrite Hc, Hdue', Hfail'.
    unfold Server.disconnected. cbn [Server.active_on_client_ Server.set_connected
      Server.record]. now rewrite Ha. }
  assert (Hc1 : Server.connected_ s1 = false) by now rewrite Hs1.
  assert (Ha1 : Server.active_on_client_ s1 = false) by now rewrite Hs1.
  assert (Hi1 : Server.input_ s1 = Server.input_ s) by now rewrite Hs1.
  assert (Hedge1 : Server.at_switch_edge x y s1 = (true, pos)).
  { rewrite <- Hedge. apply at_switch_edge_input; now rewrite Hs1. }
  assert (Hs2 : s2 = Server.switch_to_client env2 pos s1).
  { subst s2. unfold Server.on_move_after_guard. now rewrite Hedge1, Ha1. }
  assert (Hc2 : Server.connected_ s2 = false).
  { rewrite Hs2. unfold Server.switch_to_client, Server.send_event. cbn.
    rewrite Hc1. cbn. exact Hc1. }
  assert (Ha2 : Server.active_on_client_ s2 = true).
  { rewrite Hs2. unfold Server.switch_to_client, Server.send_event. cbn.
    rewrite Hc1. reflexivity. }
  split; [exact Hc1|]. split; [exact Ha1|]. split; [exact Hi1|].
  split; [unfold Server.on_move; now rewrite Hc1|].
  split; [exact Hc2|]. split; [exact Ha2|]. split; [|split].
  - rewrite Hs2. unfold Server.switch_to_client, Server.send_event. cbn.
    rewrite Hc1. reflexivity.
  - rewrite Hs2. unfold Server.switch_to_client, Server.send_event. cbn.
    rewrite Hc1. cbn. now rewrite Hi1.
  - intros [_ H]. specialize (H Ha2). congruence.
Qed.

Lemma server_disconnect_race_witness :
  let env1 := Server.mkEnv 7000 7000 (-1) in
  let env2 := Server.mkEnv 7001 7001 27 in
  let s :=
    Server.accepted (Server.mkEnv 1000 1000 27) 900
      (Server.start 1920 1080 100 100 (Server.construct ScreenEdge.RIGHT)) in
  let s2 :=
    Server.on_move_after_guard env2 1919 500 1 0 (Server.loop_turn env1 6000 s) in
  Server.connected_ s = true
  /\ Server.connected_ s2 = false
  /\ Server.active_on_client_ s2 = true
  /\ InputCapture.captured_ (Server.input_ s2) = true.
Proof.
  intros env1 env2 s s2.
  assert (Hc : Server.connected_ s = true) by reflexivity.
  assert (Hdue : 5000 <= 6000 - Server.last_keepalive_sent_ s) by (cbn; lia).
  assert (Hfail : Server.send_result env1 <= 0) by (cbn; lia).
  destruct (server_disconnect_race env1 env2 6000 1919 500 1 0 500 s
              Hc eq_refl eq_refl Hdue Hfail)
    as (_ & _ & _ & _ & H1 & H2 & H3 & _).
  split; [exact Hc|]. split; [exact H1|]. split; [exact H2 | exact H3].
Defined.

(** X6.  When a send fails inside a callback of the command-line server
    (the callback has grown the journal and sends return a value <= 0), the
    callback leaves the server disconnected, with the focus back on the
    server and input no longer captured. *)
Theorem server_failed_send_releases (env : Server.Env) (a : Activation)
    (s : Server.t) :
  Server.send_result env <= 0 ->
  Server.journal (Server.run_callback env a s) <> Server.journal s ->
  Server.connected_ (Server.run_callback env a s) = false
  /\ Server.active_on_client_ (Server.run_callback env a s) = false
  /\ InputCapture.captured_ (Server.input_ (Server.run_callback env a s)) = false.
Proof.
  intros Hf.
  assert (Hsend : forall T (P : Packed T) ty (p : T) s0,
    Server.active_on_client_ s0 = true ->
    Server.journal (Server.send_event env ty p s0) <> Server.journal s0 ->
    Server.connected_ (Server.send_event env ty p s0) = false
    /\ Server.active_on_client_ (Server.send_event env ty p s0) = false
    /\ InputCapture.captured_ (Server.input_ (Server.send_event env ty p s0)) = false).
  { intros T P ty p s0 Ha. unfold Server.send_event.
    destruct (Server.connected_ s0); cbn [negb]; [|congruence].
    destruct (Z.leb_spec (Server.send_result env) 0); [|lia].
    cbn. rewrite Ha. intros _. repeat split. }
  assert (Hswitch : forall pos s0,
    Server.connected_ s0 = true ->
    Server.connected_ (Server.switch_to_client env pos s0) = false
    /\ Server.active_on_client_ (Server.switch_to_client env pos s0) = false
    /\ InputCapture.captured_ (Server.input_ (Server.switch_to_client env pos s0)) = false).
  { intros pos s0 Hc. unfold Server.switch_to_client, Server.send_event.
    cbn. rewrite Hc. cbn.
    destruct (Z.leb_spec (Server.send_result env) 0); [|lia].
    repeat split. }
  destruct a as [x y dx dy|button pressed|dx dy|vk scan flags pressed]; cbn.
  - unfold Server.on_move, Server.on_move_after_guard. destruct (Server.connected_ s) eqn:Ec; cbn [negb];
      [|congruence].
    destruct (Server.at_switch_edge x y s) as [at_edge edge_pos].
    destruct (at_edge && negb (Server.active_on_client_ s)).
    + intros _. now apply Hswitch.
    + destruct (Server.active_on_client_ s) eqn:Ea; [|congruence].
      now apply Hsend.
  - unfold Server.on_button.
    destruct (Server.connected_ s), (Server.active_on_client_ s) eqn:Ea;
      cbn; try congruence. now apply Hsend.
  - unfold Server.on_scroll.
    destruct (Server.connected_ s), (Server.active_on_client_ s) eqn:Ea;
      cbn; try congruence. now apply Hsend.
  - unfold Server.on_key. destruct (_ && _).
    + destruct (Server.active_on_client_ s).
      * unfold Server.switch_to_server. cbn. congruence.
      * destruct (Server.connected_ s) eqn:Ec; [|congruence].
        intros _. now apply Hswitch.
    + destruct (Server.connected_ s), (Server.active_on_client_ s) eqn:Ea;
        cbn; try congruence. now apply Hsend.
Qed.

Lemma server_failed_send_releases_witness :
  let env := Server.mkEnv 1000 1000 (-1) in
  let s :=
    Server.mk ScreenEdge.RIGHT
      (InputCapture.mk 1920 1080 960 540 true true 0) true true 0 [] in
  let s' := Server.run_callback env (OnMouseButton MouseButton.LEFT true) s in
  Server.connected_ s' = false
  /\ Server.active_on_client_ s' = false
  /\ InputCapture.captured_ (Server.input_ s') = false.
Proof.
  intros env s s'.
  apply (server_failed_send_releases env (OnMouseButton MouseButton.LEFT true) s).
  - cbn. lia.
  - cbn. discriminate.
Defined.

(** ** Framing *)

Lemma encode_length (e : Event) (clock_ms : Z) :
  Z.of_nat (List.length (encode e clock_ms)) = frame_size e.
Proof. destruct e as [p|p|p|p pressed|p|p|]; try destruct pressed; reflexivity. Qed.

Lemma firstn_frame (e : Event) (clock_ms : Z) :
  firstn (Z.to_nat (frame_size e)) (encode e clock_ms) = encode e clock_ms.
Proof.
  rewrite <- (encode_length e clock_ms), Nat2Z.id. apply firstn_all.
Qed.

Lemma to_u8_range (v : Z) : is_u8 (to_u8 v).
Proof. unfold is_u8, to_u8. apply Z.mod_pos_bound. reflexivity. Qed.

(** X24.  Framing.  Whatever the field values, the frame a sender
    serialises for an event is a list of bytes whose length is fixed by the
    kind of the event alone: the 9 bytes of the header and the packed size
    of the payload, 9 to 25 bytes in all. *)
Theorem frame_size_and_bytes (e : Event) (clock_ms : Z) :
  Z.of_nat (List.length (encode e clock_ms)) = frame_size e
  /\ is_bytes (encode e clock_ms)
  /\ 9 <= frame_size e <= 25.
Proof.
  split; [apply encode_length|]. split.
  - assert (Hb : forall b : bool, is_u8 (byte_of_bool b))
      by (intros []; unfold is_u8; cbn; lia).
    assert (Hty : forall ty, is_u8 (EventType.to_byte ty))
      by (intros []; try apply to_u8_range; unfold is_u8; cbn; lia).
    assert (Hbt : forall b, is_u8 (MouseButton.to_byte b))
      by (intros []; try apply to_u8_range; unfold is_u8; cbn; lia).
    assert (Hed : forall b, is_u8 (ScreenEdge.to_byte b))
      by (intros []; try apply to_u8_range; unfold is_u8; cbn; lia).
    unfold is_bytes.
    destruct e as [p|p|p|p pressed|p|p|];
      unfold encode, serialize_packet, serialize_keepalive, store,
        Packed_PacketHeader, Packed_MouseMoveEvent, Packed_MouseButtonEvent,
        Packed_MouseScrollEvent, Packed_KeyEvent, Packed_ScreenInfo,
        Packed_SwitchScreenEvent, le16, le32;
      cbn [app PacketHeader.version PacketHeader.type PacketHeader.timestamp
           PacketHeader.payload_size];
      repeat (apply Forall_cons || apply Forall_nil);
      auto using byte_at_range.
  - destruct e; cbn; lia.
Qed.

(** ** The keepalive and the handover of the command-line server *)

Lemma Cli_process_encoded (now : Z) (timed_out : bool) (e : Event)
    (clock_ms : Z) (rest : list Z) (c : Cli.Client) :
  wf_event e ->
  Cli.process_events now timed_out (encode e clock_ms ++ rest) c
  = (Cli.handle e (Cli.set_last_data_received now c), rest).
Proof.
  intros H. unfold Cli.process_events. now rewrite Cli_decode_encode.
Qed.

(** X7.  The keepalive of the command-line server.  With a client
    connected, a turn of the main loop made less than 5 000 ms after the
    last keepalive does nothing; one made 5 000 ms or more after it sends a
    keepalive frame and, the send succeeding, restarts the interval from
    this turn; a failed send ends the connection with the focus on the
    server and input released.  The interval runs from keepalive to
    keepalive: no callback touches it, whatever it sends.  On the
    command-line client the frame only resets the idle timer. *)
Theorem server_keepalive (env : Server.Env) (now : Z) (s : Server.t) :
  Server.connected_ s = true ->
  (InputCapture.captured_ (Server.input_ s) = true ->
   Server.active_on_client_ s = true) ->
  let s' := Server.loop_turn env now s in
  (now - Server.last_keepalive_sent_ s < 5000 -> s' = s)
  /\ (5000 <= now - Server.last_keepalive_sent_ s ->
      0 < Server.send_result env ->
      s' = Server.set_last_keepalive_sent now
             (Server.record
                (Server.Send (serialize_keepalive (Server.clock_ms env))
                   (Server.send_result env)) s))
  /\ (5000 <= now - Server.last_keepalive_sent_ s ->
      Server.send_result env <= 0 ->
      Server.connected_ s' = false
      /\ Server.active_on_client_ s' = false
      /\ InputCapture.captured_ (Server.input_ s') = false)
  /\ (forall env' a,
        Server.last_keepalive_sent_ (Server.run_callback env' a s)
        = Server.last_keepalive_sent_ s)
  /\ (forall t timed_out rest c,
        Cli.process_events t timed_out
          (serialize_keepalive (Server.clock_ms env) ++ rest) c
        = (Cli.set_last_data_received t c, rest)).
Proof.
  intros Hc Hk. cbv zeta. unfold Server.loop_turn. rewrite Hc. cbv zeta.
  pose proof (seconds_at_least_5 (now - Server.last_keepalive_sent_ s)) as H5.
  split; [|split; [|split; [|split]]].
  - intros Hlt.
    destruct (Z.quot (now - Server.last_keepalive_sent_ s) 1000 >=? 5);
      [|reflexivity].
    assert (5000 <= now - Server.last_keepalive_sent_ s) by now apply H5. lia.
  - intros Hge Hok. rewrite (proj2 H5 Hge).
    destruct (Z.leb_spec (Server.send_result env) 0); [lia|]. reflexivity.
  - intros Hge Hf. rewrite (proj2 H5 Hge).
    destruct (Z.leb_spec (Server.send_result env) 0); [|lia].
    apply server_disconnected; [reflexivity | exact Hk].
  - intros env' a.
    assert (Hsend : forall T (P : Packed T) ty (p : T) s0,
      Server.last_keepalive_sent_ (Server.send_event env' ty p s0)
      = Server.last_keepalive_sent_ s0).
    { intros T P ty p s0. unfold Server.send_event.
      destruct (Server.connected_ s0); cbn [negb]; [|reflexivity].
      destruct (Server.send_result env' <=? 0); [|reflexivity].
      cbn. destruct (Server.active_on_client_ s0); reflexivity. }
    assert (Hswitch : forall pos s0,
      Server.last_keepalive_sent_ (Server.switch_to_client env' pos s0)
      = Server.last_keepalive_sent_ s0).
    { intros pos s0. unfold Server.switch_to_client, Server.warp_to_center.
      cbn. now rewrite Hsend. }
    destruct a as [x y dx dy|button pressed|dx dy|vk scan flags pressed]; cbn.
    + unfold Server.on_move, Server.on_move_after_guard. rewrite Hc. cbn [negb].
      destruct (Server.at_switch_edge x y s) as [at_edge edge_pos].
      destruct (at_edge && negb (Server.active_on_client_ s)); [apply Hswitch|].
      destruct (Server.active_on_client_ s); [apply Hsend | reflexivity].
    + unfold Server.on_button. destruct (_ || _); [reflexivity | apply Hsend].
    + unfold Server.on_scroll. destruct (_ || _); [reflexivity | apply Hsend].
    + unfold Server.on_key. destruct (_ && _).
      * destruct (Server.active_on_client_ s); [reflexivity|].
        rewrite Hc. apply Hswitch.
      * destruct (_ || _); [reflexivity | apply Hsend].
  - intros t timed_out rest c.
    apply (Cli_process_encoded t timed_out EvKeepalive). exact I.
Qed.

Lemma server_keepalive_witness :
  let env := Server.mkEnv 7000 7000 9 in
  let s :=
    Server.mk ScreenEdge.RIGHT
      (InputCapture.mk 1920 1080 960 540 true false 0) true false 1000 [] in
  Server.loop_turn env 5999 s = s
  /\ Server.last_keepalive_sent_ (Server.loop_turn env 6000 s) = 6000
  /\ Server.wire (Server.journal (Server.loop_turn env 6000 s))
     = serialize_keepalive 7000.
Proof.
  intros env s.
  assert (Hc : Server.connected_ s = true) by reflexivity.
  assert (Hk : InputCapture.captured_ (Server.input_ s) = true ->
               Server.active_on_client_ s = true) by (cbn; congruence).
  split; [|split].
  - apply (server_keepalive env 5999 s Hc Hk). cbn. lia.
  - rewrite (proj1 (proj2 (server_keepalive env 6000 s Hc Hk)));
      [reflexivity | cbn; lia | cbn; lia].
  - rewrite (proj1 (proj2 (server_keepalive env 6000 s Hc Hk)));
      [vm_compute; reflexivity | cbn; lia | cbn; lia].
Defined.

(** X8.  Handing the focus over, end to end, between the command-line
    server and the command-line client.  A server that accepts a client and
    then sees the cursor reach its configured edge ends with the focus on
    the client, input captured and its own cursor warped to the centre of
    its screen; the two frames it has put on the wire (its screen size,
    then the switch) take the client, in two turns of its loop, to the
    active state, entered at the opposite edge, with the cursor at the
    server's edge position scaled by the ratio of the two screens along
    that edge.  Both sends are taken to have gone out whole, the screen of
    the client to be one [move_mouse] is defined on, and the pointer and
    the products formed by the scaling to be within the range of [int]. *)
Theorem server_client_handover
    (env1 env2 : Server.Env) (now x y dx dy pos t1 t1' t2 t2' : Z)
    (s : Server.t) (c : Cli.Client) :
  let W := InputCapture.screen_width_ (Server.input_ s) in
  let H := InputCapture.screen_height_ (Server.input_ s) in
  let w := InputSimulator.screen_width_ (Cli.simulator_ c) in
  let h := InputSimulator.screen_height_ (Cli.simulator_ c) in
  Server.active_on_client_ s = false ->
  Server.send_result env1 = frame_size (EvScreenInfo (ScreenInfo.mk W H 0 0)) ->
  Server.send_result env2
  = frame_size (EvSwitchScreen
                  (SwitchScreenEvent.mk (Server.opposite_edge (Server.switch_edge_ s))
                     pos)) ->
  0 < W -> is_i32 W -> 0 < H -> is_i32 H ->
  is_i32 x -> is_i32 y ->
  Server.at_switch_edge x y s = (true, pos) -> is_i32 pos ->
  Cli.connected_ c = true -> screen_in_range w h ->
  is_i32 (pos * w) -> is_i32 (pos * h) ->
  t1' - t1 < 31000 -> t2' - t2 < 31000 ->
  let s2 := Server.on_move env2 x y dx dy (Server.accepted env1 now s) in
  let bytes :=
    Server.wire (skipn (List.length (Server.journal s)) (Server.journal s2)) in
  let c' := fst (ClientRun.loop [(t1, t1'); (t2, t2')] bytes c) in
  Server.active_on_client_ s2 = true
  /\ InputCapture.captured_ (Server.input_ s2) = true
  /\ last (Server.journal s2) (Server.SetCursorPos 0 0)
     = Server.SetCursorPos (Z.quot W 2) (Z.quot H 2)
  /\ Cli.active_ c' = true
  /\ Cli.entry_edge_ c' = Server.opposite_edge (Server.switch_edge_ s)
  /\ match Server.switch_edge_ s with
     | ScreenEdge.LEFT =>
         Cli.cursor_x_ c' = w - 1 /\ Cli.cursor_y_ c' = Z.quot (pos * h) H
     | ScreenEdge.RIGHT =>
         Cli.cursor_x_ c' = 0 /\ Cli.cursor_y_ c' = Z.quot (pos * h) H
     | ScreenEdge.TOP =>
         Cli.cursor_x_ c' = Z.quot (pos * w) W /\ Cli.cursor_y_ c' = h - 1
     | ScreenEdge.BOTTOM =>
         Cli.cursor_x_ c' = Z.quot (pos * w) W /\ Cli.cursor_y_ c' = 0
     | _ => False
     end.
Proof.
  intros W H w h Ha Hf1 Hf2 HW HWi HH HHi _ _ Hedge Hpos Hc [Hw Hh] _ _ Ht1 Ht2.
  assert (Hr1 : 0 < Server.send_result env1) by (rewrite Hf1; cbn; lia).
  assert (Hr2 : 0 < Server.send_result env2) by (rewrite Hf2; cbn; lia).
  set (info := ScreenInfo.mk W H 0 0).
  set (event := SwitchScreenEvent.mk (Server.opposite_edge (Server.switch_edge_ s)) pos).
  set (si := serialize_packet EventType.SCREEN_INFO info (Server.clock_ms env1)).
  set (sw := serialize_packet EventType.SWITCH_SCREEN event (Server.clock_ms env2)).
  assert (Hs1 : Server.accepted env1 now s
                = Server.record (Server.Send si (Server.send_result env1))
                    (Server.set_last_keepalive_sent now (Server.set_connected true s))).
  { unfold Server.accepted, Server.send_screen_info, Server.send_event.
    cbn. destruct (Z.leb_spec (Server.send_result env1) 0); [lia|]. reflexivity. }
  intros s2 bytes c'.
  set (s1 := Server.accepted env1 now s) in *.
  assert (Hedge1 : Server.at_switch_edge x y s1 = (true, pos))
    by (rewrite <- Hedge, Hs1; reflexivity).
  assert (Hc1 : Server.connected_ s1 = true) by (rewrite Hs1; reflexivity).
  assert (Ha1 : Server.active_on_client_ s1 = false) by (rewrite Hs1; exact Ha).
  assert (Hs2 : s2 = Server.warp_to_center
                  (Server.record (Server.Send sw (Server.send_result env2))
                     (Server.with_input
                        (InputCapture.capture_input true (Server.tick env2)
                           (Server.input_ s1))
                        (Server.set_active_on_client true s1)))).
  { subst s2. unfold Server.on_move, Server.on_move_after_guard. rewrite Hc1, Hedge1, Ha1. cbn [negb andb].
    unfold Server.switch_to_client, Server.send_event.
    cbn [Server.connected_ Server.with_input Server.set_active_on_client negb].
    rewrite Hc1. cbv zeta.
    destruct (Z.leb_spec (Server.send_result env2) 0); [lia|].
    cbn [Server.switch_edge_ Server.with_input Server.set_active_on_client].
    replace (Server.switch_edge_ s1) with (Server.switch_edge_ s)
      by (rewrite Hs1; reflexivity).
    reflexivity. }
  assert (Hj : Server.journal s2
               = Server.journal s
                 ++ [Server.Send si (Server.send_result env1);
                     Server.Send sw (Server.send_result env2);
                     Server.SetCursorPos (Z.quot W 2) (Z.quot H 2)]).
  { rewrite Hs2, Hs1. cbn. rewrite <- !app_assoc. reflexivity. }
  assert (Hb : bytes = encode (EvScreenInfo info) (Server.clock_ms env1)
                       ++ encode (EvSwitchScreen event) (Server.clock_ms env2) ++ []).
  { subst bytes. rewrite Hj, skipn_length_app. cbn [Server.wire].
    rewrite Hf1, Hf2. subst si sw.
    change (serialize_packet EventType.SCREEN_INFO info (Server.clock_ms env1))
      with (encode (EvScreenInfo info) (Server.clock_ms env1)).
    change (serialize_packet EventType.SWITCH_SCREEN event (Server.clock_ms env2))
      with (encode (EvSwitchScreen event) (Server.clock_ms env2)).
    now rewrite !firstn_frame. }
  assert (Hnamed : ScreenEdge.named (Server.opposite_edge (Server.switch_edge_ s))).
  { destruct (Server.switch_edge_ s); exact I. }
  assert (Hc' : c' = Cli.handle_switch_screen event
                       (Cli.set_last_data_received t2
                          (Cli.handle_screen_info info
                             (Cli.set_last_data_received t1 c)))).
  { subst c'. rewrite Hb. cbn [ClientRun.loop]. rewrite Hc.
    rewrite Cli_process_encoded by (repeat split; cbn; unfold is_i32 in *; lia).
    rewrite check_timeout_fresh by assumption.
    cbn [Cli.handle Cli.connected_ Cli.handle_screen_info Cli.set_server_size
         Cli.set_last_data_received].
    rewrite Hc.
    rewrite Cli_process_encoded by (split; [exact Hnamed | exact Hpos]).
    rewrite check_timeout_fresh by assumption. reflexivity. }
  split; [rewrite Hs2; reflexivity|].
  split; [rewrite Hs2; reflexivity|].
  split.
  { rewrite Hj.
    change [Server.Send si (Server.send_result env1);
            Server.Send sw (Server.send_result env2);
            Server.SetCursorPos (Z.quot W 2) (Z.quot H 2)]
      with ([Server.Send si (Server.send_result env1);
             Server.Send sw (Server.send_result env2)]
            ++ [Server.SetCursorPos (Z.quot W 2) (Z.quot H 2)]).
    rewrite app_assoc. apply last_last. }
  pose proof (Cli_switch_screen_scales event
                (Cli.set_last_data_received t2
                   (Cli.handle_screen_info info
                      (Cli.set_last_data_received t1 c)))) as Hsc.
  cbv zeta in Hsc. rewrite <- Hc' in Hsc.
  cbn [Cli.server_width_ Cli.server_height_ Cli.simulator_ Cli.handle_screen_info
       Cli.set_server_size Cli.set_last_data_received ScreenInfo.width
       ScreenInfo.height info SwitchScreenEvent.edge SwitchScreenEvent.position
       event] in Hsc.
  destruct (Hsc HW HH ltac:(lia) ltac:(lia)) as (Hact & Hent & Hcur & _).
  split; [exact Hact|]. split; [exact Hent|].
  unfold Server.at_switch_edge in Hedge.
  destruct (Server.switch_edge_ s); cbn [Server.opposite_edge] in Hcur;
    try exact Hcur; discriminate.
Qed.

Lemma server_client_handover_witness :
  let env1 := Server.mkEnv 1000 1000 25 in
  let env := Server.mkEnv 1000 1000 14 in
  let s := Server.start 1920 1080 100 100 (Server.construct ScreenEdge.RIGHT) in
  let c :=
    Cli.set_connected true
      (Cli.set_simulator (InputSimulator.init 1280 720 640 360 InputSimulator.construct)
         Cli.construct) in
  let s2 := Server.on_move env 1919 540 3 0 (Server.accepted env1 900 s) in
  let c' :=
    fst (ClientRun.loop [(10, 11); (20, 21)]
           (Server.wire (skipn (List.length (Server.journal s)) (Server.journal s2))) c) in
  Server.active_on_client_ s2 = true
  /\ Cli.active_ c' = true
  /\ Cli.entry_edge_ c' = ScreenEdge.LEFT
  /\ Cli.cursor_x_ c' = 0 /\ Cli.cursor_y_ c' = 360.
Proof.
  intros env1 env s c s2 c'.
  destruct (server_client_handover env1 env 900 1919 540 3 0 540 10 11 20 21 s c)
    as (H1 & _ & _ & H4 & H5 & H6 & H7);
    try reflexivity; try (cbn; unfold screen_in_range, is_i32; lia).
  repeat split; assumption.
Defined.

Lemma scroll_lock_is_emergency ctrl_down alt_down :
  InputCapture.is_emergency_key VK_SCROLL ctrl_down alt_down = true.
Proof. now destruct ctrl_down, alt_down. Qed.

Lemma not_emergency_not_scroll_lock vkCode ctrl_down alt_down :
  InputCapture.is_emergency_key vkCode ctrl_down alt_down = false ->
  (vkCode =? VK_SCROLL) = false.
Proof.
  intros H. destruct (Z.eqb_spec vkCode VK_SCROLL) as [->|]; [|reflexivity].
  now rewrite scroll_lock_is_emergency in H.
Qed.

Lemma server_release_idle (s : Server.t) :
  InputCapture.captured_ (Server.input_ s) = false ->
  Server.with_input (InputCapture.set_captured false (Server.input_ s)) s = s.
Proof.
  destruct s as [e i c a l j]. destruct i. cbn. now intros ->.
Qed.

Lemma server_send_event_ok {T} `{Packed T} env type (payload : T) s :
  Server.connected_ s = true -> 0 < Server.send_result env ->
  Server.send_event env type payload s
  = Server.record
      (Server.Send (serialize_packet type payload (Server.clock_ms env))
         (Server.send_result env)) s.
Proof.
  intros Hc Hr. unfold Server.send_event. rewrite Hc. cbn [negb]. cbv zeta.
  destruct (Z.leb_spec (Server.send_result env) 0); [lia | reflexivity].
Qed.

(** X9.  On the command-line server the keyboard never moves the focus.
    From the server side no key switches to the client, nothing is sent and
    the key is passed on; with the focus on the client and sends that
    succeed no key brings it back.  Scroll Lock, which the key callback
    would toggle on, is taken by the hook as an emergency key before the
    callback is reached: a key-down releases the capture and is passed on,
    and the focus stays where it was. *)
Theorem server_keyboard_never_switches
    (env : Server.Env) (ctrl_down alt_down : bool) (nCode wParam : Z)
    (kb : KBDLLHOOKSTRUCT) (s : Server.t) :
  let r := Server.keyboard_hook env ctrl_down alt_down nCode wParam kb s in
  (Server.active_on_client_ s = false ->
   Server.active_on_client_ (fst r) = false
   /\ Server.journal (fst r) = Server.journal s
   /\ (InputCapture.captured_ (Server.input_ s) = false ->
       fst r = s /\ snd r = CallNextHookEx))
  /\ (Server.active_on_client_ s = true -> 0 < Server.send_result env ->
      Server.active_on_client_ (fst r) = true)
  /\ (kb_vkCode kb = VK_SCROLL -> 0 <= nCode -> wParam = WM_KEYDOWN ->
      fst r = Server.with_input
                (InputCapture.set_captured false (Server.input_ s)) s
      /\ snd r = CallNextHookEx).
Proof.
  cbv zeta. unfold Server.keyboard_hook, InputCapture.keyboard_hook_proc.
  split; [|split].
  - intros Ha. destruct (nCode >=? 0); [|now repeat split].
    destruct (InputCapture.is_emergency_key _ _ _) eqn:Ee.
    + cbn [fst snd].
      destruct ((kb_vkCode kb =? VK_SCROLL) && _),
               ((kb_vkCode kb =? VK_ESCAPE) && ctrl_down && alt_down && _),
               (InputCapture.captured_ (Server.input_ s)) eqn:Ek;
        cbn [Server.with_input Server.active_on_client_ Server.journal
             Server.input_ InputCapture.captured_ InputCapture.set_captured];
        (split; [exact Ha|]); (split; [reflexivity|]);
        intros Hk; try discriminate Hk;
        try rewrite (server_release_idle s Ek); split; reflexivity.
    + apply not_emergency_not_scroll_lock in Ee.
      cbn [InputCapture.key_callback_ Server.callbacks].
      unfold Server.on_key. rewrite Ee. cbn [andb].
      destruct (InputCapture.captured_ (Server.input_ s)) eqn:Ek;
        cbn [Server.connected_ Server.active_on_client_ Server.with_input];
        rewrite Ha, orb_true_r; cbn; rewrite ?Ek; repeat split; try assumption;
        congruence.
  - intros Ha Hr. destruct (nCode >=? 0); [|exact Ha].
    destruct (InputCapture.is_emergency_key _ _ _) eqn:Ee.
    + cbn [fst].
      destruct ((kb_vkCode kb =? VK_SCROLL) && _),
               ((kb_vkCode kb =? VK_ESCAPE) && ctrl_down && alt_down && _),
               (InputCapture.captured_ (Server.input_ s)); exact Ha.
    + apply not_emergency_not_scroll_lock in Ee.
      cbn [InputCapture.key_callback_ Server.callbacks].
      unfold Server.on_key. rewrite Ee. cbn [andb]. rewrite fst_if.
      assert (Hgo : forall s0, Server.active_on_client_ s0 = true ->
        Server.active_on_client_
          (if negb (Server.connected_ s0) || negb (Server.active_on_client_ s0)
           then s0
           else Server.send_event env
                  (if (wParam =? WM_KEYDOWN) || (wParam =? WM_SYSKEYDOWN)
                   then EventType.KEY_PRESS else EventType.KEY_RELEASE)
                  (KeyEvent.mk (kb_vkCode kb) (kb_scanCode kb) (kb_flags kb)) s0)
        = true).
      { intros s0 Ha0. rewrite Ha0. cbn [negb].
        destruct (Server.connected_ s0) eqn:Ec; cbn [negb orb]; [|exact Ha0].
        now rewrite server_send_event_ok. }
      destruct (InputCapture.captured_ (Server.input_ s)); now apply Hgo.
  - intros Hvk Hn ->. destruct (Z.geb_spec nCode 0); [|lia].
    rewrite Hvk, scroll_lock_is_emergency. cbn [fst snd].
    change (VK_SCROLL =? VK_SCROLL) with true.
    change (VK_SCROLL =? VK_ESCAPE) with false.
    change ((WM_KEYDOWN =? WM_KEYDOWN) || (WM_KEYDOWN =? WM_SYSKEYDOWN)) with true.
    cbn [andb]. split; [|reflexivity].
    destruct (InputCapture.captured_ (Server.input_ s)) eqn:Ek; [reflexivity|].
    now rewrite server_release_idle.
Qed.

(** X10.  Relative motion on the command-line server.  With the focus on
    the client, a hooked mouse move is blocked and, unless the pointer has
    not moved, sent on as one MouseMove frame whose deltas are measured
    from the position recorded when the capture began; that position is not
    updated while input is captured.  The command-line client, when active
    on a screen [move_mouse] is defined on and while the sums stay within
    the range of [int], adds the deltas of such a frame to its own cursor
    and clamps the result to its screen. *)
Theorem server_forwards_relative_motion
    (env : Server.Env) (nCode : Z) (ms : MSLLHOOKSTRUCT) (s : Server.t) :
  0 <= nCode ->
  InputCapture.captured_ (Server.input_ s) = true ->
  Server.active_on_client_ s = true ->
  Server.connected_ s = true ->
  0 < Server.send_result env ->
  let dx := pt_x ms - InputCapture.last_x_ (Server.input_ s) in
  let dy := pt_y ms - InputCapture.last_y_ (Server.input_ s) in
  let frame :=
    encode (EvMouseMove (MouseMoveEvent.mk (pt_x ms) (pt_y ms) dx dy))
      (Server.clock_ms env) in
  let r := Server.mouse_hook env nCode WM_MOUSEMOVE ms s in
  snd r = Blocked
  /\ InputCapture.last_x_ (Server.input_ (fst r))
     = InputCapture.last_x_ (Server.input_ s)
  /\ InputCapture.last_y_ (Server.input_ (fst r))
     = InputCapture.last_y_ (Server.input_ s)
  /\ Server.journal (fst r)
     = Server.journal s
       ++ (if (dx =? 0) && (dy =? 0) then []
           else [Server.Send frame (Server.send_result env)])
  /\ (forall t timed_out rest c,
        (dx =? 0) && (dy =? 0) = false ->
        Cli.active_ c = true ->
        screen_in_range (InputSimulator.screen_width_ (Cli.simulator_ c))
                        (InputSimulator.screen_height_ (Cli.simulator_ c)) ->
        is_i32 (pt_x ms) -> is_i32 (pt_y ms) ->
        motion_in_range (Cli.cursor_x_ c) (Cli.cursor_y_ c) dx dy ->
        let c' := fst (Cli.process_events t timed_out (frame ++ rest) c) in
        Cli.cursor_x_ c'
        = clamp 0 (InputSimulator.screen_width_ (Cli.simulator_ c) - 1)
            (Cli.cursor_x_ c + dx)
        /\ Cli.cursor_y_ c'
           = clamp 0 (InputSimulator.screen_height_ (Cli.simulator_ c) - 1)
               (Cli.cursor_y_ c + dy)).
Proof.
  intros Hn Hk Ha Hc Hr dx dy frame. cbv zeta.
  unfold Server.mouse_hook, InputCapture.mouse_hook_proc.
  destruct (Z.geb_spec nCode 0); [|lia]. rewrite Hk.
  unfold InputCapture.mouse_switch.
  change (WM_MOUSEMOVE =? WM_MOUSEMOVE) with true. cbv iota.
  cbn [InputCapture.move_callback_ Server.callbacks Server.input_ Server.with_input
       InputCapture.last_x_ InputCapture.last_y_ InputCapture.set_last_activity].
  fold dx dy.
  set (s0 := Server.with_input
               (InputCapture.set_last_activity (to_u32 (Server.tick env))
                  (Server.input_ s)) s).
  assert (Hmove : Server.on_move env (pt_x ms) (pt_y ms) dx dy s0
                  = Server.record (Server.Send frame (Server.send_result env)) s0).
  { unfold Server.on_move, Server.on_move_after_guard.
    cbn [Server.connected_ Server.active_on_client_ s0 Server.with_input].
    rewrite Hc, Ha. cbn [negb]. destruct (Server.at_switch_edge _ _ _) as [b p].
    rewrite andb_false_r. apply server_send_event_ok; assumption. }
  split; [|split; [|split; [|split]]].
  - destruct (negb (dx =? 0) || negb (dy =? 0)); rewrite ?Hmove; subst s0;
      cbn; rewrite Hk; cbn; now rewrite Hk.
  - destruct (negb (dx =? 0) || negb (dy =? 0)); rewrite ?Hmove; subst s0;
      cbn; rewrite Hk; cbn; rewrite ?Hk; reflexivity.
  - destruct (negb (dx =? 0) || negb (dy =? 0)); rewrite ?Hmove; subst s0;
      cbn; rewrite Hk; cbn; rewrite ?Hk; reflexivity.
  - rewrite <- negb_andb.
    destruct ((dx =? 0) && (dy =? 0)); cbn [negb]; rewrite ?Hmove; subst s0;
      cbn; rewrite Hk; cbn; rewrite ?Hk; cbn; rewrite ?app_nil_r;
      reflexivity.
  - intros t timed_out rest c _ Hact _ Hx Hy (_ & _ & Hdx & Hdy & _). subst frame.
    rewrite Cli_process_encoded
      by exact (conj Hx (conj Hy (conj Hdx Hdy))).
    cbn [fst Cli.handle]. unfold Cli.handle_mouse_move, Cli.check_edge_switch.
    cbn [Cli.active_ Cli.set_last_data_received negb Cli.cursor_x_ Cli.cursor_y_
         Cli.simulator_ MouseMoveEvent.dx MouseMoveEvent.dy].
    rewrite Hact. cbn [negb]. cbv zeta.
    match goal with |- context [if ?b then _ else _] => destruct b end;
      split; reflexivity.
Qed.

Lemma server_forwards_relative_motion_witness :
  let env := Server.mkEnv 1000 1000 25 in
  let s :=
    Server.mk ScreenEdge.RIGHT
      (InputCapture.mk 1920 1080 960 540 true true 0) true true 0 [] in
  let r := Server.mouse_hook env 0 WM_MOUSEMOVE (Build_MSLLHOOKSTRUCT 963 538 0) s in
  let frame := encode (EvMouseMove (MouseMoveEvent.mk 963 538 3 (-2))) 1000 in
  let c :=
    Cli.set_cursor 100 100
      (Cli.set_active true
         (Cli.set_simulator
            (InputSimulator.init 1280 720 100 100 InputSimulator.construct)
            Cli.construct)) in
  let c' := fst (Cli.process_events 50 false (frame ++ []) c) in
  snd r = Blocked
  /\ Server.journal (fst r) = [Server.Send frame 25]
  /\ Cli.cursor_x_ c' = 103 /\ Cli.cursor_y_ c' = 98.
Proof.
  intros env s r frame c c'.
  destruct (server_forwards_relative_motion env 0 (Build_MSLLHOOKSTRUCT 963 538 0) s)
    as (H1 & _ & _ & H4 & H5); try reflexivity; try (cbn; lia).
  split; [exact H1 | split; [exact H4|]].
  apply (H5 50 false [] c); try reflexivity;
    unfold screen_in_range, motion_in_range, is_i32; cbn; lia.
Defined.

(** X11.  While the focus is on the server and input is not captured, the
    mouse hook of the command-line server is transparent: unless the event
    is a move onto the configured edge with a client connected, it is
    passed on, nothing is sent, the focus stays on the server, and a move
    is recorded as the last position. *)
Theorem server_local_mouse_passes
    (env : Server.Env) (nCode wParam : Z) (ms : MSLLHOOKSTRUCT) (s : Server.t) :
  Server.active_on_client_ s = false ->
  InputCapture.captured_ (Server.input_ s) = false ->
  (wParam = WM_MOUSEMOVE -> Server.connected_ s = true ->
   fst (Server.at_switch_edge (pt_x ms) (pt_y ms) s) = false) ->
  let r := Server.mouse_hook env nCode wParam ms s in
  snd r = CallNextHookEx
  /\ Server.journal (fst r) = Server.journal s
  /\ Server.active_on_client_ (fst r) = false
  /\ InputCapture.captured_ (Server.input_ (fst r)) = false
  /\ (0 <= nCode -> wParam = WM_MOUSEMOVE ->
      InputCapture.last_x_ (Server.input_ (fst r)) = pt_x ms
      /\ InputCapture.last_y_ (Server.input_ (fst r)) = pt_y ms).
Proof.
  intros Ha Hk Hedge. cbv zeta.
  unfold Server.mouse_hook, InputCapture.mouse_hook_proc.
  destruct (Z.geb_spec nCode 0) as [Hn|Hn]; [|repeat split; try assumption; lia].
  rewrite Hk.
  assert (Hb : forall b p, Server.on_button env b p s = s).
  { intros b p. unfold Server.on_button. now rewrite Ha, orb_true_r. }
  assert (Hs : forall dx dy, Server.on_scroll env dx dy s = s).
  { intros dx dy. unfold Server.on_scroll. now rewrite Ha, orb_true_r. }
  unfold InputCapture.mouse_switch, InputCapture.call_button, InputCapture.call_scroll.
  cbn [InputCapture.move_callback_ InputCapture.button_callback_
       InputCapture.scroll_callback_ Server.callbacks].
  destruct (Z.eqb_spec wParam WM_MOUSEMOVE) as [Hw|Hw].
  - assert (Hm : forall dx dy, Server.on_move env (pt_x ms) (pt_y ms) dx dy s = s).
    { intros dx dy. unfold Server.on_move, Server.on_move_after_guard.
      destruct (Server.connected_ s) eqn:Ec; cbn [negb]; [|reflexivity].
      specialize (Hedge Hw eq_refl).
      destruct (Server.at_switch_edge _ _ _) as [b p]. cbn in Hedge. subst b.
      cbn [andb]. now rewrite Ha. }
    rewrite Hm.
    assert (Hif : (if negb (pt_x ms - InputCapture.last_x_ (Server.input_ s) =? 0)
                      || negb (pt_y ms - InputCapture.last_y_ (Server.input_ s) =? 0)
                   then s else s) = s) by (now destruct (_ || _)).
    rewrite Hif, Hk. cbn. rewrite Hk. now repeat split.
  - rewrite !Hb, !Hs.
    repeat match goal with
           | |- context [wParam =? ?c] => destruct (wParam =? c)
           end;
      rewrite Hk; repeat split; try assumption; intros; congruence.
Qed.

Lemma server_local_mouse_passes_witness :
  let env := Server.mkEnv 1000 1000 25 in
  let s :=
    Server.mk ScreenEdge.RIGHT
      (InputCapture.mk 1920 1080 960 540 true false 0) true false 0 [] in
  let r := Server.mouse_hook env 0 WM_MOUSEMOVE (Build_MSLLHOOKSTRUCT 1918 538 0) s in
  snd r = CallNextHookEx
  /\ Server.journal (fst r) = []
  /\ InputCapture.last_x_ (Server.input_ (fst r)) = 1918.
Proof.
  intros env s r.
  destruct (server_local_mouse_passes env 0 WM_MOUSEMOVE
              (Build_MSLLHOOKSTRUCT 1918 538 0) s)
    as (H1 & H2 & _ & _ & H5); try reflexivity.
  split; [exact H1|]. split; [exact H2|]. apply H5; [lia | reflexivity].
Defined.

(** ** The secondary side *)

Lemma clamp_range lo hi v : lo <= hi -> lo <= clamp lo hi v <= hi.
Proof. unfold clamp. lia. Qed.

Lemma clamp_inside lo hi v : lo <= v <= hi -> clamp lo hi v = v.
Proof. unfold clamp. lia. Qed.

Lemma normalized_range (x m : Z) :
  0 < m -> 0 <= x <= m ->
  0 <= Z.quot (x * 65535) m <= 65535
  /\ (x = 0 -> Z.quot (x * 65535) m = 0)
  /\ (x = m -> Z.quot (x * 65535) m = 65535).
Proof.
  intros Hm Hx. rewrite Z.quot_div_nonneg by lia.
  split; [|split].
  - split; [apply Z.div_pos; lia|].
    apply Z.div_le_upper_bound; [lia|]. nia.
  - intros ->. reflexivity.
  - intros ->. rewrite Z.mul_comm. apply Z.div_mul. lia.
Qed.

(** X12.  [move_mouse] on a screen of more than one pixel each way (and
    small enough for [x * 65535] to fit an [int]): one absolute move is
    injected, its coordinates normalised into 0..65535, with 0 for anything
    at or left of the first column and 65535 for anything at or right of
    the last, and the position the simulator remembers is the requested one
    clamped to the screen. *)
Theorem move_mouse_normalized (x y : Z) (s : InputSimulator.t) :
  let w := InputSimulator.screen_width_ s in
  let h := InputSimulator.screen_height_ s in
  1 < w <= 32768 -> 1 < h <= 32768 ->
  let s' := InputSimulator.move_mouse x y s in
  exists nx ny,
    InputSimulator.injected s'
    = InputSimulator.injected s
      ++ [InputSimulator.INPUT_MOUSE nx ny 0
            (Z.lor MOUSEEVENTF_ABSOLUTE MOUSEEVENTF_MOVE)]
    /\ 0 <= nx <= 65535 /\ 0 <= ny <= 65535
    /\ (x <= 0 -> nx = 0) /\ (w - 1 <= x -> nx = 65535)
    /\ (y <= 0 -> ny = 0) /\ (h - 1 <= y -> ny = 65535)
    /\ InputSimulator.current_x_ s' = clamp 0 (w - 1) x
    /\ InputSimulator.current_y_ s' = clamp 0 (h - 1) y
    /\ 0 <= InputSimulator.current_x_ s' <= w - 1
    /\ 0 <= InputSimulator.current_y_ s' <= h - 1
    /\ InputSimulator.screen_width_ s' = w
    /\ InputSimulator.screen_height_ s' = h.
Proof.
  intros w h Hw Hh s'.
  pose proof (clamp_range 0 (w - 1) x ltac:(lia)) as Hcx.
  pose proof (clamp_range 0 (h - 1) y ltac:(lia)) as Hcy.
  destruct (normalized_range (clamp 0 (w - 1) x) (w - 1) ltac:(lia) Hcx)
    as (Hnx & Hx0 & Hx1).
  destruct (normalized_range (clamp 0 (h - 1) y) (h - 1) ltac:(lia) Hcy)
    as (Hny & Hy0 & Hy1).
  exists (Z.quot (clamp 0 (w - 1) x * 65535) (w - 1)),
         (Z.quot (clamp 0 (h - 1) y * 65535) (h - 1)).
  split; [reflexivity|].
  split; [exact Hnx|]. split; [exact Hny|].
  split; [intros H0; apply Hx0; unfold clamp; lia|].
  split; [intros H1; apply Hx1; unfold clamp; lia|].
  split; [intros H0; apply Hy0; unfold clamp; lia|].
  split; [intros H1; apply Hy1; unfold clamp; lia|].
  split; [reflexivity|]. split; [reflexivity|].
  split; [exact Hcx|]. split; [exact Hcy|].
  split; reflexivity.
Qed.

Lemma move_mouse_normalized_witness :
  exists nx ny,
    InputSimulator.injected
      (InputSimulator.move_mouse 2000 360
         (InputSimulator.init 1280 720 5 5 InputSimulator.construct))
    = [InputSimulator.INPUT_MOUSE nx ny 0
         (Z.lor MOUSEEVENTF_ABSOLUTE MOUSEEVENTF_MOVE)]
    /\ nx = 65535 /\ 0 <= ny <= 65535.
Proof.
  destruct (move_mouse_normalized 2000 360
              (InputSimulator.init 1280 720 5 5 InputSimulator.construct))
    as (nx & ny & Hi & _ & Hny & _ & Hx & _); [cbn; lia | cbn; lia |].
  exists nx, ny. split; [exact Hi|]. split; [apply Hx; cbn; lia | exact Hny].
Defined.

(** X13.  The command-line client under a MouseMove frame, while active on
    a screen [move_mouse] is defined on (2 to 32768 pixels each way) and
    with the fields of the event, its cursor and the sums of cursor and
    deltas within the range of [int]:
    the cursor it keeps moves by the deltas and stays on the screen, one
    absolute move goes to the
    simulator, and the client deactivates exactly when the new position
    lies on the edge through which it was entered (never, when that edge is
    none). *)
Theorem client_returns_at_entry_edge (event : MouseMoveEvent.t) (c : Cli.Client) :
  let w := InputSimulator.screen_width_ (Cli.simulator_ c) in
  let h := InputSimulator.screen_height_ (Cli.simulator_ c) in
  Cli.active_ c = true -> screen_in_range w h ->
  wf_event (EvMouseMove event) ->
  motion_in_range (Cli.cursor_x_ c) (Cli.cursor_y_ c)
    (MouseMoveEvent.dx event) (MouseMoveEvent.dy event) ->
  let c' := Cli.handle_mouse_move event c in
  let x' := clamp 0 (w - 1) (Cli.cursor_x_ c + MouseMoveEvent.dx event) in
  let y' := clamp 0 (h - 1) (Cli.cursor_y_ c + MouseMoveEvent.dy event) in
  Cli.cursor_x_ c' = x' /\ Cli.cursor_y_ c' = y'
  /\ 0 <= x' <= w - 1 /\ 0 <= y' <= h - 1
  /\ Cli.simulator_ c' = InputSimulator.move_mouse x' y' (Cli.simulator_ c)
  /\ Cli.entry_edge_ c' = Cli.entry_edge_ c
  /\ (Cli.active_ c' = false
      <-> match Cli.entry_edge_ c with
          | ScreenEdge.LEFT => x' = 0
          | ScreenEdge.RIGHT => x' = w - 1
          | ScreenEdge.TOP => y' = 0
          | ScreenEdge.BOTTOM => y' = h - 1
          | _ => False
          end).
Proof.
  intros w h Ha [Hw Hh] _ _ c' x' y'.
  assert (Hx : 0 <= x' <= w - 1) by (apply clamp_range; lia).
  assert (Hy : 0 <= y' <= h - 1) by (apply clamp_range; lia).
  subst c'. unfold Cli.handle_mouse_move. rewrite Ha. cbn [negb]. cbv zeta.
  fold w h. fold x' y'. unfold Cli.check_edge_switch.
  cbn [Cli.entry_edge_ Cli.set_simulator Cli.set_cursor Cli.cursor_x_ Cli.cursor_y_
       Cli.simulator_].
  assert (Hwd : InputSimulator.screen_width_ (InputSimulator.move_mouse x' y' (Cli.simulator_ c)) = w)
    by reflexivity.
  assert (Hhd : InputSimulator.screen_height_ (InputSimulator.move_mouse x' y' (Cli.simulator_ c)) = h)
    by reflexivity.
  rewrite Hwd, Hhd.
  set (at_entry_edge :=
         match Cli.entry_edge_ c with
         | ScreenEdge.LEFT => x' <=? 0
         | ScreenEdge.RIGHT => x' >=? w - 1
         | ScreenEdge.TOP => y' <=? 0
         | ScreenEdge.BOTTOM => y' >=? h - 1
         | _ => false
         end).
  assert (Hedge : at_entry_edge = true
                  <-> match Cli.entry_edge_ c with
                      | ScreenEdge.LEFT => x' = 0
                      | ScreenEdge.RIGHT => x' = w - 1
                      | ScreenEdge.TOP => y' = 0
                      | ScreenEdge.BOTTOM => y' = h - 1
                      | _ => False
                      end).
  { subst at_entry_edge.
    destruct (Cli.entry_edge_ c);
      rewrite ?Z.leb_le, ?Z.geb_le; split; intros; try discriminate;
      try contradiction; lia. }
  rewrite <- Hedge.
  destruct at_entry_edge; cbn; rewrite ?Ha;
    (split; [reflexivity|]); (split; [reflexivity|]);
    (split; [exact Hx|]); (split; [exact Hy|]);
    (split; [reflexivity|]); (split; [reflexivity|]);
    split; congruence.
Qed.

Lemma client_returns_at_entry_edge_witness :
  let c :=
    Cli.handle_switch_screen (SwitchScreenEvent.mk ScreenEdge.LEFT 540)
      (Cli.set_simulator (InputSimulator.init 1280 720 640 360 InputSimulator.construct)
         Cli.construct) in
  Cli.active_ (Cli.handle_mouse_move (MouseMoveEvent.mk 0 0 0 7) c) = false
  /\ Cli.active_ (Cli.handle_mouse_move (MouseMoveEvent.mk 0 0 1 0) c) = true.
Proof.
  intros c. split.
  - apply (client_returns_at_entry_edge (MouseMoveEvent.mk 0 0 0 7) c);
      try reflexivity;
      unfold wf_event, screen_in_range, motion_in_range, is_i32; cbn; lia.
  - destruct (Cli.active_ (Cli.handle_mouse_move (MouseMoveEvent.mk 0 0 1 0) c))
      eqn:E; [reflexivity|].
    apply (client_returns_at_entry_edge (MouseMoveEvent.mk 0 0 1 0) c) in E;
      try reflexivity;
      try (unfold wf_event, screen_in_range, motion_in_range, is_i32; cbn; lia).
    discriminate E.
Defined.

(** X14.  An idle command-line client is inert: whatever bytes arrive, a
    turn of [process_events] that does not activate it (only a SwitchScreen
    frame does) leaves the simulator, and with it the list of injected
    events, and the cursor as they were. *)
Theorem client_idle_injects_nothing
    (now : Z) (timed_out : bool) (incoming : list Z) (c : Cli.Client) :
  let c' := fst (Cli.process_events now timed_out incoming c) in
  Cli.active_ c = false ->
  Cli.active_ c' = false ->
  Cli.simulator_ c' = Cli.simulator_ c
  /\ Cli.cursor_x_ c' = Cli.cursor_x_ c
  /\ Cli.cursor_y_ c' = Cli.cursor_y_ c.
Proof.
  cbv zeta. intros Ha. unfold Cli.process_events.
  destruct (Cli.decode incoming) as [[e| | |] rest]; cbn [fst].
  - destruct e as [p|p|p|p pressed|p|p|]; cbn [Cli.handle];
      unfold Cli.handle_mouse_move, Cli.handle_mouse_button,
        Cli.handle_mouse_scroll, Cli.handle_key_event, Cli.handle_screen_info;
      cbn [Cli.active_ Cli.set_last_data_received]; rewrite ?Ha; cbn [negb];
      try (intros _; repeat split; reflexivity).
    unfold Cli.handle_switch_screen.
    destruct (SwitchScreenEvent.edge p); cbn; discriminate.
  - intros _; repeat split; reflexivity.
  - intros _; repeat split; reflexivity.
  - destruct timed_out; intros _; repeat split; reflexivity.
Qed.

Lemma client_idle_injects_nothing_witness :
  let c := Cli.set_connected true Cli.construct in
  InputSimulator.injected
    (Cli.simulator_
       (fst (Cli.process_events 5 true
               (encode (EvMouseButton (MouseButtonEvent.mk MouseButton.LEFT true)) 3)
               c))) = [].
Proof.
  intros c.
  destruct (client_idle_injects_nothing 5 true
              (encode (EvMouseButton (MouseButtonEvent.mk MouseButton.LEFT true)) 3) c)
    as (H & _); [reflexivity | reflexivity |].
  now rewrite H.
Defined.

(** ** The receiving loop of the GUI client, any bytes *)

Lemma half_on_screen (n : Z) : 0 < n -> 0 <= Z.quot n 2 <= n - 1.
Proof. intros H. rewrite Z.quot_div_nonneg by lia. split; [apply Z.div_pos; lia|].
  assert (n / 2 < n) by (apply Z.div_lt; lia). lia. Qed.

Lemma client_loop_inv_handle (w h : Z) (e : Event) (c : Gui.ClientLoop) :
  0 < w -> 0 < h ->
  client_loop_inv w h c -> client_loop_inv w h (Gui.client_handle e c).
Proof.
  intros Hw Hh Hkeep. pose proof Hkeep as (Hlw & Hlh & Hcur).
  unfold cursor_on_screen in Hcur. rewrite Hlw, Hlh in Hcur.
  destruct e as [p|p|p|p pressed|p|p|]; cbn [Gui.client_handle];
    try exact Hkeep;
    try (destruct (Gui.active c); cbn [negb]; [|exact Hkeep]).
  - (* MOUSE_MOVE *)
    unfold Gui.client_mouse_move. cbv zeta.
    match goal with |- context [if ?b then _ else _] => destruct b end;
      unfold client_loop_inv, cursor_on_screen; cbn; rewrite ?Hlw, ?Hlh.
    + pose proof (half_on_screen w Hw). pose proof (half_on_screen h Hh). lia.
    + pose proof (clamp_range 0 (w - 1) (Gui.cursor_x c + MouseMoveEvent.dx p)).
      pose proof (clamp_range 0 (h - 1) (Gui.cursor_y c + MouseMoveEvent.dy p)).
      lia.
  - unfold client_loop_inv, cursor_on_screen; cbn; rewrite ?Hlw, ?Hlh. lia.
  - unfold client_loop_inv, cursor_on_screen; cbn; rewrite ?Hlw, ?Hlh. lia.
  - unfold client_loop_inv, cursor_on_screen; cbn; rewrite ?Hlw, ?Hlh. lia.
  - (* SWITCH_SCREEN *)
    unfold Gui.client_switch_screen. cbv zeta.
    unfold client_loop_inv, cursor_on_screen.
    destruct (SwitchScreenEvent.edge p); cbn; rewrite ?Hlw, ?Hlh;
      unfold clamp; lia.
Qed.

Lemma client_loop_inv_turn (w h : Z) (incoming : list Z) (c : Gui.ClientLoop) :
  0 < w -> 0 < h ->
  client_loop_inv w h c -> client_loop_inv w h (fst (Gui.client_turn incoming c)).
Proof.
  intros Hw Hh Hi. unfold Gui.client_turn.
  destruct (Gui.client_decode incoming) as [[e| | |] rest]; cbn [fst];
    try exact Hi.
  now apply client_loop_inv_handle.
Qed.

(** X15.  Whatever bytes reach the GUI client and however long its loop
    runs, the cursor it keeps never leaves the local screen (of at least
    one pixel each way): it starts at (0, 0), each MouseMove and
    SwitchScreen clamps it, and the return to the centre is on the screen
    too. *)
Theorem gui_client_cursor_on_screen
    (sim : InputSimulator.t) (w h : Z) (turns : nat) (incoming : list Z) :
  0 < w -> 0 < h ->
  let c := fst (client_loop turns incoming (Gui.client_start sim w h)) in
  0 <= Gui.cursor_x c <= w - 1 /\ 0 <= Gui.cursor_y c <= h - 1.
Proof.
  intros Hw Hh.
  assert (Hgen : forall turns incoming c,
            client_loop_inv w h c ->
            client_loop_inv w h (fst (client_loop turns incoming c))).
  { clear turns incoming. induction turns as [|turns IH]; intros incoming c Hi;
      cbn [client_loop]; [exact Hi|].
    destruct (Gui.left_loop c); [exact Hi|].
    pose proof (client_loop_inv_turn w h incoming c Hw Hh Hi) as Ht.
    destruct (Gui.client_turn incoming c) as [c1 rest]. now apply IH. }
  cbv zeta.
  destruct (Hgen turns incoming (Gui.client_start sim w h)) as (H1 & H2 & H3).
  { repeat split; cbn; lia. }
  unfold cursor_on_screen in H3. rewrite H1, H2 in H3. exact H3.
Qed.

Lemma gui_client_cursor_on_screen_witness :
  let bytes :=
    encode (EvSwitchScreen (SwitchScreenEvent.mk ScreenEdge.LEFT 5000)) 1
    ++ encode (EvMouseMove (MouseMoveEvent.mk 0 0 4000 (-9000))) 2 in
  let c :=
    fst (client_loop 2 bytes (Gui.client_start InputSimulator.construct 1280 720)) in
  0 <= Gui.cursor_x c <= 1279 /\ 0 <= Gui.cursor_y c <= 719.
Proof.
  intros bytes c.
  apply (gui_client_cursor_on_screen InputSimulator.construct 1280 720 2 bytes); lia.
Defined.

(** X16.  The GUI client under a MouseMove frame, while active, with the
    screen size it reads positive and within [int], the screen of its
    simulator one [move_mouse] is defined on (2 to 32768 pixels each way),
    and the fields of the event, its cursor and the sums of cursor and
    deltas within the range of [int].
    When the clamped new position lies on
    the edge through which the client was entered, the client deactivates,
    puts its cursor at the centre of the screen and has injected two
    absolute moves, to the edge and then to the centre; otherwise it stays
    active at the new position with one move injected. *)
Theorem gui_client_returns_to_centre (p : MouseMoveEvent.t) (c : Gui.ClientLoop) :
  let w := Gui.local_width c in
  let h := Gui.local_height c in
  let x' := clamp 0 (w - 1) (Gui.cursor_x c + MouseMoveEvent.dx p) in
  let y' := clamp 0 (h - 1) (Gui.cursor_y c + MouseMoveEvent.dy p) in
  let on_entry_edge :=
    match Gui.entry_edge c with
    | ScreenEdge.LEFT => x' = 0
    | ScreenEdge.RIGHT => x' = w - 1
    | ScreenEdge.TOP => y' = 0
    | ScreenEdge.BOTTOM => y' = h - 1
    | _ => False
    end in
  Gui.active c = true -> 0 < w -> 0 < h -> is_i32 w -> is_i32 h ->
  screen_in_range (InputSimulator.screen_width_ (Gui.input_simulator c))
                  (InputSimulator.screen_height_ (Gui.input_simulator c)) ->
  wf_event (EvMouseMove p) ->
  motion_in_range (Gui.cursor_x c) (Gui.cursor_y c)
    (MouseMoveEvent.dx p) (MouseMoveEvent.dy p) ->
  let c' := Gui.client_handle (EvMouseMove p) c in
  (on_entry_edge ->
   Gui.active c' = false
   /\ Gui.cursor_x c' = Z.quot w 2 /\ Gui.cursor_y c' = Z.quot h 2
   /\ Gui.input_simulator c'
      = InputSimulator.move_mouse (Z.quot w 2) (Z.quot h 2)
          (InputSimulator.move_mouse x' y' (Gui.input_simulator c)))
  /\ (~ on_entry_edge ->
      Gui.active c' = true
      /\ Gui.cursor_x c' = x' /\ Gui.cursor_y c' = y'
      /\ Gui.input_simulator c'
         = InputSimulator.move_mouse x' y' (Gui.input_simulator c)).
Proof.
  intros w h x' y' on_entry_edge Ha Hw Hh _ _ _ _ _ c'.
  assert (Hx : 0 <= x' <= w - 1) by (apply clamp_range; lia).
  assert (Hy : 0 <= y' <= h - 1) by (apply clamp_range; lia).
  subst c'. cbn [Gui.client_handle]. rewrite Ha. cbn [negb].
  unfold Gui.client_mouse_move. cbv zeta. fold w h. fold x' y'.
  cbn [Gui.entry_edge Gui.client_move_mouse Gui.client_set_simulator
       Gui.client_set_cursor Gui.cursor_x Gui.cursor_y Gui.local_width
       Gui.local_height].
  fold w h.
  set (should_return :=
         match Gui.entry_edge c with
         | ScreenEdge.LEFT => x' <=? 0
         | ScreenEdge.RIGHT => x' >=? w - 1
         | ScreenEdge.TOP => y' <=? 0
         | ScreenEdge.BOTTOM => y' >=? h - 1
         | _ => false
         end).
  assert (Hedge : should_return = true <-> on_entry_edge).
  { subst should_return on_entry_edge.
    destruct (Gui.entry_edge c);
      rewrite ?Z.leb_le, ?Z.geb_le; split; intros; try discriminate;
      try contradiction; lia. }
  destruct should_return.
  - split; [intros _; cbn; rewrite ?Ha; repeat split|].
    intros Hn. exfalso. apply Hn, Hedge. reflexivity.
  - split; [intros Hy'; apply Hedge in Hy'; discriminate|].
    intros _. cbn. rewrite ?Ha. repeat split.
Qed.

Lemma gui_client_returns_to_centre_witness :
  let c :=
    Gui.client_switch_screen (SwitchScreenEvent.mk ScreenEdge.LEFT 300)
      (Gui.client_start (InputSimulator.init 1280 720 0 0 InputSimulator.construct)
         1280 720) in
  let c' := Gui.client_handle (EvMouseMove (MouseMoveEvent.mk 0 0 (-3) 10)) c in
  Gui.active c' = false /\ Gui.cursor_x c' = 640 /\ Gui.cursor_y c' = 360.
Proof.
  intros c c'.
  assert (Hs : screen_in_range
                 (InputSimulator.screen_width_ (Gui.input_simulator c))
                 (InputSimulator.screen_height_ (Gui.input_simulator c)))
    by (unfold screen_in_range; cbn; lia).
  assert (Hm : motion_in_range (Gui.cursor_x c) (Gui.cursor_y c) (-3) 10)
    by (unfold motion_in_range, is_i32; cbn; lia).
  assert (Hw : is_i32 (Gui.local_width c)) by (unfold is_i32; cbn; lia).
  assert (Hh : is_i32 (Gui.local_height c)) by (unfold is_i32; cbn; lia).
  assert (Hp : wf_event (EvMouseMove (MouseMoveEvent.mk 0 0 (-3) 10)))
    by (cbn; unfold is_i32; lia).
  destruct (gui_client_returns_to_centre (MouseMoveEvent.mk 0 0 (-3) 10) c
              eq_refl eq_refl eq_refl Hw Hh Hs Hp Hm) as [H _].
  destruct H as (H1 & H2 & H3 & _); [reflexivity|].
  repeat split; assumption.
Defined.

(** ** The topology under discovery *)

Lemma update_computer_names packet ip_str now computers computers' :
  Gui.update_computer packet ip_str now computers = Some computers' ->
  map Gui.name computers' = map Gui.name computers.
Proof.
  revert computers'. induction computers as [|comp rest IH]; intros computers';
    cbn [Gui.update_computer]; [discriminate|].
  destruct (String.eqb (Gui.name comp) (Gui.dp_name packet)).
  - intros [= <-]. reflexivity.
  - destruct (Gui.update_computer packet ip_str now rest) as [rest'|];
      [|discriminate].
    intros [= <-]. cbn. now rewrite (IH rest').
Qed.

Lemma update_computer_none packet ip_str now computers :
  Gui.update_computer packet ip_str now computers = None ->
  ~ In (Gui.dp_name packet) (map Gui.name computers).
Proof.
  induction computers as [|comp rest IH]; cbn [Gui.update_computer];
    [intros _ []|].
  destruct (String.eqb_spec (Gui.name comp) (Gui.dp_name packet)) as [E|E];
    [discriminate|].
  destruct (Gui.update_computer packet ip_str now rest); [discriminate|].
  intros _ [H|H]; [contradiction | now apply IH].
Qed.

Lemma mark_connected_names client_ip b computers :
  map Gui.name (Gui.mark_connected client_ip b computers) = map Gui.name computers.
Proof.
  induction computers as [|comp rest IH]; [reflexivity|].
  cbn [Gui.mark_connected]. destruct (String.eqb (Gui.ip comp) client_ip);
    cbn; [reflexivity | now rewrite IH].
Qed.

Lemma NoDup_map_filter {A B} (f : A -> B) (g : A -> bool) (l : list A) :
  NoDup (map f l) -> NoDup (map f (filter g l)).
Proof.
  induction l as [|a l IH]; cbn; [auto|].
  intros H. inversion H as [|? ? Hn Hl]; subst.
  destruct (g a); cbn; [|now apply IH].
  constructor; [|now apply IH].
  intros Hin. apply Hn. apply in_map_iff in Hin as (x & Hx & Hf).
  apply in_map_iff. exists x. split; [exact Hx|].
  now apply filter_In in Hf.
Qed.

(** X17.  The discovery thread keeps the topology well formed: if no two
    entries bear the same name and the local computer is listed, that is so
    again after any datagram and after any reaping pass, whatever they
    carry; accepting a client, losing it and stopping the server mark
    entries and change no name. *)
Theorem topology_names_stay_unique (st : Gui.AppState) :
  NoDup (peer_names st) ->
  In (Gui.computer_name st) (peer_names st) ->
  (forall received packet ip_str now,
     let st' := Gui.receive_discovery received packet ip_str now st in
     NoDup (peer_names st') /\ In (Gui.computer_name st') (peer_names st'))
  /\ (forall now,
        let st' := Gui.remove_stale now st in
        NoDup (peer_names st') /\ In (Gui.computer_name st') (peer_names st'))
  /\ (forall env client_ip ux uy,
        peer_names (Gui.accept_client env client_ip ux uy st) = peer_names st)
  /\ (forall env client_ip,
        peer_names (Gui.client_gone env client_ip st) = peer_names st)
  /\ peer_names (Gui.stop_server st) = peer_names st.
Proof.
  intros Hnd Hlocal. unfold peer_names in *.
  split; [|split; [|split; [|split]]].
  - intros received packet ip_str now. cbv zeta. unfold Gui.receive_discovery.
    destruct (received >=? Gui.sizeof_DiscoveryPacket); [|now split].
    destruct (String.eqb (Gui.magic packet) "MSHR"); [|now split].
    destruct (String.eqb (Gui.dp_name packet) (Gui.computer_name st)); [now split|].
    destruct (Gui.update_computer packet ip_str now (Gui.layout st))
      as [computers|] eqn:Eu;
      cbn [Gui.layout Gui.with_layout Gui.computer_name].
    + rewrite (update_computer_names _ _ _ _ _ Eu). now split.
    + rewrite map_app. cbn [map Gui.name Gui.new_computer]. split.
      * apply NoDup_app; repeat split.
        -- exact Hnd.
        -- constructor; [intros [] | constructor].
        -- intros nm Hin [<-|[]].
           exact (update_computer_none _ _ _ _ Eu Hin).
      * apply in_or_app. now left.
  - intros now. cbv zeta. unfold Gui.remove_stale.
    cbn [Gui.layout Gui.with_layout Gui.computer_name]. split.
    + now apply NoDup_map_filter.
    + apply in_map_iff in Hlocal as (c & Hc & Hin).
      apply in_map_iff. exists c. split; [exact Hc|].
      apply filter_In. split; [exact Hin|].
      unfold Gui.stale. rewrite Hc, String.eqb_refl. cbn.
      now rewrite andb_false_r.
  - intros env client_ip ux uy. unfold Gui.accept_client. cbn.
    apply mark_connected_names.
  - intros env client_ip. unfold Gui.client_gone. cbn.
    apply mark_connected_names.
  - unfold Gui.stop_server. cbn. rewrite map_map. reflexivity.
Qed.

Lemma topology_names_stay_unique_witness :
  let st := Gui.init "alpha" 1920 1080 in
  let p := Gui.mkDiscoveryPacket "MSHR" 1 24800 1280 720 0 "beta" in
  peer_names (Gui.receive_discovery 80 p "10.0.0.2" 7
                (Gui.receive_discovery 80 p "10.0.0.2" 5 st))
  = ["alpha"%string; "beta"%string]
  /\ NoDup (peer_names (Gui.receive_discovery 80 p "10.0.0.2" 5 st)).
Proof.
  intros st p. split; [reflexivity|].
  assert (Hnd : NoDup (peer_names st))
    by (constructor; [intros [] | constructor]).
  assert (Hin : In (Gui.computer_name st) (peer_names st)) by now left.
  apply (proj1 (topology_names_stay_unique st Hnd Hin) 80 p "10.0.0.2"%string 5).
Defined.

(** X18.  Presence, from sender to receiver.  The datagram a peer
    broadcasts carries its name cut to 63 characters, its screen size and
    whether its server runs; a computer of another name that receives it
    whole lists an entry of that name with this address, port, screen size
    and server flag, stamped with the receiver's tick count.  A computer
    whose name has at most 63 characters ignores its own broadcasts. *)
Theorem presence_reaches_topology
    (port : Z) (ip_str : string) (now : Z) (sender receiver : Gui.AppState) :
  let packet := Presence.broadcast_presence port sender in
  let st' :=
    Gui.receive_discovery Gui.sizeof_DiscoveryPacket packet ip_str now receiver in
  (Gui.dp_name packet <> Gui.computer_name receiver ->
   exists c,
     In c (Gui.layout st')
     /\ Gui.name c = String.substring 0 63 (Gui.computer_name sender)
     /\ Gui.ip c = ip_str /\ Gui.port c = port
     /\ Gui.screen_width c = Gui.screen_width (Gui.local_info sender)
     /\ Gui.screen_height c = Gui.screen_height (Gui.local_info sender)
     /\ Gui.is_server c = Gui.server_running sender
     /\ Gui.last_seen c = to_u32 now)
  /\ ((String.length (Gui.computer_name receiver) <= 63)%nat ->
      Gui.receive_discovery Gui.sizeof_DiscoveryPacket
        (Presence.broadcast_presence port receiver) ip_str now receiver
      = receiver).
Proof.
  cbv zeta. split.
  - intros Hname. unfold Gui.receive_discovery.
    change (Gui.sizeof_DiscoveryPacket >=? Gui.sizeof_DiscoveryPacket) with true.
    cbv iota.
    change (String.eqb (Gui.magic (Presence.broadcast_presence port sender)) "MSHR")
      with true. cbv iota.
    destruct (String.eqb_spec (Gui.dp_name (Presence.broadcast_presence port sender))
                (Gui.computer_name receiver)) as [E|_]; [contradiction|].
    assert (Hflag : ((if Gui.server_running sender then 1 else 0) =? 1)
                    = Gui.server_running sender)
      by (now destruct (Gui.server_running sender)).
    destruct (Gui.update_computer _ ip_str now (Gui.layout receiver))
      as [computers|] eqn:Eu.
    + assert (Hk : known (Gui.dp_name (Presence.broadcast_presence port sender))
                     (Gui.layout receiver)).
      { destruct (in_dec string_dec
                    (Gui.dp_name (Presence.broadcast_presence port sender))
                    (map Gui.name (Gui.layout receiver))) as [Hin|Hn].
        - apply in_map_iff in Hin as (c & Hc & Hin). now exists c.
        - rewrite update_computer_unknown in Eu; [discriminate|].
          intros (c & Hin & Hc). apply Hn. apply in_map_iff. now exists c. }
      destruct (update_computer_known _ ip_str now _ Hk)
        as (pre & comp & post & _ & Hn & _ & Hup).
      rewrite Hup in Eu. injection Eu as <-.
      exists (refreshed (Presence.broadcast_presence port sender) ip_str now comp).
      split; [cbn; apply in_or_app; right; now left|].
      cbn. rewrite Hflag. repeat split. exact Hn.
    + eexists. split; [cbn; apply in_or_app; right; left; reflexivity|].
      cbn. rewrite Hflag. repeat split.
  - intros Hlen. unfold Gui.receive_discovery.
    change (Gui.sizeof_DiscoveryPacket >=? Gui.sizeof_DiscoveryPacket) with true.
    cbv iota.
    change (String.eqb (Gui.magic (Presence.broadcast_presence port receiver)) "MSHR")
      with true. cbv iota.
    assert (Hsub : forall s n, (String.length s <= n)%nat -> String.substring 0 n s = s).
    { induction s as [|a s IH]; intros [|n] H; cbn in *; try reflexivity; try lia.
      f_equal. apply IH. lia. }
    cbn [Gui.dp_name Presence.broadcast_presence].
    rewrite (Hsub _ _ Hlen), String.eqb_refl. reflexivity.
Qed.

(** ** The safety timeout and the tick counter *)

(** X19.  The safety timeout is exact across the wrap-around of the tick
    counter: with input captured and the last activity recorded at tick
    [last], a pass of the hook thread made [d] milliseconds later (less
    than 2^32), at which [GetTickCount] reads [(last + d) mod 2^32], keeps
    the capture when [d <= 30000] and releases it otherwise. *)
Theorem safety_timeout_across_wrap (c : InputCapture.t) (d : Z) :
  InputCapture.captured_ c = true ->
  is_u32 (InputCapture.last_activity_ c) ->
  0 <= d < 2 ^ 32 ->
  let now := to_u32 (InputCapture.last_activity_ c + d) in
  InputCapture.captured_ (InputCapture.safety_timeout now c) = (d <=? 30000)
  /\ (d <= 30000 -> InputCapture.safety_timeout now c = c).
Proof.
  intros Hc Hl Hd now.
  assert (He : to_u32 (to_u32 now - InputCapture.last_activity_ c) = d).
  { subst now. unfold to_u32, is_u32 in *.
    rewrite Z.mod_mod by discriminate.
    rewrite Zminus_mod_idemp_l.
    replace (InputCapture.last_activity_ c + d - InputCapture.last_activity_ c)
      with d by lia.
    apply Z.mod_small. lia. }
  unfold InputCapture.safety_timeout. rewrite Hc, He.
  destruct (Z.gtb_spec d 30000); destruct (Z.leb_spec d 30000); try lia;
    split; try reflexivity; try assumption; lia.
Qed.

Lemma safety_timeout_across_wrap_witness :
  let c := InputCapture.mk 1920 1080 0 0 true true (2 ^ 32 - 10000) in
  InputCapture.captured_ (InputCapture.safety_timeout 20000 c) = true
  /\ InputCapture.captured_ (InputCapture.safety_timeout 20001 c) = false.
Proof.
  intros c. split.
  - apply (safety_timeout_across_wrap c 30000); [reflexivity | | ];
      unfold is_u32; cbn; lia.
  - apply (safety_timeout_across_wrap c 30001); [reflexivity | | ];
      unfold is_u32; cbn; lia.
Defined.

(** ** The two receivers and the protocol version *)

(** X20.  The receiving loop of the GUI client does not look at the version
    field: a frame with a well-formed header of any version and a complete
    payload is dispatched on its type.  The command-line client dispatches
    the same frame only when the version is 1 and otherwise gives the
    connection up. *)
Theorem gui_receiver_ignores_version
    (h : PacketHeader.t) (payload rest : list Z) :
  wf_header h ->
  Z.of_nat (List.length payload) = PacketHeader.payload_size h ->
  Gui.client_decode (store h ++ payload ++ rest)
  = (Gui.client_dispatch h payload, rest)
  /\ (PacketHeader.version h = PROTOCOL_VERSION ->
      Cli.decode (store h ++ payload ++ rest) = (Cli.dispatch h payload, rest))
  /\ (PacketHeader.version h <> PROTOCOL_VERSION ->
      fst (Cli.decode (store h ++ payload ++ rest)) = Rejected
      /\ forall now timed_out c,
           Cli.connected_
             (fst (Cli.process_events now timed_out (store h ++ payload ++ rest) c))
           = false).
Proof.
  intros Hwf Hlen. split; [now apply Gui_decode_frame|].
  split; [intros Hv; now apply Cli_decode_frame|].
  intros Hv.
  assert (Hd : fst (Cli.decode (store h ++ payload ++ rest)) = Rejected).
  { unfold Cli.decode. rewrite recv_exact_app by reflexivity.
    replace (load (store h)) with h
      by (rewrite <- (app_nil_r (store h)); symmetry; now apply load_store_header).
    unfold is_valid_packet_header.
    destruct (Z.eqb_spec (PacketHeader.version h) PROTOCOL_VERSION);
      [contradiction | reflexivity]. }
  split; [exact Hd|].
  intros now timed_out c. unfold Cli.process_events.
  destruct (Cli.decode (store h ++ payload ++ rest)) as [d rest'].
  cbn [fst] in Hd. subst d. reflexivity.
Qed.

Lemma gui_receiver_ignores_version_witness :
  let h := PacketHeader.mk 7 EventType.MOUSE_BUTTON 0 2 in
  Gui.client_decode (store h ++ [1; 1] ++ [])
  = (Delivered (EvMouseButton (MouseButtonEvent.mk MouseButton.LEFT true)), [])
  /\ fst (Cli.decode (store h ++ [1; 1] ++ [])) = Rejected.
Proof.
  intros h.
  assert (Hwf : wf_header h).
  { unfold wf_header, is_u16, is_u8, is_u32. cbn. repeat split; lia. }
  destruct (gui_receiver_ignores_version h [1; 1] [] Hwf eq_refl)
    as (H1 & _ & H3).
  split; [rewrite H1; reflexivity|].
  apply H3. discriminate.
Defined.

(** ** Keys and buttons, from the hook of the primary to the secondary *)

Lemma touched_facts (t : Z) (st : Gui.AppState) :
  let a :=
    if InputCapture.captured_ (Gui.input_capture st)
    then Gui.with_input_capture
           (InputCapture.set_last_activity t (Gui.input_capture st)) st
    else st in
  Gui.journal a = Gui.journal st
  /\ Gui.active_on_remote a = Gui.active_on_remote st
  /\ Gui.active_client a = Gui.active_client st
  /\ suppress a = suppress st.
Proof.
  cbv zeta. unfold suppress.
  destruct (InputCapture.captured_ (Gui.input_capture st)) eqn:E; cbn; auto.
Qed.

Lemma send_or_release_ok env data a :
  0 < Gui.send_result env ->
  Gui.send_or_release env data a
  = Gui.record (Gui.Send data (Gui.send_result env)) a.
Proof.
  intros Hs. unfold Gui.send_or_release, Gui.send. cbv beta iota.
  destruct (Z.leb_spec (Gui.send_result env) 0); [lia | reflexivity].
Qed.

Lemma sent_by_one st a e clock_ms :
  Gui.journal a = Gui.journal st ->
  sent_by st (Gui.record (Gui.Send (encode e clock_ms) (frame_size e)) a)
  = encode e clock_ms.
Proof.
  intros Hj. unfold sent_by. cbn [Gui.journal Gui.record].
  rewrite Hj, skipn_length_app. cbn [gui_wire].
  rewrite firstn_frame. apply app_nil_r.
Qed.

Lemma frame_size_pos (e : Event) : 0 < frame_size e.
Proof. destruct e; cbn; lia. Qed.

Lemma land_extended (flags : Z) :
  negb (Z.land flags LLKHF_EXTENDED =? 0) = Z.odd flags.
Proof.
  unfold LLKHF_EXTENDED. change 1 with (Z.ones 1).
  rewrite Z.land_ones by lia. change (2 ^ 1) with 2.
  rewrite Zmod_odd. now destruct (Z.odd flags).
Qed.

(** X21.  A key, end to end.  While the primary forwards (REMOTE, client
    socket valid, the frame sent whole), a hooked key that is neither an
    emergency key nor an F8 key-down is sent as KeyPress when the message is
    WM_KEYDOWN or WM_SYSKEYDOWN and as KeyRelease for any other message; it
    is kept from the local system when suppress is on; and the active GUI
    client injects exactly one keyboard event with the virtual-key and scan
    codes cut to 16 bits, the extended flag when bit 0 of the hook's flags
    is set and the key-up flag for a release. *)
Theorem gui_key_end_to_end
    (env : Gui.Env) (ctrl_down alt_down : bool) (wParam : Z)
    (kb : KBDLLHOOKSTRUCT) (st : Gui.AppState) (c : Gui.ClientLoop) :
  let pressed := (wParam =? WM_KEYDOWN) || (wParam =? WM_SYSKEYDOWN) in
  Gui.active_on_remote st = true ->
  Gui.active_client st = true ->
  Gui.send_result env
  = frame_size (EvKey (KeyEvent.mk (kb_vkCode kb) (kb_scanCode kb) (kb_flags kb))
                  pressed) ->
  InputCapture.is_emergency_key (kb_vkCode kb) ctrl_down alt_down = false ->
  (kb_vkCode kb =? VK_F8) && pressed = false ->
  is_u32 (kb_vkCode kb) -> is_u32 (kb_scanCode kb) -> is_u32 (kb_flags kb) ->
  Gui.active c = true ->
  let r := Gui.keyboard_hook env ctrl_down alt_down 0 wParam kb st in
  let frame := sent_by st (fst r) in
  let c' := fst (Gui.client_turn frame c) in
  frame = encode (EvKey (KeyEvent.mk (kb_vkCode kb) (kb_scanCode kb) (kb_flags kb))
                    pressed) (Gui.clock_ms env)
  /\ (suppress st = true -> snd r = Blocked)
  /\ injected_by c c'
     = [InputSimulator.INPUT_KEYBOARD (to_u16 (kb_vkCode kb)) (to_u16 (kb_scanCode kb))
          ((if Z.odd (kb_flags kb) then KEYEVENTF_EXTENDEDKEY else 0)
           + (if pressed then 0 else KEYEVENTF_KEYUP))].
Proof.
  intros pressed Ha Hc Hfs Hem Hf8 Hvk Hscan Hflags Hact r frame c'.
  assert (Hs : 0 < Gui.send_result env) by (rewrite Hfs; apply frame_size_pos).
  pose proof (not_emergency_not_scroll_lock _ _ _ Hem) as Hsl.
  assert (Hr : r = (let a :=
                      if InputCapture.captured_ (Gui.input_capture st)
                      then Gui.with_input_capture
                             (InputCapture.set_last_activity (to_u32 (Gui.tick env))
                                (Gui.input_capture st)) st
                      else st in
                    let a' :=
                      Gui.record
                        (Gui.Send
                           (encode (EvKey (KeyEvent.mk (kb_vkCode kb) (kb_scanCode kb)
                                             (kb_flags kb)) pressed) (Gui.clock_ms env))
                           (Gui.send_result env)) a in
                    if InputCapture.captured_ (Gui.input_capture a')
                    then (a', Blocked) else (a', CallNextHookEx))).
  { subst r. unfold Gui.keyboard_hook, InputCapture.keyboard_hook_proc.
    change (0 >=? 0) with true. cbv iota. rewrite Hem. cbv zeta.
    cbn [InputCapture.key_callback_ Gui.callbacks]. fold pressed.
    destruct (touched_facts (to_u32 (Gui.tick env)) st) as (Hj & Ha' & Hc' & _).
    cbv zeta in Hj, Ha', Hc'.
    set (a := if InputCapture.captured_ (Gui.input_capture st) then _ else st) in *.
    unfold Gui.on_key. rewrite Hf8, Hsl. cbn [andb].
    rewrite Ha', Hc', Ha, Hc. cbn [negb].
    rewrite send_or_release_ok by assumption. reflexivity. }
  destruct (touched_facts (to_u32 (Gui.tick env)) st) as (Hj & Ha' & Hc' & Hsup).
  cbv zeta in Hr, Hj, Ha', Hc', Hsup.
  set (a := if InputCapture.captured_ (Gui.input_capture st) then _ else st) in *.
  assert (Hframe : frame
                   = encode (EvKey (KeyEvent.mk (kb_vkCode kb) (kb_scanCode kb)
                                      (kb_flags kb)) pressed) (Gui.clock_ms env)).
  { subst frame. rewrite Hr, fst_if, Hfs. now apply sent_by_one. }
  split; [exact Hframe|]. split.
  - intros Hsupp. rewrite Hr.
    change (InputCapture.captured_ (Gui.input_capture (Gui.record _ a)))
      with (suppress a).
    now rewrite Hsup, Hsupp.
  - subst c'. rewrite Hframe. unfold Gui.client_turn.
    rewrite <- (app_nil_r (encode _ _)), Gui_client_decode_encode
      by (repeat split; cbn; assumption || apply Hvk || apply Hscan || apply Hflags).
    cbn [fst Gui.client_handle]. rewrite Hact. cbn [negb].
    unfold injected_by, InputSimulator.key_event.
    cbn [KeyEvent.vkCode KeyEvent.scanCode KeyEvent.flags].
    rewrite land_extended.
    cbn [Gui.client_set_simulator Gui.input_simulator InputSimulator.SendInput
         InputSimulator.injected].
    rewrite skipn_length_app.
    destruct (Z.odd (kb_flags kb)), pressed; reflexivity.
Qed.

Lemma gui_key_end_to_end_witness :
  let env := Gui.mkEnv 1000 1000 21 1080 in
  let st :=
    Gui.capture_input env true
      (Gui.set_active_on_remote true
         (Gui.with_active_client true (Gui.init "alpha" 1920 1080))) in
  let c :=
    Gui.client_switch_screen (SwitchScreenEvent.mk ScreenEdge.LEFT 300)
      (Gui.client_start InputSimulator.construct 1280 720) in
  let kb := Build_KBDLLHOOKSTRUCT 0x27 0x4D 1 in
  let r := Gui.keyboard_hook env false false 0 WM_KEYUP kb st in
  snd r = Blocked
  /\ injected_by c (fst (Gui.client_turn (sent_by st (fst r)) c))
     = [InputSimulator.INPUT_KEYBOARD 0x27 0x4D 3].
Proof.
  intros env st c kb r.
  destruct (gui_key_end_to_end env false false WM_KEYUP kb st c)
    as (_ & H2 & H3); try reflexivity; try (unfold is_u32; cbn; lia).
  split; [apply H2; reflexivity | exact H3].
Defined.

Lemma button_of_message_cases (wParam : Z) (ms : MSLLHOOKSTRUCT)
    (button : MouseButton.t) (pressed : bool) :
  button_of_message wParam ms = Some (button, pressed) ->
  MouseButton.named button
  /\ InputSimulator.INPUT_MOUSE 0 0
       match button with
       | MouseButton.BUTTON4 => XBUTTON1
       | MouseButton.BUTTON5 => XBUTTON2
       | _ => 0
       end
       match button with
       | MouseButton.LEFT =>
           if pressed then MOUSEEVENTF_LEFTDOWN else MOUSEEVENTF_LEFTUP
       | MouseButton.RIGHT =>
           if pressed then MOUSEEVENTF_RIGHTDOWN else MOUSEEVENTF_RIGHTUP
       | MouseButton.MIDDLE =>
           if pressed then MOUSEEVENTF_MIDDLEDOWN else MOUSEEVENTF_MIDDLEUP
       | _ => if pressed then MOUSEEVENTF_XDOWN else MOUSEEVENTF_XUP
       end
     = match button with
       | MouseButton.LEFT =>
           InputSimulator.INPUT_MOUSE 0 0 0
             (if pressed then MOUSEEVENTF_LEFTDOWN else MOUSEEVENTF_LEFTUP)
       | MouseButton.RIGHT =>
           InputSimulator.INPUT_MOUSE 0 0 0
             (if pressed then MOUSEEVENTF_RIGHTDOWN else MOUSEEVENTF_RIGHTUP)
       | MouseButton.MIDDLE =>
           InputSimulator.INPUT_MOUSE 0 0 0
             (if pressed then MOUSEEVENTF_MIDDLEDOWN else MOUSEEVENTF_MIDDLEUP)
       | _ =>
           InputSimulator.INPUT_MOUSE 0 0
             (if HIWORD (mouseData ms) =? XBUTTON1 then XBUTTON1 else XBUTTON2)
             (if pressed then MOUSEEVENTF_XDOWN else MOUSEEVENTF_XUP)
       end.
Proof.
  unfold button_of_message.
  repeat match goal with
         | |- (if ?b then _ else _) = _ -> _ =>
             destruct b; [intros [= <- <-]|]
         end;
    try (intros [=]);
    match goal with
    | |- MouseButton.named (InputCapture.xbutton _) /\ _ =>
        unfold InputCapture.xbutton;
        destruct (HIWORD (mouseData ms) =? XBUTTON1)
    | _ => idtac
    end;
    (split; [exact I | reflexivity]).
Qed.

Lemma button_message_switch {App : Type} (capture : App -> InputCapture.t)
    (with_capture : InputCapture.t -> App -> App)
    (cb : InputCapture.Callbacks (App:=App)) (wParam : Z) (ms : MSLLHOOKSTRUCT)
    (button : MouseButton.t) (pressed : bool) (a : App) :
  button_of_message wParam ms = Some (button, pressed) ->
  InputCapture.mouse_switch capture with_capture cb wParam ms a
  = InputCapture.call_button cb button pressed a.
Proof.
  unfold button_of_message, InputCapture.mouse_switch.
  destruct (Z.eqb_spec wParam WM_MOUSEMOVE) as [->|_]; [intros [=]|].
  repeat match goal with
         | |- (if ?b then _ else _) = _ -> _ =>
             destruct b; [intros [= <- <-]; reflexivity|]
         end.
  intros [=].
Qed.

(** X22.  A mouse button, end to end.  While the primary forwards (REMOTE,
    client socket valid, the frame sent whole), each of the eight button
    messages is sent as one MouseButton frame, and the active GUI client
    injects exactly one mouse event: left, right and middle keep their
    identity and direction; an X button arrives as XBUTTON1 when the high
    word of the hook's mouse data is 1 and as XBUTTON2 for every other
    value. *)
Theorem gui_button_end_to_end
    (env : Gui.Env) (wParam : Z) (ms : MSLLHOOKSTRUCT)
    (st : Gui.AppState) (c : Gui.ClientLoop)
    (button : MouseButton.t) (pressed : bool) :
  Gui.active_on_remote st = true ->
  Gui.active_client st = true ->
  Gui.send_result env
  = frame_size (EvMouseButton (MouseButtonEvent.mk button pressed)) ->
  Gui.active c = true ->
  button_of_message wParam ms = Some (button, pressed) ->
  let r := Gui.mouse_hook env 0 wParam ms st in
  let frame := sent_by st (fst r) in
  let c' := fst (Gui.client_turn frame c) in
  frame = encode (EvMouseButton (MouseButtonEvent.mk button pressed)) (Gui.clock_ms env)
  /\ (suppress st = true -> snd r = Blocked)
  /\ injected_by c c'
     = [match button with
        | MouseButton.LEFT =>
            InputSimulator.INPUT_MOUSE 0 0 0
              (if pressed then MOUSEEVENTF_LEFTDOWN else MOUSEEVENTF_LEFTUP)
        | MouseButton.RIGHT =>
            InputSimulator.INPUT_MOUSE 0 0 0
              (if pressed then MOUSEEVENTF_RIGHTDOWN else MOUSEEVENTF_RIGHTUP)
        | MouseButton.MIDDLE =>
            InputSimulator.INPUT_MOUSE 0 0 0
              (if pressed then MOUSEEVENTF_MIDDLEDOWN else MOUSEEVENTF_MIDDLEUP)
        | _ =>
            InputSimulator.INPUT_MOUSE 0 0
              (if HIWORD (mouseData ms) =? XBUTTON1 then XBUTTON1 else XBUTTON2)
              (if pressed then MOUSEEVENTF_XDOWN else MOUSEEVENTF_XUP)
        end]
  /\ MouseButton.named button.
Proof.
  intros Ha Hc Hfs Hact Hmsg r frame c'.
  assert (Hs : 0 < Gui.send_result env) by (rewrite Hfs; apply frame_size_pos).
  destruct (touched_facts (to_u32 (Gui.tick env)) st) as (Hj & Ha' & Hc' & Hsup).
  cbv zeta in Hj, Ha', Hc', Hsup.
  destruct (button_of_message_cases _ _ _ _ Hmsg) as [Hnamed Hinput].
  assert (Hr : r = (let a :=
                      if InputCapture.captured_ (Gui.input_capture st)
                      then Gui.with_input_capture
                             (InputCapture.set_last_activity (to_u32 (Gui.tick env))
                                (Gui.input_capture st)) st
                      else st in
                    let a' :=
                      Gui.record
                        (Gui.Send
                           (encode (EvMouseButton (MouseButtonEvent.mk button pressed))
                              (Gui.clock_ms env))
                           (Gui.send_result env)) a in
                    if InputCapture.captured_ (Gui.input_capture a')
                    then (a', Blocked) else (a', CallNextHookEx))).
  { subst r. unfold Gui.mouse_hook, InputCapture.mouse_hook_proc.
    change (0 >=? 0) with true. cbv iota zeta.
    set (a := if InputCapture.captured_ (Gui.input_capture st) then _ else st) in *.
    rewrite (button_message_switch _ _ _ _ _ _ _ a Hmsg).
    unfold InputCapture.call_button.
    cbn [InputCapture.button_callback_ Gui.callbacks].
    unfold Gui.on_mouse_button. rewrite Ha', Hc', Ha, Hc. cbn [negb].
    rewrite send_or_release_ok by assumption. reflexivity. }
  cbv zeta in Hr.
  set (a := if InputCapture.captured_ (Gui.input_capture st) then _ else st) in *.
  assert (Hframe : frame
                   = encode (EvMouseButton (MouseButtonEvent.mk button pressed))
                       (Gui.clock_ms env)).
  { subst frame. rewrite Hr, fst_if, Hfs. now apply sent_by_one. }
  split; [exact Hframe|]. split; [|split; [|exact Hnamed]].
  - intros Hsupp. rewrite Hr.
    change (InputCapture.captured_ (Gui.input_capture (Gui.record _ a)))
      with (suppress a).
    now rewrite Hsup, Hsupp.
  - subst c'. rewrite Hframe. unfold Gui.client_turn.
    rewrite <- (app_nil_r (encode _ _)), Gui_client_decode_encode by exact Hnamed.
    cbn [fst Gui.client_handle]. rewrite Hact. cbn [negb].
    unfold injected_by, InputSimulator.mouse_button.
    cbn [MouseButtonEvent.button MouseButtonEvent.pressed
         Gui.client_set_simulator Gui.input_simulator InputSimulator.SendInput
         InputSimulator.injected].
    rewrite skipn_length_app, <- Hinput.
    destruct button; try contradiction; reflexivity.
Qed.

Lemma gui_button_end_to_end_witness :
  let env := Gui.mkEnv 1000 1000 11 1080 in
  let st :=
    Gui.capture_input env true
      (Gui.set_active_on_remote true
         (Gui.with_active_client true (Gui.init "alpha" 1920 1080))) in
  let c :=
    Gui.client_switch_screen (SwitchScreenEvent.mk ScreenEdge.LEFT 300)
      (Gui.client_start InputSimulator.construct 1280 720) in
  let ms := Build_MSLLHOOKSTRUCT 960 540 0x00030000 in
  let r := Gui.mouse_hook env 0 WM_XBUTTONDOWN ms st in
  snd r = Blocked
  /\ injected_by c (fst (Gui.client_turn (sent_by st (fst r)) c))
     = [InputSimulator.INPUT_MOUSE 0 0 XBUTTON2 MOUSEEVENTF_XDOWN].
Proof.
  intros env st c ms r.
  destruct (gui_button_end_to_end env WM_XBUTTONDOWN ms st c MouseButton.BUTTON5 true)
    as (_ & H2 & H3 & _); try reflexivity; try (cbn; lia).
  split; [apply H2; reflexivity | exact H3].
Defined.

(** X23.  The F8 toggle of the primary.  An F8 key-down reaching the
    keyboard hook with a client socket valid flips the focus and sets
    suppress to the new focus.  Going to REMOTE it sends one SwitchScreen
    frame for the LEFT edge at half the screen height and the key is kept
    from the local system; the focus stays REMOTE whatever the send
    returns, and the cursor is not warped.  Going back to LOCAL it sends
    nothing and the key is passed on.  Without a client nothing changes but
    the activity stamp. *)
Theorem f8_toggles_focus
    (env : Gui.Env) (ctrl_down alt_down : bool) (scan flags : Z)
    (st : Gui.AppState) :
  let kb := Build_KBDLLHOOKSTRUCT VK_F8 scan flags in
  let r := Gui.keyboard_hook env ctrl_down alt_down 0 WM_KEYDOWN kb st in
  let remote := Gui.active_on_remote st in
  (Gui.active_client st = true ->
   Gui.active_on_remote (fst r) = negb remote
   /\ suppress (fst r) = negb remote
   /\ snd r = (if remote then CallNextHookEx else Blocked)
   /\ skipn (List.length (Gui.journal st)) (Gui.journal (fst r))
      = Gui.SetActiveOnRemote (negb remote) :: Gui.CaptureInput (negb remote)
        :: (if remote then []
            else [Gui.Send
                    (encode (EvSwitchScreen
                               (SwitchScreenEvent.mk ScreenEdge.LEFT
                                  (Z.quot (Gui.SM_CYSCREEN env) 2)))
                       (Gui.clock_ms env))
                    (Gui.send_result env)]))
  /\ (Gui.active_client st = false ->
      Gui.active_on_remote (fst r) = remote
      /\ suppress (fst r) = suppress st
      /\ Gui.journal (fst r) = Gui.journal st).
Proof.
  intros kb r remote.
  destruct (touched_facts (to_u32 (Gui.tick env)) st) as (Hj & Ha' & Hc' & Hsup).
  cbv zeta in Hj, Ha', Hc', Hsup.
  assert (Hem : InputCapture.is_emergency_key VK_F8 ctrl_down alt_down = false)
    by (now destruct ctrl_down, alt_down).
  subst r. unfold Gui.keyboard_hook, InputCapture.keyboard_hook_proc.
  change (0 >=? 0) with true. cbv iota. cbn [kb_vkCode kb]. rewrite Hem. cbv zeta.
  cbn [InputCapture.key_callback_ Gui.callbacks kb_scanCode kb_flags kb].
  set (a := if InputCapture.captured_ (Gui.input_capture st) then _ else st) in *.
  change ((WM_KEYDOWN =? WM_KEYDOWN) || (WM_KEYDOWN =? WM_SYSKEYDOWN)) with true.
  unfold Gui.on_key. change ((VK_F8 =? VK_F8) && true) with true. cbv iota zeta.
  rewrite Hc'. split.
  - intros Hc. rewrite Hc. autorewrite with app_proj. rewrite Ha'. fold remote.
    destruct remote; cbn [negb].
    + change (InputCapture.captured_ (Gui.input_capture
                (Gui.capture_input env false (Gui.set_active_on_remote false a))))
        with (suppress (Gui.capture_input env false (Gui.set_active_on_remote false a))).
      autorewrite with app_proj. cbn [fst snd].
      autorewrite with app_proj. rewrite Hj, <- app_assoc, skipn_length_app.
      repeat split.
    + autorewrite with app_proj. rewrite Hc'. rewrite Hc.
      unfold Gui.send. cbn [snd].
      change (InputCapture.captured_ (Gui.input_capture (Gui.record ?e ?s)))
        with (suppress (Gui.record e s)).
      autorewrite with app_proj. cbn [fst snd].
      autorewrite with app_proj. rewrite Hj, <- !app_assoc, skipn_length_app.
      repeat split.
  - intros Hc. rewrite Hc.
    change (InputCapture.captured_ (Gui.input_capture a)) with (suppress a).
    rewrite fst_if. repeat split; assumption.
Qed.

(** ** The handover of the GUI application *)

(** X25.  Handing the focus over, end to end, between the GUI primary and
    the GUI client.  A hooked mouse move onto an edge where a connected
    neighbour is found, made in LOCAL with a client socket valid and the
    frame sent whole, is itself kept from the local system; the primary
    ends in REMOTE with its recorded position at the centre of its screen;
    and the client, on the one frame sent, becomes active, entered at the
    opposite edge, with its cursor on that edge at the primary's edge
    position clamped to the client's screen.  The pointer, its distance
    from the recorded position and the rectangles of the topology are taken
    to be within the range of [int], the screen size the client reads to be
    positive, and the screen of its simulator to be one [move_mouse] is
    defined on (2 to 32768 pixels each way). *)
Theorem gui_handover
    (env : Gui.Env) (ms : MSLLHOOKSTRUCT) (st : Gui.AppState)
    (c : Gui.ClientLoop) (edge : ScreenEdge.t) (pos : Z) :
  let w := Gui.local_width c in
  let h := Gui.local_height c in
  Gui.active_client st = true ->
  Gui.active_on_remote st = false ->
  suppress st = false ->
  Gui.check_all_edges (pt_x ms) (pt_y ms) st = (true, edge, pos) ->
  Gui.found_neighbor (Gui.computer_name st) edge pos (Gui.local_info st)
    (Gui.layout st) = true ->
  pt_x ms <> InputCapture.last_x_ (Gui.input_capture st)
  \/ pt_y ms <> InputCapture.last_y_ (Gui.input_capture st) ->
  Gui.send_result env
  = frame_size (EvSwitchScreen (SwitchScreenEvent.mk (Gui.entry_edge_for edge) pos)) ->
  edge_test_in_range st (pt_x ms) (pt_y ms) pos ->
  is_i32 (pt_x ms - InputCapture.last_x_ (Gui.input_capture st)) ->
  is_i32 (pt_y ms - InputCapture.last_y_ (Gui.input_capture st)) ->
  0 < w -> 0 < h -> is_i32 w -> is_i32 h ->
  screen_in_range (InputSimulator.screen_width_ (Gui.input_simulator c))
                  (InputSimulator.screen_height_ (Gui.input_simulator c)) ->
  let r := Gui.mouse_hook env 0 WM_MOUSEMOVE ms st in
  let c' := fst (Gui.client_turn (sent_by st (fst r)) c) in
  snd r = Blocked
  /\ Gui.active_on_remote (fst r) = true
  /\ InputCapture.last_x_ (Gui.input_capture (fst r))
     = Z.quot (Gui.screen_width (Gui.local_info st)) 2
  /\ InputCapture.last_y_ (Gui.input_capture (fst r))
     = Z.quot (Gui.screen_height (Gui.local_info st)) 2
  /\ Gui.active c' = true
  /\ Gui.entry_edge c' = Gui.entry_edge_for edge
  /\ match edge with
     | ScreenEdge.LEFT =>
         Gui.cursor_x c' = w - 1 /\ Gui.cursor_y c' = clamp 0 (h - 1) pos
     | ScreenEdge.RIGHT =>
         Gui.cursor_x c' = 0 /\ Gui.cursor_y c' = clamp 0 (h - 1) pos
     | ScreenEdge.TOP =>
         Gui.cursor_x c' = clamp 0 (w - 1) pos /\ Gui.cursor_y c' = h - 1
     | ScreenEdge.BOTTOM =>
         Gui.cursor_x c' = clamp 0 (w - 1) pos /\ Gui.cursor_y c' = 0
     | _ => False
     end.
Proof.
  intros w h Hc Ha Hsup Hedge Hfound Hmoved Hfs Hrange _ _ Hw Hh _ _ _ r c'.
  assert (Hpos : is_i32 pos) by apply Hrange.
  assert (Hs : 0 < Gui.send_result env) by (rewrite Hfs; apply frame_size_pos).
  set (event := SwitchScreenEvent.mk (Gui.entry_edge_for edge) pos) in *.
  set (st1 := Gui.capture_input env true (Gui.set_active_on_remote true st)).
  set (st2 := Gui.warp_cursor (Z.quot (Gui.screen_width (Gui.local_info st)) 2)
                (Z.quot (Gui.screen_height (Gui.local_info st)) 2)
                (Gui.record
                   (Gui.Send (encode (EvSwitchScreen event) (Gui.clock_ms env))
                      (Gui.send_result env)) st1)).
  assert (Hmove : forall dx dy,
            Gui.on_mouse_move env (pt_x ms) (pt_y ms) dx dy st = st2).
  { intros dx dy. unfold Gui.on_mouse_move. cbv zeta. rewrite Hc. cbn [negb].
    rewrite Hedge, Hfound, Ha. cbn [negb andb]. fold event. fold st1.
    change (Gui.active_client st1) with (Gui.active_client st). rewrite Hc.
    unfold Gui.send. cbv beta iota.
    destruct (Z.leb_spec (Gui.send_result env) 0); [lia|]. reflexivity. }
  assert (Hr : r = (st2, Blocked)).
  { subst r. unfold Gui.mouse_hook, InputCapture.mouse_hook_proc.
    change (0 >=? 0) with true. cbv iota zeta.
    unfold suppress in Hsup. rewrite Hsup.
    unfold InputCapture.mouse_switch.
    change (WM_MOUSEMOVE =? WM_MOUSEMOVE) with true. cbv iota zeta.
    cbn [InputCapture.move_callback_ Gui.callbacks].
    assert (Hd : negb (pt_x ms - InputCapture.last_x_ (Gui.input_capture st) =? 0)
                 || negb (pt_y ms - InputCapture.last_y_ (Gui.input_capture st) =? 0)
                 = true).
    { destruct (Z.eqb_spec (pt_x ms - InputCapture.last_x_ (Gui.input_capture st)) 0);
        destruct (Z.eqb_spec (pt_y ms - InputCapture.last_y_ (Gui.input_capture st)) 0);
        try reflexivity. lia. }
    rewrite Hd, Hmove.
    change (InputCapture.captured_ (Gui.input_capture st2)) with true.
    reflexivity. }
  assert (Hnamed : ScreenEdge.named (Gui.entry_edge_for edge)
                   /\ match edge with
                      | ScreenEdge.LEFT | ScreenEdge.RIGHT
                      | ScreenEdge.TOP | ScreenEdge.BOTTOM => True
                      | _ => False
                      end).
  { rewrite check_all_edges_spec in Hedge. cbv zeta in Hedge.
    repeat match type of Hedge with
           | (if ?b then _ else _) = _ => destruct b
           end;
      try discriminate; injection Hedge as <- <-; split; exact I. }
  destruct Hnamed as [Hnamed Hfour].
  assert (Hframe : sent_by st (fst r) = encode (EvSwitchScreen event) (Gui.clock_ms env)).
  { rewrite Hr. cbn [fst]. unfold sent_by, st2, st1.
    autorewrite with app_proj. rewrite <- !app_assoc, skipn_length_app.
    cbn [gui_wire app]. rewrite Hfs, firstn_frame. apply app_nil_r. }
  rewrite Hr. cbn [fst snd].
  split; [reflexivity|]. split; [reflexivity|].
  split; [reflexivity|]. split; [reflexivity|].
  subst c'. rewrite Hframe. unfold Gui.client_turn.
  rewrite <- (app_nil_r (encode _ _)), Gui_client_decode_encode
    by (split; [exact Hnamed | exact Hpos]).
  cbn [fst Gui.client_handle].
  unfold Gui.client_switch_screen. cbv zeta.
  destruct edge; try contradiction; cbn; fold w h;
    repeat split; try reflexivity; unfold clamp; lia.
Qed.

Lemma gui_handover_witness :
  let env := Gui.mkEnv 1000 1000 14 1080 in
  let peer := Gui.mkComputerInfo "beta" "10.0.0.2" 24800 1280 720 false true 0 1920 300 in
  let st0 := Gui.with_active_client true (Gui.init "alpha" 1920 1080) in
  let st := Gui.with_layout (Gui.layout st0 ++ [peer]) st0 in
  let c :=
    Gui.client_start (InputSimulator.init 1280 720 0 0 InputSimulator.construct)
      1280 720 in
  let r := Gui.mouse_hook env 0 WM_MOUSEMOVE (Build_MSLLHOOKSTRUCT 1919 900 0) st in
  let c' := fst (Gui.client_turn (sent_by st (fst r)) c) in
  edge_test_in_range st 1919 900 900
  /\ snd r = Blocked
  /\ Gui.active c' = true
  /\ Gui.cursor_x c' = 0 /\ Gui.cursor_y c' = 719.
Proof.
  intros env peer st0 st c r c'.
  assert (Hrange : edge_test_in_range st 1919 900 900).
  { unfold edge_test_in_range, rectangle_in_range, is_i32. cbn.
    repeat split; try lia. repeat constructor; cbn; lia. }
  assert (Hs : screen_in_range
                 (InputSimulator.screen_width_ (Gui.input_simulator c))
                 (InputSimulator.screen_height_ (Gui.input_simulator c)))
    by (unfold screen_in_range; cbn; lia).
  assert (Hmoved : 1919 <> InputCapture.last_x_ (Gui.input_capture st)
                   \/ 900 <> InputCapture.last_y_ (Gui.input_capture st))
    by (left; cbn; lia).
  assert (Hdx : is_i32 (1919 - InputCapture.last_x_ (Gui.input_capture st)))
    by (unfold is_i32; cbn; lia).
  assert (Hdy : is_i32 (900 - InputCapture.last_y_ (Gui.input_capture st)))
    by (unfold is_i32; cbn; lia).
  assert (Hw : is_i32 (Gui.local_width c)) by (unfold is_i32; cbn; lia).
  assert (Hh : is_i32 (Gui.local_height c)) by (unfold is_i32; cbn; lia).
  destruct (gui_handover env (Build_MSLLHOOKSTRUCT 1919 900 0) st c
              ScreenEdge.RIGHT 900
              eq_refl eq_refl eq_refl eq_refl eq_refl Hmoved eq_refl
              Hrange Hdx Hdy eq_refl eq_refl Hw Hh Hs)
    as (H1 & _ & _ & _ & H5 & _ & H7 & H8).
  split; [exact Hrange|]. repeat split; assumption.
Defined.
